(** * ai-place-search: the search, filter, classification and navigation core

    A shallow embedding of the TypeScript sources of the places feature:
    - [lib/mock/places-service.ts]  (MockPlacesService, MockOpenAIService,
      MockDistanceService),
    - [lib/mock/places-data.ts]     (mockAIAnalyses, getClassificationFromRating),
    - [lib/services/google-places]  (GooglePlacesService.calculateDistance,
      searchPlaces, textSearch, convertGooglePlaceToPlace),
    - [hooks/api/use-places-search.ts] (usePlacesSearch),
    - [hooks/shared/use-navigation-state.ts] (useNavigationState, useLocation),
    - [features/places/map-container.tsx] (the navigation effect, the menu
      handlers, the cleanup on unmount),
    - [features/places/place-filters.tsx] (resetFilters, hasActiveFilters,
      the price checkboxes),
    - [features/places/place-search-container.tsx] (the markers).

    JavaScript [number]s are IEEE 754 binary64 values, which is what Rocq's
    primitive [float] is, so [rating], [distance], thresholds,
    the sort comparator and the haversine distance are embedded with the
    arithmetic the program really performs.  What ECMAScript leaves to the
    engine is a parameter of the definitions that use it: the digits of
    [Number.prototype.toString], [String.prototype.toLowerCase] on the
    strings of a search, and [Math.sin], [Math.cos], [Math.sqrt] and
    [Math.atan2] in module [Haversine].  The query client of
    [lib/tanstack-query/client.ts] is embedded as far as the hooks use it:
    cache entries with the time they were written, the stale times, the
    mutations with the receiver their functions are called on, and the
    collection of unobserved entries. *)

From Stdlib Require Import ZArith Floats Lia List Sorted Permutation Ascii String.
From stdpp Require Import gmap strings list.

Set Warnings "-inexact-float".

(* ===================================================================== *)
(** * Part I: the program *)
(* ===================================================================== *)

(** ** JavaScript numbers, strings and arrays *)

Module JS.

(** [ToBoolean] of a number: [0], [-0] and [NaN] are falsy. *)
Definition truthy (x : float) : bool := negb (is_zero x || is_nan x).

(** [ToBoolean] of a string: only the empty string is falsy. *)
Definition truthy_string (s : string) : bool := negb (String.eqb s "").

(** [x || d] for an optional number [x]. *)
Definition or_number (x : option float) (d : float) : float :=
  match x with
  | Some v => if truthy v then v else d
  | None => d
  end.

(** [a >= b] on numbers. *)
Definition geb (a b : float) : bool := (b <=? a)%float.

(** [Math.min(a, b)]: [NaN] if either argument is, [-0] below [+0]. *)
Definition Math_min (a b : float) : float :=
  if is_nan a || is_nan b then nan
  else if (a <? b)%float then a
  else if (b <? a)%float then b
  else if get_sign a then a else b.

(** [Math.max(a, b)]: [NaN] if either argument is, [+0] above [-0]. *)
Definition Math_max (a b : float) : float :=
  if is_nan a || is_nan b then nan
  else if (a <? b)%float then b
  else if (b <? a)%float then a
  else if get_sign a then b else a.

(** The errors the embedded code throws. *)
Inductive Error := TypeError (message : string).

(** [SameValueZero], the equality of [Array.prototype.includes]. *)
Definition sameValueZero (x y : float) : bool :=
  (x =? y)%float || (is_nan x && is_nan y).

Definition Array_includes (l : list float) (v : float) : bool :=
  existsb (sameValueZero v) l.

(** [String.prototype.toLowerCase] on strings of ASCII characters: the
    letters A to Z are lowered, the other characters are returned as they
    are.  The code that lower-cases text it is given ([searchPlaces]) takes
    the engine's conversion as a parameter instead. *)
Definition lower_ascii (c : ascii) : ascii :=
  let n := nat_of_ascii c in
  if (65 <=? n)%nat && (n <=? 90)%nat then ascii_of_nat (n + 32) else c.

Fixpoint toLowerCase (s : string) : string :=
  match s with
  | EmptyString => EmptyString
  | String c s' => String (lower_ascii c) (toLowerCase s')
  end.

(** [s.includes(sub)]. *)
Fixpoint includes (s sub : string) : bool :=
  String.prefix sub s ||
  match s with
  | EmptyString => false
  | String _ s' => includes s' sub
  end.

(** [Array.prototype.sort(comparefn)].  A comparator result [v > 0] asks
    for the first argument to be placed after the second; anything else
    ([v <= 0] or [NaN]) leaves the first argument in front.

    ECMAScript fixes the result of a sort only for a consistent
    comparator: the elements are rearranged so that no element stands
    before one that the comparator puts ahead of it ([sortOrder]), equal
    elements keeping their order.  [Array_sort] is the stable insertion
    sort, one sort that meets this.  For a comparator that is not
    consistent the order is left to the engine: of [Array_sort] only what
    every engine shares is used then, namely that the result is a
    rearrangement of the input. *)
Section ArraySort.
Context {A : Type} (comparefn : A -> A -> float).

Definition sortsAfter (a b : A) : bool := (0 <? comparefn a b)%float.

(** [comparefn(a, b) < 0]: the comparator puts [a] ahead of [b]. *)
Definition sortsBefore (a b : A) : bool := (comparefn a b <? 0)%float.

(** The order ECMAScript asks of a sorted array: no element is followed,
    anywhere later, by an element that the comparator puts ahead of it. *)
Definition sortOrder (l : list A) : Prop :=
  StronglySorted (fun earlier later => sortsBefore later earlier = false) l.

Fixpoint insert (x : A) (l : list A) : list A :=
  match l with
  | [] => [x]
  | y :: l' => if sortsAfter x y then y :: insert x l' else x :: l
  end.

Fixpoint Array_sort (l : list A) : list A :=
  match l with
  | [] => []
  | x :: l' => insert x (Array_sort l')
  end.
End ArraySort.

(** [arr.slice(0, n)]. *)
Definition Array_slice0 {A : Type} (n : nat) (l : list A) : list A := firstn n l.

End JS.

(** ** types/places.ts *)

Inductive PlaceType := RESTAURANTS | PARKINGS | HOTELS.

Inductive PlaceClassification := EXCELLENT | VERY_GOOD | GOOD | AVERAGE | POOR.

Module Sentiment.
Inductive t := positive | neutral | negative.
End Sentiment.

Module Coordinates.
Record t := mk { lat : float; lng : float }.
End Coordinates.

Module AIAnalysis.
Record t := mk {
  classification : PlaceClassification;
  confidence : float;
  summary : string;
  pros : list string;
  cons : list string;
  sentiment : Sentiment.t;
  keywords : list string
}.
End AIAnalysis.

(** The fields of [Place] that the search, filter and classification code
    reads; optional fields ([priceLevel?], [aiAnalysis?], [distance?]) are
    [option]s, [None] standing for [undefined]. *)
Module Place.
Record t := mk {
  id : string;
  name : string;
  address : string;
  coordinates : Coordinates.t;
  rating : float;
  totalReviews : float;
  priceLevel : option float;
  aiAnalysis : option AIAnalysis.t;
  distance : option float
}.

(** [{ ...place, aiAnalysis: a }] *)
Definition with_aiAnalysis (p : t) (a : option AIAnalysis.t) : t :=
  mk (id p) (name p) (address p) (coordinates p) (rating p) (totalReviews p)
     (priceLevel p) a (distance p).

(** [{ ...place, id: placeId }] *)
Definition with_id (p : t) (placeId : string) : t :=
  mk placeId (name p) (address p) (coordinates p) (rating p) (totalReviews p)
     (priceLevel p) (aiAnalysis p) (distance p).

(** [{ ...place, totalReviews: n }]: the place with another review count. *)
Definition with_totalReviews (p : t) (n : float) : t :=
  mk (id p) (name p) (address p) (coordinates p) (rating p) n
     (priceLevel p) (aiAnalysis p) (distance p).
End Place.

Module PlaceSearchParams.
Record t := mk {
  location : Coordinates.t;
  type : PlaceType;
  radius : float;
  keyword : option string;
  minRating : option float;
  priceLevel : option (list float);
  openNow : option bool
}.
End PlaceSearchParams.

Module PlaceSearchResult.
Record t := mk {
  places : list Place.t;
  totalFound : nat;
  searchParams : PlaceSearchParams.t;
  searchTime : float;
  nextPageToken : option string
}.

(** [{ ...oldData, places: ps }] *)
Definition with_places (r : t) (ps : list Place.t) : t :=
  mk ps (totalFound r) (searchParams r) (searchTime r) (nextPageToken r).
End PlaceSearchResult.

(** [Partial<PlaceFilters>]: every clause may be left undeclared. *)
Module PlaceFilters.
Module Rating.
Record t := mk { min : float; max : float }.
End Rating.
Module Distance.
Record t := mk { max : float }.   (* in km *)
End Distance.
Record t := mk {
  rating : option Rating.t;
  priceLevel : option (list float);
  openNow : option bool;
  distance : option Distance.t;
  features : option (list string)
}.
Definition empty : t := mk None None None None None.
End PlaceFilters.

(** ** lib/mock/places-service.ts: MockPlacesService *)

Module MockPlacesService.
Import JS.

(** The comparator handed to [filteredPlaces.sort]. *)
Definition comparefn (a b : Place.t) : float :=
  let ratingDiff := (Place.rating b - Place.rating a)%float in
  if (abs ratingDiff <? 0.1)%float
  then (or_number (Place.distance a) 0 - or_number (Place.distance b) 0)%float
  else ratingDiff.

Section WithToLowerCase.
(** [String.prototype.toLowerCase], the case conversion of the engine. *)
Variable String_toLowerCase : string -> string.

(** The value of [filteredPlaces] before it is sorted: the generated places
    that pass the [minRating] and [keyword] filters. *)
Definition filteredCandidates (params : PlaceSearchParams.t) (allPlaces : list Place.t)
  : list Place.t :=
  let filteredPlaces := allPlaces in
  let filteredPlaces :=
    match PlaceSearchParams.minRating params with
    | Some minRating =>
        if truthy minRating
        then List.filter (fun place => geb (Place.rating place) minRating) filteredPlaces
        else filteredPlaces
    | None => filteredPlaces
    end in
  match PlaceSearchParams.keyword params with
  | Some kw =>
      if truthy_string kw
      then
        let keyword := String_toLowerCase kw in
        List.filter (fun place =>
                       includes (String_toLowerCase (Place.name place)) keyword ||
                       includes (String_toLowerCase (Place.address place)) keyword)
                    filteredPlaces
      else filteredPlaces
  | None => filteredPlaces
  end.

(** [searchPlaces(params)].  [allPlaces] is what
    [generateMockPlaces(params.type, params.location, 15)] returned for this
    call (the generator draws from [Math.random]) and [now] is [Date.now()]. *)
Definition searchPlaces (allPlaces : list Place.t) (now : float)
           (params : PlaceSearchParams.t) : PlaceSearchResult.t :=
  let filteredPlaces := filteredCandidates params allPlaces in
  let filteredPlaces := Array_sort comparefn filteredPlaces in
  let places := Array_slice0 10 filteredPlaces in
  PlaceSearchResult.mk
    places
    (length filteredPlaces)
    params
    now
    (if (10 <? length filteredPlaces)%nat then Some "next_page_token_123"%string else None).

End WithToLowerCase.

(** [getPlaceDetails(placeId)].  [mockPlace] is what
    [generateMockPlaces(PlaceType.RESTAURANTS, mockLocations.bucharest, 1)[0]]
    returned for this call: one generated restaurant, which is returned
    under the requested id. *)
Definition getPlaceDetails (mockPlace : Place.t) (placeId : string) : Place.t :=
  Place.with_id mockPlace placeId.

End MockPlacesService.


(** ** lib/mock/places-data.ts *)

Module PlacesData.
Import JS.

Definition mockAIAnalyses (c : PlaceClassification) : AIAnalysis.t :=
  match c with
  | EXCELLENT =>
      AIAnalysis.mk EXCELLENT 0.92
        "Outstanding establishment with consistently excellent reviews. Customers praise the quality, service, and atmosphere."
        ["Exceptional food quality"; "Outstanding service"; "Great atmosphere"; "Consistent experience"]
        ["Higher price point"; "Sometimes busy"]
        Sentiment.positive
        ["amazing"; "excellent"; "outstanding"; "perfect"; "wonderful"]
  | VERY_GOOD =>
      AIAnalysis.mk VERY_GOOD 0.87
        "Very good place with mostly positive reviews. Minor areas for improvement but overall highly recommended."
        ["Good food quality"; "Friendly staff"; "Nice location"]
        ["Slightly expensive"; "Occasional service delays"]
        Sentiment.positive
        ["good"; "nice"; "friendly"; "recommended"; "quality"]
  | GOOD =>
      AIAnalysis.mk GOOD 0.75
        "Solid choice with decent reviews. Good value for money with room for improvement."
        ["Reasonable prices"; "Decent food"; "Good location"]
        ["Service could be better"; "Limited menu options"]
        Sentiment.neutral
        ["decent"; "reasonable"; "okay"; "fair"; "acceptable"]
  | AVERAGE =>
      AIAnalysis.mk AVERAGE 0.68
        "Mixed reviews with average performance. Some customers satisfied, others disappointed."
        ["Affordable prices"; "Central location"]
        ["Inconsistent quality"; "Service issues"; "Limited options"]
        Sentiment.neutral
        ["average"; "mixed"; "inconsistent"; "basic"; "standard"]
  | POOR =>
      AIAnalysis.mk POOR 0.81
        "Consistently poor reviews citing quality and service issues. Not recommended."
        ["Low prices"]
        ["Poor food quality"; "Bad service"; "Unclean environment"; "Long wait times"]
        Sentiment.negative
        ["poor"; "bad"; "terrible"; "disappointing"; "avoid"]
  end.

(** [getClassificationFromRating], the bucketing of a raw rating; the
    exported utility of the classification badge component has the same
    body. *)
Definition getClassificationFromRating (rating : float) : PlaceClassification :=
  if geb rating 4.5 then EXCELLENT
  else if geb rating 4.0 then VERY_GOOD
  else if geb rating 3.5 then GOOD
  else if geb rating 3.0 then AVERAGE
  else POOR.

End PlacesData.

(** ** components: place-classification-badge *)

Module PlaceClassificationBadge.
Import JS.

Definition getClassificationFromRating (rating : float) : PlaceClassification :=
  if geb rating 4.5 then EXCELLENT
  else if geb rating 4.0 then VERY_GOOD
  else if geb rating 3.5 then GOOD
  else if geb rating 3.0 then AVERAGE
  else POOR.

End PlaceClassificationBadge.

(** ** The runtime the services run in

    [Math.random()] returns the next value of a sequence fixed in advance,
    and every call of the AI provider is recorded, so that "no call is
    issued" can be stated. *)

Module Runtime.

Record Env := mkEnv {
  randomSource : nat -> float;   (* the values Math.random() returns, in order *)
  randomCursor : nat;            (* how many have been drawn *)
  providerCalls : list string    (* ids of the places sent to the AI provider, oldest first *)
}.

(** Computations that read and update the runtime. *)
Definition M (A : Type) : Type := Env -> A * Env.

Definition ret {A : Type} (a : A) : M A := fun env => (a, env).

Definition bind {A B : Type} (c : M A) (k : A -> M B) : M B :=
  fun env => let '(a, env') := c env in k a env'.

Definition Math_random : M float :=
  fun env =>
    (randomSource env (randomCursor env),
     mkEnv (randomSource env) (S (randomCursor env)) (providerCalls env)).

Definition recordProviderCall (placeId : string) : M unit :=
  fun env =>
    (tt, mkEnv (randomSource env) (randomCursor env) (providerCalls env ++ [placeId])).

(** [n] calls of [Math.random()] whose values go into data that the
    embedding takes as given (the places the generator builds). *)
Definition drawRandom (n : nat) : M unit :=
  fun env =>
    (tt, mkEnv (randomSource env) (randomCursor env + n) (providerCalls env)).

End Runtime.

Declare Scope js_scope.
Delimit Scope js_scope with js.
Notation "'let*' x := c 'in' k" := (Runtime.bind c (fun x => k))
  (at level 10, x name, c at level 100, k at level 200) : js_scope.
Notation "'perform' c 'in' k" := (Runtime.bind c (fun _ => k))
  (at level 10, c at level 100, k at level 200) : js_scope.

(** ** lib/mock/places-service.ts: MockOpenAIService *)

Module MockOpenAIService.
Import JS Runtime.

Section WithNumberToString.
(** [Number.prototype.toString], used by the template literals of the
    summaries. *)
Variable Number_toString : float -> string.

(** The review-volume weight of [getClassificationFromMetrics]. *)
Definition confidenceMultiplier (reviewCount : float) : float :=
  Math_min (reviewCount / 100)%float 1%float.

Definition adjustedRating (rating reviewCount : float) : float :=
  (rating * (0.7 + 0.3 * confidenceMultiplier reviewCount))%float.

Definition getClassificationFromMetrics (rating reviewCount : float)
  : PlaceClassification :=
  let adjustedRating := adjustedRating rating reviewCount in
  if geb adjustedRating 4.5 then EXCELLENT
  else if geb adjustedRating 4.0 then VERY_GOOD
  else if geb adjustedRating 3.5 then GOOD
  else if geb adjustedRating 3.0 then AVERAGE
  else POOR.

Definition baseTemplates (place : Place.t) (classification : PlaceClassification)
  : string * string :=
  let name := Place.name place in
  let rating := Number_toString (Place.rating place) in
  let totalReviews := Number_toString (Place.totalReviews place) in
  match classification with
  | EXCELLENT =>
      (name +:+ " stands out as an exceptional choice with a " +:+ rating +:+
         "★ rating from " +:+ totalReviews +:+ " reviews.",
       "Highly acclaimed " +:+ name +:+
         " delivers outstanding experience consistently, earning " +:+ rating +:+
         "★ from " +:+ totalReviews +:+ " satisfied customers.")
  | VERY_GOOD =>
      (name +:+ " is a very good option with " +:+ rating +:+ "★ rating from " +:+
         totalReviews +:+ " reviews.",
       "Well-regarded " +:+ name +:+ " maintains high standards with " +:+ rating +:+
         "★ from " +:+ totalReviews +:+ " visitors.")
  | GOOD =>
      (name +:+ " offers a solid experience with " +:+ rating +:+ "★ rating from " +:+
         totalReviews +:+ " reviews.",
       "Dependable choice " +:+ name +:+ " provides good value with " +:+ rating +:+
         "★ from " +:+ totalReviews +:+ " customers.")
  | AVERAGE =>
      (name +:+ " shows mixed results with " +:+ rating +:+ "★ rating from " +:+
         totalReviews +:+ " reviews.",
       name +:+ " delivers average performance with " +:+ rating +:+ "★ from " +:+
         totalReviews +:+ " mixed reviews.")
  | POOR =>
      (name +:+ " has concerning reviews with " +:+ rating +:+ "★ rating from " +:+
         totalReviews +:+ " reviews.",
       name +:+ " shows consistent issues based on " +:+ rating +:+ "★ from " +:+
         totalReviews +:+ " disappointed customers.")
  end.

(** [templates[Math.floor(Math.random() * templates.length)]] with two
    templates: the first one for a draw below one half. *)
Definition generateCustomSummary (place : Place.t) (classification : PlaceClassification)
  : M string :=
  (let* u := Math_random in
   let templates := baseTemplates place classification in
   ret (if (u * 2 <? 1)%float then fst templates else snd templates))%js.

(** [analyzePlaceReviews(place)], one call of the AI provider. *)
Definition analyzePlaceReviews (place : Place.t) : M AIAnalysis.t :=
  (perform recordProviderCall (Place.id place) in
   let classification :=
     getClassificationFromMetrics (Place.rating place) (Place.totalReviews place) in
   let baseAnalysis := PlacesData.mockAIAnalyses classification in
   let* summary := generateCustomSummary place classification in
   let* u := Math_random in
   ret (AIAnalysis.mk
          (AIAnalysis.classification baseAnalysis)
          (u * 0.2 + 0.8)%float
          summary
          (AIAnalysis.pros baseAnalysis)
          (AIAnalysis.cons baseAnalysis)
          (AIAnalysis.sentiment baseAnalysis)
          (AIAnalysis.keywords baseAnalysis)))%js.

(** [batchAnalyzePlaces(places)]: the loop
    [for (const place of places) analyses[place.id] = await analyzePlaceReviews(place)]. *)
Fixpoint batchAnalyzeLoop (places : list Place.t) (analyses : gmap string AIAnalysis.t)
  : M (gmap string AIAnalysis.t) :=
  match places with
  | [] => ret analyses
  | place :: rest =>
      (let* a := analyzePlaceReviews place in
       batchAnalyzeLoop rest (<[Place.id place := a]> analyses))%js
  end.

Definition batchAnalyzePlaces (places : list Place.t) : M (gmap string AIAnalysis.t) :=
  batchAnalyzeLoop places ∅.

(** *** Calls with another receiver

    The static methods reach their helpers through [this]
    ([this.getClassificationFromMetrics], [this.generateCustomSummary],
    [this.analyzePlaceReviews]).  The definitions above are the methods
    called on the class, [MockOpenAIService.analyzePlaceReviews(place)],
    where [this] is the class.  A method taken off the class and called as
    the method of another object has that object as [this]; the object has
    none of the helpers, so the first call through [this] throws a
    [TypeError].  Either way the call of [analyzePlaceReviews] is a call of
    the provider and is recorded. *)
Inductive Receiver := theClass | anotherObject.

Definition analyzePlaceReviews_this (this : Receiver) (place : Place.t)
  : M (Error + AIAnalysis.t) :=
  match this with
  | theClass => (let* analysis := analyzePlaceReviews place in ret (inr analysis))%js
  | anotherObject =>
      (perform recordProviderCall (Place.id place) in
       ret (inl (TypeError "this.getClassificationFromMetrics is not a function")))%js
  end.

(** In [batchAnalyzePlaces] the first call through [this] is made for the
    first place; for no places the loop body never runs. *)
Definition batchAnalyzePlaces_this (this : Receiver) (places : list Place.t)
  : M (Error + gmap string AIAnalysis.t) :=
  match this with
  | theClass => (let* analyses := batchAnalyzePlaces places in ret (inr analyses))%js
  | anotherObject =>
      match places with
      | [] => ret (inr ∅)
      | _ :: _ => ret (inl (TypeError "this.analyzePlaceReviews is not a function"))
      end
  end.

End WithNumberToString.
End MockOpenAIService.

(** ** hooks/api/use-places-search.ts: usePlacesSearch *)

Module UsePlacesSearch.
Import JS Runtime.

(** *** The query cache

    The query client keeps one entry per query key and hashes a key with
    [JSON.stringify]: two search keys [['places', ..., 'search', params]]
    name the same entry exactly when their [params] serialise alike.  In
    JSON [NaN] and the infinities are all written [null], [-0] is written
    [0], and an [undefined] field is left out. *)

(** A number as JSON writes it: [None] for [null]. *)
Definition jsonNumber (x : float) : option float :=
  if is_finite x then Some (if is_zero x then 0%float else x) else None.

Record QueryKey := mkKey {
  key_location : option float * option float;
  key_type : PlaceType;
  key_radius : option float;
  key_keyword : option string;
  key_minRating : option (option float);
  key_priceLevel : option (list (option float));
  key_openNow : option bool
}.

Definition jsonLocation (c : Coordinates.t) : option float * option float :=
  (jsonNumber (Coordinates.lat c), jsonNumber (Coordinates.lng c)).

(** [hashKey(queryKeys.places.search(params))] *)
Definition hashKey (params : PlaceSearchParams.t) : QueryKey :=
  mkKey (jsonLocation (PlaceSearchParams.location params))
        (PlaceSearchParams.type params)
        (jsonNumber (PlaceSearchParams.radius params))
        (PlaceSearchParams.keyword params)
        (option_map jsonNumber (PlaceSearchParams.minRating params))
        (option_map (map jsonNumber) (PlaceSearchParams.priceLevel params))
        (PlaceSearchParams.openNow params).

#[global] Instance float_eq_dec : EqDecision float.
Proof.
  intros x y. destruct (PrimFloat.Leibniz.eqb x y) eqn:E.
  - left. now apply FloatAxioms.Leibniz.eqb_spec.
  - right. intros H. apply FloatAxioms.Leibniz.eqb_spec in H. congruence.
Defined.

#[global] Instance PlaceType_eq_dec : EqDecision PlaceType.
Proof. solve_decision. Defined.

#[global] Instance QueryKey_eq_dec : EqDecision QueryKey.
Proof. solve_decision. Defined.

Definition sameKey (a b : PlaceSearchParams.t) : bool :=
  bool_decide (hashKey a = hashKey b).

(** An entry of the query cache: the data of the query and the time
    ([Date.now()]) at which it was written.  The client collects an entry
    ten minutes ([gcTime]) after it was last written or observed; by then
    its data is stale by each of the stale times below, and [fetchQuery]
    and the observers request a stale entry as they request a missing one,
    so the entries of the searches and of the details are kept here. *)
Record Query (A : Type) := mkQuery { data : A; dataUpdatedAt : float }.
Arguments mkQuery {A} _ _.
Arguments data {A} _.
Arguments dataUpdatedAt {A} _.

Record QueryCache := mkCache {
  searchQueries : list (PlaceSearchParams.t * Query PlaceSearchResult.t);
  detailQueries : gmap string (Query Place.t)
}.

Definition emptyCache : QueryCache := mkCache [] ∅.

(** The entry of [queryKeys.places.search(params)]. *)
Fixpoint getSearchQuery (params : PlaceSearchParams.t)
         (entries : list (PlaceSearchParams.t * Query PlaceSearchResult.t))
  : option (Query PlaceSearchResult.t) :=
  match entries with
  | [] => None
  | (k, q) :: rest => if sameKey params k then Some q else getSearchQuery params rest
  end.

(** [getQueryData(queryKeys.places.search(params))] *)
Definition getSearchData (params : PlaceSearchParams.t)
           (entries : list (PlaceSearchParams.t * Query PlaceSearchResult.t))
  : option PlaceSearchResult.t :=
  option_map data (getSearchQuery params entries).

(** Writing the data of a search query under its key, at the time [now]. *)
Fixpoint setSearchData (params : PlaceSearchParams.t) (d : PlaceSearchResult.t)
         (now : float) (entries : list (PlaceSearchParams.t * Query PlaceSearchResult.t))
  : list (PlaceSearchParams.t * Query PlaceSearchResult.t) :=
  match entries with
  | [] => [(params, mkQuery d now)]
  | (k, q) :: rest =>
      if sameKey params k then (k, mkQuery d now) :: rest
      else (k, q) :: setSearchData params d now rest
  end.

(** [setQueryData(queryKeys.places.search(params), updater)] at the time
    [now], with an updater that returns [oldData] unchanged when there is
    none. *)
Definition updateSearchData (params : option PlaceSearchParams.t)
           (updater : PlaceSearchResult.t -> PlaceSearchResult.t) (now : float)
           (c : QueryCache) : QueryCache :=
  match params with
  | None => c
  | Some p =>
      match getSearchData p (searchQueries c) with
      | None => c
      | Some oldData =>
          mkCache (setSearchData p (updater oldData) now (searchQueries c))
                  (detailQueries c)
      end
  end.

(** The [staleTime] of the query client, [defaultOptions.queries.staleTime],
    which [fetchQuery] uses; of the search query the hook observes; of the
    details query. *)
Definition defaultStaleTime : float := 5 * 60 * 1000.
Definition searchStaleTime : float := 2 * 60 * 1000.
Definition detailStaleTime : float := 5 * 60 * 1000.

(** [query.isStaleByTime(staleTime)] at the time [now]: data is stale once
    [Math.max(dataUpdatedAt + staleTime - now, 0)] is 0. *)
Definition isStaleByTime {A : Type} (q : Query A) (staleTime now : float) : bool :=
  negb (truthy (Math_max (dataUpdatedAt q + staleTime - now) 0)).

(** *** The state of the hook *)

(** One run of a mutation: the variables [mutate] was called with and what
    [mutationFn] ended in, an error it threw or the data it returned. *)
Record MutationRun (V D : Type) := mkRun { variables : V; outcome : Error + D }.
Arguments mkRun {V D} _ _.
Arguments variables {V D} _.
Arguments outcome {V D} _.

(** The four [useState] values, the query cache, and the runs of the two
    mutations, oldest first. *)
Record State := mkState {
  searchParams : option PlaceSearchParams.t;
  selectedPlace : option Place.t;
  filters : PlaceFilters.t;
  enableAIAnalysis : bool;
  queryCache : QueryCache;
  analyzeePlaceMutation : list (MutationRun Place.t AIAnalysis.t);
  batchAnalyzeMutation : list (MutationRun (list Place.t) (gmap string AIAnalysis.t))
}.

Definition initialState : State :=
  mkState None None PlaceFilters.empty true emptyCache [] [].

Definition with_queryCache (st : State) (c : QueryCache) : State :=
  mkState (searchParams st) (selectedPlace st) (filters st) (enableAIAnalysis st) c
          (analyzeePlaceMutation st) (batchAnalyzeMutation st).

(** [searchResult], the data of the search query of the current
    [searchParams] (the query is disabled while they are [null]). *)
Definition searchResult (st : State) : option PlaceSearchResult.t :=
  match searchParams st with
  | None => None
  | Some p => getSearchData p (searchQueries (queryCache st))
  end.

(** [placeDetails], the data of the details query of the selected place. *)
Definition placeDetails (st : State) : option Place.t :=
  match selectedPlace st with
  | Some place =>
      if truthy_string (Place.id place)
      then option_map data (detailQueries (queryCache st) !! Place.id place)
      else None
  | None => None
  end.

(** [analysisError], the error of the latest run of the single-place
    mutation. *)
Definition analysisError (st : State) : option Error :=
  match rev (analyzeePlaceMutation st) with
  | run :: _ => match outcome run with inl error => Some error | inr _ => None end
  | [] => None
  end.

(** *** The mutations *)

(** [analyzeePlaceMutation.onSuccess(analysis, place)], at the time [now]. *)
Definition analyzePlace_onSuccess (analysis : AIAnalysis.t) (place : Place.t)
           (now : float) (st : State) : State :=
  let c := queryCache st in
  let c := mkCache (searchQueries c)
             (alter (fun q => mkQuery (Place.with_aiAnalysis (data q) (Some analysis)) now)
                    (Place.id place) (detailQueries c)) in
  let c := updateSearchData (searchParams st)
             (fun oldData =>
                PlaceSearchResult.with_places oldData
                  (map (fun p => if String.eqb (Place.id p) (Place.id place)
                                 then Place.with_aiAnalysis p (Some analysis)
                                 else p)
                       (PlaceSearchResult.places oldData)))
             now c in
  with_queryCache st c.

(** [analyses[place.id] || place.aiAnalysis] *)
Definition mergedAnalysis (analyses : gmap string AIAnalysis.t) (place : Place.t)
  : option AIAnalysis.t :=
  match analyses !! Place.id place with
  | Some a => Some a
  | None => Place.aiAnalysis place
  end.

(** [batchAnalyzeMutation.onSuccess(analyses)], at the time [now]. *)
Definition batchAnalyze_onSuccess (analyses : gmap string AIAnalysis.t) (now : float)
           (st : State) : State :=
  with_queryCache st
    (updateSearchData (searchParams st)
       (fun oldData =>
          PlaceSearchResult.with_places oldData
            (map (fun place => Place.with_aiAnalysis place (mergedAnalysis analyses place))
                 (PlaceSearchResult.places oldData)))
       now (queryCache st)).

Section WithEngine.
Variable Number_toString : float -> string.
Variable String_toLowerCase : string -> string.

(** [analyzeePlaceMutation.mutate(place)], run until the mutation has
    settled, at the time [now].  The mutation was given
    [mutationFn: MockOpenAIService.analyzePlaceReviews] and calls it as
    [options.mutationFn(place)], a method of its options object;
    [onSuccess] runs when the function returns, nothing of the hook when it
    throws. *)
Definition analyzeePlaceMutation_mutate (now : float) (place : Place.t) (st : State)
  : M State :=
  (let* outcome :=
     MockOpenAIService.analyzePlaceReviews_this Number_toString
       MockOpenAIService.anotherObject place in
   let st :=
     mkState (searchParams st) (selectedPlace st) (filters st) (enableAIAnalysis st)
             (queryCache st)
             (analyzeePlaceMutation st ++ [mkRun place outcome])
             (batchAnalyzeMutation st) in
   ret (match outcome with
        | inr analysis => analyzePlace_onSuccess analysis place now st
        | inl _ => st
        end))%js.

(** [batchAnalyzeMutation.mutate(places)], likewise, with
    [mutationFn: MockOpenAIService.batchAnalyzePlaces]. *)
Definition batchAnalyzeMutation_mutate (now : float) (places : list Place.t) (st : State)
  : M State :=
  (let* outcome :=
     MockOpenAIService.batchAnalyzePlaces_this Number_toString
       MockOpenAIService.anotherObject places in
   let st :=
     mkState (searchParams st) (selectedPlace st) (filters st) (enableAIAnalysis st)
             (queryCache st)
             (analyzeePlaceMutation st)
             (batchAnalyzeMutation st ++ [mkRun places outcome]) in
   ret (match outcome with
        | inr analyses => batchAnalyze_onSuccess analyses now st
        | inl _ => st
        end))%js.

(** *** The query functions

    [generateMockPlaces] draws nine random numbers for each place it
    builds: rating, two coordinate offsets, street number, review count,
    price level, phone number, number of reviews and distance. *)

(** [queryFn: () => MockPlacesService.searchPlaces(params)]: fifteen places
    are generated; [allPlaces] is what the generator built. *)
Definition searchPlaces_queryFn (allPlaces : list Place.t) (now : float)
           (params : PlaceSearchParams.t) : M PlaceSearchResult.t :=
  (perform drawRandom (9 * 15) in
   ret (MockPlacesService.searchPlaces String_toLowerCase allPlaces now params))%js.

(** [queryFn: () => MockPlacesService.getPlaceDetails(selectedPlace.id)]:
    one place is generated; [mockPlace] is what the generator built. *)
Definition placeDetails_queryFn (mockPlace : Place.t) (placeId : string) : M Place.t :=
  (perform drawRandom 9 in
   ret (MockPlacesService.getPlaceDetails mockPlace placeId))%js.

(** *** searchPlaces, in the steps the event loop runs it in *)

(** The synchronous head: [setSearchParams(params); setSelectedPlace(null)];
    then [fetchQuery] looks at the cache. *)
Definition searchPlaces_request (params : PlaceSearchParams.t) (st : State) : State :=
  mkState (Some params) None (filters st) (enableAIAnalysis st) (queryCache st)
          (analyzeePlaceMutation st) (batchAnalyzeMutation st).

(** [fetchQuery] at the time [now] resolves to the cached data, without a
    request, when the entry of the key holds data that is not stale by the
    default [staleTime]. *)
Definition fetchQuery_cached (params : PlaceSearchParams.t) (now : float) (c : QueryCache)
  : option PlaceSearchResult.t :=
  match getSearchQuery params (searchQueries c) with
  | Some q => if isStaleByTime q defaultStaleTime now then None else Some (data q)
  | None => None
  end.

(** The response of a request for [params] arrives at the time [now]: it
    is written under the key of the request it belongs to. *)
Definition searchPlaces_response (params : PlaceSearchParams.t)
           (result : PlaceSearchResult.t) (now : float) (st : State) : State :=
  with_queryCache st
    (mkCache (setSearchData params result now (searchQueries (queryCache st)))
             (detailQueries (queryCache st))).

(** The continuation after the [await], for the [result] the fetch
    resolved to: batch enrichment, when [enableAIAnalysis] was on in the
    render whose [searchPlaces] was called ([enabled]); it settles at the
    time [now]. *)
Definition searchPlaces_enrich (enabled : bool) (now : float)
           (result : PlaceSearchResult.t) (st : State) : M State :=
  if enabled && (0 <? length (PlaceSearchResult.places result))%nat
  then batchAnalyzeMutation_mutate now (PlaceSearchResult.places result) st
  else ret st.

(** [searchPlaces(params)], called at the time [now] and run to its end
    without interruption.  When [fetchQuery] has no fresh data it calls the
    service, whose response arrives at the time [served].  When it has, no
    request is made for the call; the search query the hook observes,
    having moved to another key, still refetches if the data is stale by
    its own [staleTime].  The enrichment settles at the time [settled]. *)
Definition searchPlaces (allPlaces : list Place.t) (now served settled : float)
           (params : PlaceSearchParams.t) (st : State) : M State :=
  let enabled := enableAIAnalysis st in
  let moved :=
    match searchParams st with
    | Some previous => negb (sameKey previous params)
    | None => true
    end in
  let st := searchPlaces_request params st in
  match fetchQuery_cached params now (queryCache st) with
  | Some cached =>
      let refetch :=
        match getSearchQuery params (searchQueries (queryCache st)) with
        | Some q => moved && isStaleByTime q searchStaleTime now
        | None => false
        end in
      (let* st :=
         if refetch
         then (let* fetched := searchPlaces_queryFn allPlaces served params in
               ret (searchPlaces_response params fetched served st))
         else ret st in
       searchPlaces_enrich enabled settled cached st)%js
  | None =>
      (let* fetched := searchPlaces_queryFn allPlaces served params in
       let st := searchPlaces_response params fetched served st in
       searchPlaces_enrich enabled settled fetched st)%js
  end.

(** *** selectPlace *)

(** The details query follows the selection.  When it moves to the key of
    a place with an id, at the time [now], it requests the details unless
    the entry of that key holds data that is not stale; the response,
    [getPlaceDetails(id)], is written at the time [fetched]. *)
Definition placeDetails_observe (mockPlace : Place.t) (now fetched : float)
           (previous selected : option Place.t) (c : QueryCache) : M QueryCache :=
  match selected with
  | Some place =>
      let placeId := Place.id place in
      let moved :=
        match previous with
        | Some p => negb (String.eqb (Place.id p) placeId)
        | None => true
        end in
      let request :=
        (let* details := placeDetails_queryFn mockPlace placeId in
         ret (mkCache (searchQueries c)
                      (<[placeId := mkQuery details fetched]> (detailQueries c))))%js in
      if truthy_string placeId && moved
      then match detailQueries c !! placeId with
           | Some q => if isStaleByTime q detailStaleTime now then request else ret c
           | None => request
           end
      else ret c
  | None => ret c
  end.

(** [selectPlace(place)], called at the time [now] and run to its end. *)
Definition selectPlace (mockPlace : Place.t) (now fetched settled : float)
           (place : option Place.t) (st : State) : M State :=
  let enabled := enableAIAnalysis st in
  let previous := selectedPlace st in
  (let* c := placeDetails_observe mockPlace now fetched previous place (queryCache st) in
   let st :=
     mkState (searchParams st) place (filters st) (enableAIAnalysis st) c
             (analyzeePlaceMutation st) (batchAnalyzeMutation st) in
   match place with
   | Some p =>
       if enabled && negb (bool_decide (is_Some (Place.aiAnalysis p)))
       then analyzeePlaceMutation_mutate settled p st
       else ret st
   | None => ret st
   end)%js.

(** [analyzePlace(place)], [mutateAsync] of the single-place mutation: the
    promise settles as the mutation does. *)
Definition analyzePlace (now : float) (place : Place.t) (st : State)
  : M ((Error + AIAnalysis.t) * State) :=
  (let* outcome :=
     MockOpenAIService.analyzePlaceReviews_this Number_toString
       MockOpenAIService.anotherObject place in
   let st :=
     mkState (searchParams st) (selectedPlace st) (filters st) (enableAIAnalysis st)
             (queryCache st)
             (analyzeePlaceMutation st ++ [mkRun place outcome])
             (batchAnalyzeMutation st) in
   ret (outcome,
        match outcome with
        | inr analysis => analyzePlace_onSuccess analysis place now st
        | inl _ => st
        end))%js.

End WithEngine.

(** *** filteredPlaces *)

(** The rating clause: [place.rating >= min && place.rating <= max]. *)
Definition ratingClause (r : PlaceFilters.Rating.t) (place : Place.t) : bool :=
  geb (Place.rating place) (PlaceFilters.Rating.min r) &&
  (Place.rating place <=? PlaceFilters.Rating.max r)%float.

(** The price clause: [place.priceLevel && priceLevel.includes(place.priceLevel)]. *)
Definition priceClause (levels : list float) (place : Place.t) : bool :=
  match Place.priceLevel place with
  | Some v => truthy v && Array_includes levels v
  | None => false
  end.

(** The distance clause: [!place.distance || place.distance <= maxDistanceMeters]. *)
Definition distanceClause (maxDistanceMeters : float) (place : Place.t) : bool :=
  match Place.distance place with
  | Some d => negb (truthy d) || (d <=? maxDistanceMeters)%float
  | None => true
  end.

Definition filteredPlaces (searchResult : option PlaceSearchResult.t)
           (filters : PlaceFilters.t) : list Place.t :=
  match searchResult with
  | None => []
  | Some result =>
      let places := PlaceSearchResult.places result in
      let places :=
        match PlaceFilters.rating filters with
        | Some r => List.filter (ratingClause r) places
        | None => places
        end in
      let places :=
        match PlaceFilters.priceLevel filters with
        | Some levels =>
            if (0 <? length levels)%nat
            then List.filter (priceClause levels) places
            else places
        | None => places
        end in
      let places :=
        match PlaceFilters.distance filters with
        | Some lim =>
            if truthy (PlaceFilters.Distance.max lim)
            then
              let maxDistanceMeters := (PlaceFilters.Distance.max lim * 1000)%float in
              List.filter (distanceClause maxDistanceMeters) places
            else places
        | None => places
        end in
      places
  end.

(** The three steps of [filteredPlaces] as tests of a single place: each
    step applies its clause when its [if] lets the [filter] run, and lets
    every place through otherwise. *)
Definition ratingStep (filters : PlaceFilters.t) (place : Place.t) : bool :=
  match PlaceFilters.rating filters with
  | Some r => ratingClause r place
  | None => true
  end.

Definition priceStep (filters : PlaceFilters.t) (place : Place.t) : bool :=
  match PlaceFilters.priceLevel filters with
  | Some levels =>
      if (0 <? length levels)%nat then priceClause levels place else true
  | None => true
  end.

Definition distanceStep (filters : PlaceFilters.t) (place : Place.t) : bool :=
  match PlaceFilters.distance filters with
  | Some lim =>
      if truthy (PlaceFilters.Distance.max lim)
      then distanceClause (PlaceFilters.Distance.max lim * 1000)%float place
      else true
  | None => true
  end.

Definition passes (filters : PlaceFilters.t) (place : Place.t) : bool :=
  ratingStep filters place && priceStep filters place && distanceStep filters place.

End UsePlacesSearch.

(** ** hooks/shared/use-navigation-state.ts: useNavigationState *)

Module NavigationState.
Import JS.

Inductive NavigationMode := none | static | live.

#[global] Instance NavigationMode_eq_dec : EqDecision NavigationMode.
Proof. solve_decision. Defined.

(** The two query parameters the hook keeps its state in; [None] is a
    parameter absent from the URL. *)
Record Url := mkUrl {
  nav : option string;
  destination : option string
}.

(** The URL of a page opened without query parameters. *)
Definition emptyUrl : Url := mkUrl None None.

(** [parse] and [serialize] of the [nav] parameter. *)
Definition parseMode (value : string) : NavigationMode :=
  if String.eqb value "static" then static
  else if String.eqb value "live" then live
  else none.

Definition serializeMode (value : NavigationMode) : string :=
  match value with
  | none => "none"
  | static => "static"
  | live => "live"
  end.

(** [parse] and [serialize] of the [destination] parameter:
    [value || null] and [value || '']. *)
Definition parseDestination (value : string) : option string :=
  if truthy_string value then Some value else None.

Definition serializeDestination (value : string) : string :=
  if truthy_string value then value else "".

(** The state the hook returns: the parsed parameter, or the default value
    when the parameter is absent. *)
Definition navigationMode (u : Url) : NavigationMode :=
  match nav u with
  | Some value => parseMode value
  | None => none
  end.

Definition destinationId (u : Url) : option string :=
  match destination u with
  | Some value => parseDestination value
  | None => None
  end.

(** The setters: a value is written serialised, [null] removes the parameter. *)
Definition setNavigationMode (mode : NavigationMode) (u : Url) : Url :=
  mkUrl (Some (serializeMode mode)) (destination u).

Definition setDestinationId (placeId : option string) (u : Url) : Url :=
  mkUrl (nav u) (option_map serializeDestination placeId).

Definition startNavigation (placeId : string) (mode : NavigationMode) (u : Url) : Url :=
  setNavigationMode mode (setDestinationId (Some placeId) u).

Definition stopNavigation (u : Url) : Url :=
  setNavigationMode none (setDestinationId None u).

Definition isNavigating (u : Url) : bool :=
  match navigationMode u with none => false | _ => true end.

Definition isLiveNavigation (u : Url) : bool :=
  match navigationMode u with live => true | _ => false end.

(** The navigation invariant of the specification:
    [destinationPlaceId] is set iff the mode is not [none]. *)
Definition invariant (u : Url) : Prop :=
  is_Some (destinationId u) <-> navigationMode u <> none.

(** One call of the navigation API. *)
Inductive api_step : Url -> Url -> Prop :=
| step_startNavigation (placeId : string) (mode : NavigationMode) (u : Url) :
    api_step u (startNavigation placeId mode u)
| step_stopNavigation (u : Url) :
    api_step u (stopNavigation u)
| step_setNavigationMode (mode : NavigationMode) (u : Url) :
    api_step u (setNavigationMode mode u).

(** The states reachable through the API: the page is opened on any URL
    (the state is restored by parsing it) and any API calls follow. *)
Inductive reachable : Url -> Prop :=
| reachable_restore (u : Url) : reachable u
| reachable_step (u u' : Url) : reachable u -> api_step u u' -> reachable u'.

(** The calls the map component makes: [startNavigation(place.id, 'static')],
    [startNavigation(place.id, 'live')] (with the id of a place, a non-empty
    string) and [stopNavigation()], from a page opened on a URL whose two
    parameters agree (a page without navigation parameters is one). *)
Inductive start_stop_step : Url -> Url -> Prop :=
| ss_start (placeId : string) (mode : NavigationMode) (u : Url) :
    truthy_string placeId = true -> mode <> none ->
    start_stop_step u (startNavigation placeId mode u)
| ss_stop (u : Url) :
    start_stop_step u (stopNavigation u).

Inductive reachable_by_start_stop : Url -> Prop :=
| rss_restore (u : Url) : invariant u -> reachable_by_start_stop u
| rss_step (u u' : Url) :
    reachable_by_start_stop u -> start_stop_step u u' -> reachable_by_start_stop u'.

End NavigationState.

(** ** features/places/map-container.tsx: the navigation part of MapContainer *)

Module MapContainer.
Import JS NavigationState.

(** The refs and props the navigation code reads and writes, together with
    the part of the platform it acts on: the watches registered with
    [navigator.geolocation] and the route requests sent to the directions
    service. *)
Record State := mkState {
  url : Url;                          (* useNavigationState *)
  center : option Coordinates.t;      (* prop *)
  markers : list Place.t;             (* prop: the places of the markers *)
  directionsRendererRef : bool;       (* a renderer is held in the ref *)
  locationWatchIdRef : option nat;    (* null or a watch id *)
  activeWatches : list nat;           (* registered and not cleared *)
  nextWatchId : nat;                  (* the id watchPosition returns next *)
  routeRequests : list string         (* destination ids of calculateRoute calls *)
}.

(** [markers.find(m => m.place.id === destinationId)?.place || null] *)
Definition currentDestination (st : State) : option Place.t :=
  match destinationId (url st) with
  | Some dest => List.find (fun p => String.eqb (Place.id p) dest) (markers st)
  | None => None
  end.

(** [navigator.geolocation.watchPosition(...)]: registers a watch and
    returns its id. *)
Definition watchPosition (st : State) : nat * State :=
  (nextWatchId st,
   mkState (url st) (center st) (markers st) (directionsRendererRef st)
           (locationWatchIdRef st) (activeWatches st ++ [nextWatchId st])
           (S (nextWatchId st)) (routeRequests st)).

(** [navigator.geolocation.clearWatch(id)] *)
Definition clearWatch (id : nat) (st : State) : State :=
  mkState (url st) (center st) (markers st) (directionsRendererRef st)
          (locationWatchIdRef st)
          (List.filter (fun w => negb (Nat.eqb w id)) (activeWatches st))
          (nextWatchId st) (routeRequests st).

Definition set_locationWatchIdRef (v : option nat) (st : State) : State :=
  mkState (url st) (center st) (markers st) (directionsRendererRef st)
          v (activeWatches st) (nextWatchId st) (routeRequests st).

Definition set_directionsRendererRef (v : bool) (st : State) : State :=
  mkState (url st) (center st) (markers st) v
          (locationWatchIdRef st) (activeWatches st) (nextWatchId st) (routeRequests st).

Definition set_url (u : Url) (st : State) : State :=
  mkState u (center st) (markers st) (directionsRendererRef st)
          (locationWatchIdRef st) (activeWatches st) (nextWatchId st) (routeRequests st).

(** [calculateRoute(origin, destination)]: a request to the directions
    service.  Its callback offers to start live tracking only when
    [!isNavigating], which is false in every render that runs the
    navigation effect with a destination. *)
Definition calculateRoute (dest : Place.t) (st : State) : State :=
  mkState (url st) (center st) (markers st) (directionsRendererRef st)
          (locationWatchIdRef st) (activeWatches st) (nextWatchId st)
          (routeRequests st ++ [Place.id dest]).

(** [startRealTimeNavigation()]:
    [locationWatchIdRef.current = navigator.geolocation.watchPosition(...)] *)
Definition startRealTimeNavigation (st : State) : State :=
  let '(id, st) := watchPosition st in
  set_locationWatchIdRef (Some id) st.

(** [if (locationWatchIdRef.current) { clearWatch(...); ref = null }];
    a watch id of [0] is falsy. *)
Definition releaseWatch (st : State) : State :=
  match locationWatchIdRef st with
  | Some (S n) => set_locationWatchIdRef None (clearWatch (S n) st)
  | _ => st
  end.

(** The effect "Handle navigation state changes". *)
Definition navigationEffect (st : State) : State :=
  match center st, currentDestination st with
  | Some _, Some dest =>
      let st := if directionsRendererRef st then st else set_directionsRendererRef true st in
      match navigationMode (url st) with
      | static => calculateRoute dest st
      | live => startRealTimeNavigation (calculateRoute dest st)
      | none => releaseWatch (set_directionsRendererRef false st)
      end
  | _, _ => st
  end.

(** The dependency list of the effect, [[navigationMode, currentDestination,
    center]]; the destination is compared by the id of the place and the
    center by its coordinates. *)
Definition depsChanged (old new : State) : bool :=
  negb (bool_decide (navigationMode (url old) = navigationMode (url new))
        && bool_decide (option_map Place.id (currentDestination old)
                        = option_map Place.id (currentDestination new))
        && match center old, center new with
           | None, None => true
           | Some a, Some b =>
               bool_decide (Coordinates.lat a = Coordinates.lat b) &&
               bool_decide (Coordinates.lng a = Coordinates.lng b)
           | _, _ => false
           end).

(** After a handler has run the component renders again and the effect
    runs if one of its dependencies changed. *)
Definition rerender (old new : State) : State :=
  if depsChanged old new then navigationEffect new else new.

Definition handleStaticRoute (place : Place.t) (st : State) : State :=
  match center st with
  | None => st
  | Some _ => rerender st (set_url (startNavigation (Place.id place) static (url st)) st)
  end.

Definition handleLiveNavigation (place : Place.t) (st : State) : State :=
  match center st with
  | None => st
  | Some _ => rerender st (set_url (startNavigation (Place.id place) live (url st)) st)
  end.

Definition handleStopNavigation (st : State) : State :=
  let st' := set_url (stopNavigation (url st)) st in
  let st' := releaseWatch st' in
  let st' := set_directionsRendererRef false st' in
  rerender st st'.

(** The user's actions on the navigation menu of a marker. *)
Inductive Event :=
| StaticRoute (place : Place.t)
| LiveNavigation (place : Place.t)
| StopNavigation.

Definition handle (e : Event) (st : State) : State :=
  match e with
  | StaticRoute place => handleStaticRoute place st
  | LiveNavigation place => handleLiveNavigation place st
  | StopNavigation => handleStopNavigation st
  end.

Definition run (events : list Event) (st : State) : State :=
  fold_left (fun s e => handle e s) events st.

(** The component as first rendered on a page without navigation
    parameters. *)
Definition mounted (center : option Coordinates.t) (markers : list Place.t) : State :=
  mkState emptyUrl center markers false None [] 1 [].

(** No location watch is left open unless the mode is [live]. *)
Definition noWatchUnlessLive (st : State) : Prop :=
  navigationMode (url st) <> live ->
  locationWatchIdRef st = None /\ activeWatches st = [].

End MapContainer.

(** ** Haversine distance

    [GooglePlacesService.calculateDistance] and
    [MockDistanceService.calculateDistance], in binary64 as the program
    computes them.  [Math.sin], [Math.cos], [Math.sqrt] and [Math.atan2] are
    functions of the engine, which ECMAScript leaves
    implementation-approximated: they are parameters.  [Math.PI] is the
    binary64 number nearest to the circle constant. *)

Module Haversine.

Definition Math_PI : float := 3.141592653589793.

(** The invariant of [Coordinates]: a latitude in [-90, 90] and a longitude
    in [-180, 180], in degrees. *)
Definition valid (c : Coordinates.t) : bool :=
  (-90 <=? Coordinates.lat c)%float && (Coordinates.lat c <=? 90)%float &&
  (-180 <=? Coordinates.lng c)%float && (Coordinates.lng c <=? 180)%float.

Module GooglePlacesService.
Section WithMath.
Variables Math_sin Math_cos Math_sqrt : float -> float.
Variable Math_atan2 : float -> float -> float.

Definition calculateDistance (origin destination : Coordinates.t) : float :=
  let R := 6371e3%float in
  let φ1 := (Coordinates.lat origin * Math_PI / 180)%float in
  let φ2 := (Coordinates.lat destination * Math_PI / 180)%float in
  let Δφ := ((Coordinates.lat destination - Coordinates.lat origin) * Math_PI / 180)%float in
  let Δλ := ((Coordinates.lng destination - Coordinates.lng origin) * Math_PI / 180)%float in
  let a := (Math_sin (Δφ / 2) * Math_sin (Δφ / 2) +
            Math_cos φ1 * Math_cos φ2 *
            Math_sin (Δλ / 2) * Math_sin (Δλ / 2))%float in
  let c := (2 * Math_atan2 (Math_sqrt a) (Math_sqrt (1 - a)))%float in
  (R * c)%float.

End WithMath.
End GooglePlacesService.

Module MockDistanceService.
Section WithMath.
Variables Math_sin Math_cos Math_sqrt : float -> float.
Variable Math_atan2 : float -> float -> float.

Definition deg2rad (deg : float) : float := (deg * (Math_PI / 180))%float.

Definition calculateDistance (origin destination : Coordinates.t) : float :=
  let R := 6371%float in
  let dLat := deg2rad (Coordinates.lat destination - Coordinates.lat origin)%float in
  let dLng := deg2rad (Coordinates.lng destination - Coordinates.lng origin)%float in
  let a := (Math_sin (dLat / 2) * Math_sin (dLat / 2) +
            Math_cos (deg2rad (Coordinates.lat origin)) *
            Math_cos (deg2rad (Coordinates.lat destination)) *
            Math_sin (dLng / 2) * Math_sin (dLng / 2))%float in
  let c := (2 * Math_atan2 (Math_sqrt a) (Math_sqrt (1 - a)))%float in
  (R * c * 1000)%float.

End WithMath.
End MockDistanceService.

End Haversine.

(** ** Inputs used in the examples *)

Module Examples.
Import JS.

(** A place as [generateMockRestaurants] builds it: the id
    [restaurant_<n>], a rating with one decimal, a price level, the mock
    analysis of its rating bucket and a distance. *)
Definition restaurant (n name address : string)
           (lat lng rating totalReviews priceLevel distance : float) : Place.t :=
  Place.mk ("restaurant_" +:+ n) name address (Coordinates.mk lat lng)
           rating totalReviews (Some priceLevel)
           (Some (PlacesData.mockAIAnalyses (PlacesData.getClassificationFromRating rating)))
           (Some distance).

Definition bucharest : Coordinates.t := Coordinates.mk 44.4268 26.1025.

Definition laMama : Place.t :=
  restaurant "1" "La Mama" "Strada 12, Bucuresti" 44.4301 26.0987 4.6 320 2 300.
Definition trattoria : Place.t :=
  restaurant "2" "Trattoria Italiana" "Strada 7, Bucuresti" 44.4222 26.1101 4.5 150 3 200.
Definition sushiZen : Place.t :=
  restaurant "3" "Sushi Zen" "Strada 45, Bucuresti" 44.4275 26.1040 4.4 87 3 100.
Definition steakhouse : Place.t :=
  restaurant "9" "Steakhouse Premium" "Strada 30, Bucuresti" 44.4240 26.1066 4.9 501 4 1010.

(** Fifteen restaurants, one result of
    [generateMockPlaces(RESTAURANTS, bucharest, 15)]. *)
Definition mockRestaurants : list Place.t :=
  [ laMama; trattoria; sushiZen;
    restaurant "4" "Burger Palace" "Strada 3, Bucuresti" 44.4310 26.1090 4.1 412 1 650;
    restaurant "5" "Café Central" "Strada 88, Bucuresti" 44.4199 26.0951 3.9 95 2 480;
    restaurant "6" "Bistro Modern" "Strada 21, Bucuresti" 44.4251 26.1112 3.7 230 3 910;
    restaurant "7" "Pizza Corner" "Strada 64, Bucuresti" 44.4333 26.1003 3.5 51 1 720;
    restaurant "8" "Thai Garden" "Strada 9, Bucuresti" 44.4280 26.0944 3.3 377 2 530;
    steakhouse;
    restaurant "10" "Vegan Delight" "Strada 17, Bucuresti" 44.4207 26.1019 3.1 64 2 150;
    restaurant "11" "French Brasserie" "Strada 52, Bucuresti" 44.4295 26.1077 4.2 288 4 840;
    restaurant "12" "Mexican Cantina" "Strada 70, Bucuresti" 44.4263 26.0968 3.0 133 1 260;
    restaurant "13" "Fish & Chips" "Strada 5, Bucuresti" 44.4318 26.1031 3.4 79 1 395;
    restaurant "14" "Pasta House" "Strada 93, Bucuresti" 44.4229 26.0992 3.8 204 2 610;
    restaurant "15" "BBQ Pit" "Strada 38, Bucuresti" 44.4286 26.1124 3.6 166 3 1090 ].

(** [searchByTypeAndLocation(RESTAURANTS, bucharest)]: radius 2000 m, no
    keyword, no minimum rating. *)
Definition restaurantSearch : PlaceSearchParams.t :=
  PlaceSearchParams.mk bucharest RESTAURANTS 2000 None None None None.

(** The same search with [minRating: 4.5]. *)
Definition topRatedSearch : PlaceSearchParams.t :=
  PlaceSearchParams.mk bucharest RESTAURANTS 2000 None (Some 4.5%float) None None.

(** Values of [Date.now()]: when an action is called, when the response of
    the service arrives (two seconds later), and when a mutation settles
    (four more seconds later). *)
Definition now : float := 1700000000000.
Definition served : float := 1700000002000.
Definition settled : float := 1700000006000.

End Examples.

(** ** The statements of the specification, in its words *)

Module Spec.
Import JS.

(** *** The order of search results

    Ratings are numbers with one decimal ([Number(rating.toFixed(1))] in
    the generator).  [tenths x] is such a rating counted in tenths: the
    integer nearest to ten times [x], so that the rating 4.6 is 46 tenths.
    It is computed exactly, from the mantissa and the exponent of [x]. *)
Definition tenths (x : float) : Z :=
  match Prim2SF x with
  | S754_finite negative m e =>
      let n := (10 * Z.pos m)%Z in
      let t := if (0 <=? e)%Z then (n * 2 ^ e)%Z
               else ((2 * n + 2 ^ (- e)) / (2 * 2 ^ (- e)))%Z in
      if negative then (- t)%Z else t
  | _ => 0%Z
  end.

(** The ratings of two places differ by less than 0.1, that is, by less
    than one tenth. *)
Definition ratingsTie (a b : Place.t) : bool :=
  (Z.abs (tenths (Place.rating a) - tenths (Place.rating b)) <? 1)%Z.

(** [a] may stand before [b] in a search result: the nearer place first
    when the ratings differ by less than 0.1, the higher rated place first
    otherwise. *)
Definition rankedBefore (a b : Place.t) : Prop :=
  if ratingsTie a b
  then match Place.distance a, Place.distance b with
       | Some da, Some db => (da <=? db)%float = true
       | _, _ => True
       end
  else (tenths (Place.rating b) < tenths (Place.rating a))%Z.

(** A result is sorted as stated when every place may stand before every
    later one. *)
Definition sortedAsStated (l : list Place.t) : Prop := StronglySorted rankedBefore l.

(** *** Superseded searches

    The location of a search has changed: both locations are coordinates
    (finite numbers) and they differ in latitude or in longitude. *)
Definition locationChanged (before after : Coordinates.t) : Prop :=
  is_finite (Coordinates.lat before) = true /\
  is_finite (Coordinates.lng before) = true /\
  is_finite (Coordinates.lat after) = true /\
  is_finite (Coordinates.lng after) = true /\
  ((Coordinates.lat before =? Coordinates.lat after)%float = false \/
   (Coordinates.lng before =? Coordinates.lng after)%float = false).

(** *** Filtering

    A full filter set as the specification reads it: a place is kept iff
    its rating is in [[min, max]], its price level is in the price set when
    that set is non-empty, and its distance is at most [max * 1000] meters. *)
Definition keptAsStated (rating : PlaceFilters.Rating.t) (priceLevel : list float)
           (distance : PlaceFilters.Distance.t) (place : Place.t) : bool :=
  (geb (Place.rating place) (PlaceFilters.Rating.min rating) &&
   (Place.rating place <=? PlaceFilters.Rating.max rating)%float) &&
  (if (0 <? length priceLevel)%nat
   then match Place.priceLevel place with
        | Some v => Array_includes priceLevel v
        | None => false
        end
   else true) &&
  match Place.distance place with
  | Some d => (d <=? PlaceFilters.Distance.max distance * 1000)%float
  | None => false
  end.

(** The filter set as the amended statement reads it, clause by clause.
    These definitions are written from the words of the statement and use
    nothing of [filteredPlaces]. *)

(** A number that is neither zero nor [NaN]. *)
Definition nonZero (x : float) : bool := negb (x =? 0)%float && (x =? x)%float.

(** The rating clause, when a rating range is declared: the rating lies in
    [[min, max]]. *)
Definition ratingActive (filters : PlaceFilters.t) (place : Place.t) : bool :=
  match PlaceFilters.rating filters with
  | Some range =>
      (PlaceFilters.Rating.min range <=? Place.rating place)%float &&
      (Place.rating place <=? PlaceFilters.Rating.max range)%float
  | None => true
  end.

(** The price clause, when a price set is declared and is not empty: the
    place has a non-zero price level and it equals a member of the set. *)
Definition priceActive (filters : PlaceFilters.t) (place : Place.t) : bool :=
  match PlaceFilters.priceLevel filters with
  | Some (level :: levels) =>
      match Place.priceLevel place with
      | Some v => nonZero v && existsb (fun member => (member =? v)%float) (level :: levels)
      | None => false
      end
  | Some [] => true
  | None => true
  end.

(** The distance clause, when a non-zero maximum (in km) is declared: a
    place that has a non-zero distance is within [max * 1000] meters;
    nothing is asked of a place with no distance or the distance 0. *)
Definition distanceActive (filters : PlaceFilters.t) (place : Place.t) : bool :=
  match PlaceFilters.distance filters with
  | Some limit =>
      if nonZero (PlaceFilters.Distance.max limit)
      then match Place.distance place with
           | Some d =>
               if nonZero d
               then (d <=? PlaceFilters.Distance.max limit * 1000)%float
               else true
           | None => true
           end
      else true
  | None => true
  end.

Definition kept (filters : PlaceFilters.t) (place : Place.t) : bool :=
  ratingActive filters place && priceActive filters place && distanceActive filters place.

(** [{ ...filters, distance }] *)
Definition with_distance (filters : PlaceFilters.t) (d : option PlaceFilters.Distance.t)
  : PlaceFilters.t :=
  PlaceFilters.mk (PlaceFilters.rating filters) (PlaceFilters.priceLevel filters)
                  (PlaceFilters.openNow filters) d (PlaceFilters.features filters).

(** *** Classification buckets

    [inBucket x c]: the number [x] lies in the range of the bucket [c]. *)
Definition inBucket (x : float) (c : PlaceClassification) : Prop :=
  match c with
  | EXCELLENT => geb x 4.5 = true
  | VERY_GOOD => geb x 4.0 = true /\ (x <? 4.5)%float = true
  | GOOD => geb x 3.5 = true /\ (x <? 4.0)%float = true
  | AVERAGE => geb x 3.0 = true /\ (x <? 3.5)%float = true
  | POOR => geb x 3.0 = false
  end.

End Spec.

(** Places rated 3.2, 4.1, 4.9 and 5.0, and the filter sets of the examples. *)
Module FilterExamples.

Definition rated (n : string) (rating distance : float) : Place.t :=
  Examples.restaurant n ("Place " +:+ n) "Strada 1, Bucuresti" 44.43 26.10
                      rating 120 2 distance.

Definition p32 : Place.t := rated "1" 3.2 500.
Definition p41 : Place.t := rated "2" 4.1 500.
Definition p49 : Place.t := rated "3" 4.9 500.
Definition p50 : Place.t := rated "4" 5.0 500.

Definition fetched : PlaceSearchResult.t :=
  PlaceSearchResult.mk [p32; p41; p49; p50] 4 Examples.restaurantSearch Examples.now None.

(** [{ rating: { min: 4, max: 5 } }] *)
Definition ratingFourToFive : PlaceFilters.t :=
  PlaceFilters.mk (Some (PlaceFilters.Rating.mk 4 5)) None None None None.

(** The full filter set with the distance slider at its left end:
    [{ rating: {min: 0, max: 5}, priceLevel: [], openNow: false,
       distance: {max: 0}, features: [] }]. *)
Definition distanceZero : PlaceFilters.t :=
  PlaceFilters.mk (Some (PlaceFilters.Rating.mk 0 5)) (Some []) (Some false)
                  (Some (PlaceFilters.Distance.mk 0)) (Some []).

(** A place for which the provider computed no distance. *)
Definition noDistance : Place.t :=
  Place.mk "ChIJ_text_search_1" "Hanul lui Manuc" "Strada Franceza 62, Bucuresti"
           (Coordinates.mk 44.4296 26.1017) 4.3 2100 (Some 2%float) None None.

End FilterExamples.

(** Inputs of the enrichment examples. *)
Module EnrichmentExamples.
Import Runtime.

(** A stand-in for [Number.prototype.toString] in the examples, none of
    which looks at the digits of a summary: every number is written as
    a number sign. *)
Definition Number_toString (x : float) : string := "#".

(** Two places that differ only in their review count. *)
Definition fewReviews : Place.t :=
  Place.mk "restaurant_1" "La Mama" "Strada 12, Bucuresti" Examples.bucharest
           4.6 12 (Some 2%float) None (Some 300%float).
Definition manyReviews : Place.t := Place.with_totalReviews fewReviews 480.

(** The values [Math.random()] returns in the examples. *)
Definition draws (n : nat) : float :=
  match n with
  | 0 => 0.3 | 1 => 0.9 | 2 => 0.3 | 3 => 0.1 | _ => 0.5
  end%float.

Definition env0 : Env := mkEnv draws 0 [].

(** The analysis the search result of the current parameters holds for the
    place with the given id. *)
Definition cachedAnalysis (placeId : string) (st : UsePlacesSearch.State)
  : option AIAnalysis.t :=
  match UsePlacesSearch.searchResult st with
  | Some r =>
      match List.find (fun p => String.eqb (Place.id p) placeId)
                      (PlaceSearchResult.places r) with
      | Some p => Place.aiAnalysis p
      | None => None
      end
  | None => None
  end.

End EnrichmentExamples.

(** Inputs of the navigation and stale-response examples. *)
Module ScenarioExamples.

(** The map over the fifteen restaurants, centered on the user's location,
    on a page opened without navigation parameters. *)
Definition map0 : MapContainer.State :=
  MapContainer.mounted (Some Examples.bucharest) Examples.mockRestaurants.

(** Scenario C: live navigation to [laMama], then static navigation to
    [trattoria]. *)
Definition liveThenStatic : list MapContainer.Event :=
  [MapContainer.LiveNavigation Examples.laMama;
   MapContainer.StaticRoute Examples.trattoria].

Definition liveThenStop : list MapContainer.Event :=
  [MapContainer.LiveNavigation Examples.laMama; MapContainer.StopNavigation].

(** Scenario D: a search for restaurants superseded by a search for hotels
    at the same location. *)
Definition hotelSearch : PlaceSearchParams.t :=
  PlaceSearchParams.mk Examples.bucharest HOTELS 2000 None None None None.

Definition mockHotels : list Place.t :=
  [ Place.mk "hotel_1" "Grand Hotel Bucharest" "Strada 4, Bucuresti"
             (Coordinates.mk 44.4290 26.1000) 4.7 640 (Some 4%float)
             (Some (PlacesData.mockAIAnalyses EXCELLENT)) (Some 450%float);
    Place.mk "hotel_2" "City Inn" "Strada 19, Bucuresti"
             (Coordinates.mk 44.4251 26.1052) 3.9 210 (Some 2%float)
             (Some (PlacesData.mockAIAnalyses GOOD)) (Some 700%float) ].

Definition restaurantResult : PlaceSearchResult.t :=
  MockPlacesService.searchPlaces JS.toLowerCase Examples.mockRestaurants Examples.now
                                 Examples.restaurantSearch.

Definition hotelResult : PlaceSearchResult.t :=
  MockPlacesService.searchPlaces JS.toLowerCase mockHotels Examples.now hotelSearch.

(** A search for restaurants superseded by the same search at another
    location, [mockLocations.cluj]. *)
Definition cluj : Coordinates.t := Coordinates.mk 46.7712 23.6236.

Definition clujSearch : PlaceSearchParams.t :=
  PlaceSearchParams.mk cluj RESTAURANTS 2000 None None None None.

Definition clujRestaurants : list Place.t :=
  [ Place.mk "restaurant_1" "La Mama" "Strada 61, Bucuresti"
             (Coordinates.mk 46.7690 23.6301) 4.2 97 (Some 1%float)
             (Some (PlacesData.mockAIAnalyses VERY_GOOD)) (Some 380%float);
    Place.mk "restaurant_2" "Trattoria Italiana" "Strada 8, Bucuresti"
             (Coordinates.mk 46.7745 23.6188) 3.6 412 (Some 3%float)
             (Some (PlacesData.mockAIAnalyses GOOD)) (Some 905%float) ].

Definition clujResult : PlaceSearchResult.t :=
  MockPlacesService.searchPlaces JS.toLowerCase clujRestaurants Examples.now clujSearch.

End ScenarioExamples.

(** Two valid coordinates that lie nearly opposite each other on the
    globe, and the engine as far as the distance between them consults
    it. *)
Module HaversineExamples.

(** [{ lat: 8, lng: 0 }] and [{ lat: -8, lng: 180 }] *)
Definition north : Coordinates.t := Coordinates.mk 8 0.
Definition south : Coordinates.t := Coordinates.mk (-8) 180.

(** Eight degrees and ninety degrees in radians, as the program computes
    them: [8 * Math.PI / 180] and [180 * Math.PI / 180 / 2]. *)
Definition eightDegrees : float := 0.13962634015954636.
Definition rightAngle : float := 1.5707963267948966.

(** The entries of [Math.sin] and [Math.cos] at these angles: the binary64
    numbers nearest to the sine and the cosine. *)
Definition sinTable (x : float) : float :=
  if (x =? eightDegrees)%float then 0.13917310096006544%float
  else if (x =? - eightDegrees)%float then (- 0.13917310096006544)%float
  else if (x =? rightAngle)%float then 1%float
  else if (x =? - rightAngle)%float then (- 1)%float
  else nan.

Definition cosTable (x : float) : float :=
  if (abs x =? eightDegrees)%float then 0.9902680687415704%float else nan.

(** [Math.atan2] is only asked for its value at a [NaN], which is [NaN]. *)
Definition atan2Table (y x : float) : float :=
  if is_nan y || is_nan x then nan
  else if (y =? 0)%float && (0 <? x)%float then y
  else nan.

End HaversineExamples.

(** ** Record updates used by the properties of Part II *)

(** [{ ...params, keyword }] *)
Definition withKeyword (params : PlaceSearchParams.t) (keyword : option string)
  : PlaceSearchParams.t :=
  PlaceSearchParams.mk (PlaceSearchParams.location params) (PlaceSearchParams.type params)
                       (PlaceSearchParams.radius params) keyword
                       (PlaceSearchParams.minRating params)
                       (PlaceSearchParams.priceLevel params)
                       (PlaceSearchParams.openNow params).

(** [{ ...params, minRating }] *)
Definition withMinRating (params : PlaceSearchParams.t) (minRating : option float)
  : PlaceSearchParams.t :=
  PlaceSearchParams.mk (PlaceSearchParams.location params) (PlaceSearchParams.type params)
                       (PlaceSearchParams.radius params) (PlaceSearchParams.keyword params)
                       minRating
                       (PlaceSearchParams.priceLevel params)
                       (PlaceSearchParams.openNow params).

(** Inputs of the search examples of Part III. *)
Module SearchExamples.

(** The seventh of the fifteen restaurants. *)
Definition pizzaCorner : Place.t :=
  Examples.restaurant "7" "Pizza Corner" "Strada 64, Bucuresti" 44.4333 26.1003 3.5 51 1 720.

(** A search for restaurants rated at least 3.5 with the keyword PIZZA. *)
Definition pizzaSearch : PlaceSearchParams.t :=
  PlaceSearchParams.mk Examples.bucharest RESTAURANTS 2000 (Some "PIZZA"%string)
                       (Some 3.5%float) None None.

End SearchExamples.

(** ** hooks/api/use-places-search.ts: the derived values of usePlacesSearch *)

Module PlacesSearchViews.
Import JS.

#[global] Instance PlaceClassification_eq_dec : EqDecision PlaceClassification.
Proof. solve_decision. Defined.

(** The object [groups] of [placesByClassification]. *)
Module Groups.
Record t := mk {
  excellent : list Place.t;
  very_good : list Place.t;
  good : list Place.t;
  average : list Place.t;
  poor : list Place.t;
  unclassified : list Place.t
}.
Definition empty : t := mk [] [] [] [] [] [].
End Groups.

(** The body of the [forEach]:
    [groups[place.aiAnalysis.classification].push(place)] for a classified
    place, [groups.unclassified.push(place)] otherwise. *)
Definition push (groups : Groups.t) (place : Place.t) : Groups.t :=
  let '(Groups.mk e v g a p u) := groups in
  match Place.aiAnalysis place with
  | Some analysis =>
      match AIAnalysis.classification analysis with
      | EXCELLENT => Groups.mk (e ++ [place]) v g a p u
      | VERY_GOOD => Groups.mk e (v ++ [place]) g a p u
      | GOOD => Groups.mk e v (g ++ [place]) a p u
      | AVERAGE => Groups.mk e v g (a ++ [place]) p u
      | POOR => Groups.mk e v g a (p ++ [place]) u
      end
  | None => Groups.mk e v g a p (u ++ [place])
  end.

Definition placesByClassification (filteredPlaces : list Place.t) : Groups.t :=
  fold_left push filteredPlaces Groups.empty.

(** The classification a place carries, if any. *)
Definition classificationOf (place : Place.t) : option PlaceClassification :=
  option_map AIAnalysis.classification (Place.aiAnalysis place).

Definition classifiedAs (c : option PlaceClassification) (place : Place.t) : bool :=
  bool_decide (classificationOf place = c).

(** [arr.reduce(callbackfn)] without an initial value: the first element
    is the initial accumulator; on an empty array it throws ([None]). *)
Definition Array_reduce1 {A : Type} (callbackfn : A -> A -> A) (l : list A) : option A :=
  match l with
  | [] => None
  | first :: rest => Some (fold_left callbackfn rest first)
  end.

(** The fields [total], [topRated] and [mostReviewed] of [searchStats]
    (the two averages are formatted numbers and are not part of this
    record). *)
Module SearchStats.
Record t := mk {
  total : nat;
  topRated : option Place.t;
  mostReviewed : option Place.t
}.
End SearchStats.

Definition searchStats (filteredPlaces : list Place.t) : SearchStats.t :=
  if (length filteredPlaces =? 0)%nat
  then SearchStats.mk 0 None None
  else
    let total := length filteredPlaces in
    let topRated :=
      Array_reduce1 (fun best place =>
                       if (Place.rating best <? Place.rating place)%float
                       then place else best)
                    filteredPlaces in
    let mostReviewed :=
      Array_reduce1 (fun best place =>
                       if (Place.totalReviews best <? Place.totalReviews place)%float
                       then place else best)
                    filteredPlaces in
    SearchStats.mk total topRated mostReviewed.

End PlacesSearchViews.

(** ** hooks/api/use-places-search.ts: the remaining setters of usePlacesSearch *)

Module PlacesSearchActions.

(** [setEnableAIAnalysis(value)], the setter of the AI toggle. *)
Definition setEnableAIAnalysis (value : bool) (st : UsePlacesSearch.State)
  : UsePlacesSearch.State :=
  UsePlacesSearch.mkState (UsePlacesSearch.searchParams st)
                          (UsePlacesSearch.selectedPlace st)
                          (UsePlacesSearch.filters st)
                          value
                          (UsePlacesSearch.queryCache st)
                          (UsePlacesSearch.analyzeePlaceMutation st)
                          (UsePlacesSearch.batchAnalyzeMutation st).

(** A place without its [aiAnalysis] field: what [{ ...place, aiAnalysis }]
    copies from [place]. *)
Definition withoutAnalysis (place : Place.t) : Place.t :=
  Place.with_aiAnalysis place None.

End PlacesSearchActions.

(** ** Predicates on the states of MapContainer used in Part III *)

Module MapContainerFacts.
Import NavigationState MapContainer.

(** The bookkeeping of location watches is consistent: the id held in
    [locationWatchIdRef] is a truthy id of a registered watch, the
    registered ids are distinct ids that [watchPosition] has handed out
    (ids are positive), and while the navigation mode is [none] the ref
    holds no watch id and no directions renderer is attached. *)
Definition watchesAccounted (st : State) : Prop :=
  (forall id, locationWatchIdRef st = Some id -> In id (activeWatches st) /\ 1 <= id) /\
  1 <= nextWatchId st /\
  Forall (fun w => 1 <= w < nextWatchId st) (activeWatches st) /\
  List.NoDup (activeWatches st) /\
  (navigationMode (url st) = none ->
   locationWatchIdRef st = None /\ directionsRendererRef st = false).

(** Every route request sent so far was for a place shown on the map. *)
Definition routesToMarkers (st : State) : Prop :=
  Forall (fun placeId => In placeId (map Place.id (markers st))) (routeRequests st).

Definition isLiveNavigationEvent (e : Event) : bool :=
  match e with
  | LiveNavigation _ => true
  | _ => false
  end.

End MapContainerFacts.

(** ** hooks/shared/use-navigation-state.ts: useLocation *)

Module UserLocation.
Record t := mk {
  current : Coordinates.t;
  accuracy : option float;
  timestamp : float;
  address : option string
}.
End UserLocation.

Module UseLocation.

(** The state of the hook: [manualLocation], the data of the query
    [['location', 'current']], the entries [['location', 'coordinates',
    address]] of the query cache, and, to count them, the addresses sent to
    the geocoder. *)
Record State := mkState {
  manualLocation : option Coordinates.t;
  currentLocation : option UserLocation.t;
  coordinatesCache : gmap string Coordinates.t;
  geocoderCalls : list string
}.

Definition initialState : State := mkState None None ∅ [].

(** [setUserLocation(coordinates)]; [now] is [Date.now()]. *)
Definition setUserLocation (coordinates : Coordinates.t) (now : float) (st : State)
  : State :=
  let userLocation := UserLocation.mk coordinates None now None in
  mkState (Some coordinates) (Some userLocation) (coordinatesCache st) (geocoderCalls st).

(** A position arrives from the browser: the query [['location',
    'current']] resolves, or [requestCurrentLocation] stores its result
    with [setQueryData]. *)
Definition currentLocation_resolved (location : UserLocation.t) (st : State) : State :=
  mkState (manualLocation st) (Some location) (coordinatesCache st) (geocoderCalls st).

(** [useGPSLocation()]: [setManualLocation(null)] and a refetch, whose
    response is a later [currentLocation_resolved]. *)
Definition useGPSLocation (st : State) : State :=
  mkState None (currentLocation st) (coordinatesCache st) (geocoderCalls st).

(** [getCoordinates(address)].  [geocode] is the answer of
    [getCoordinatesFromAddress] to this call, [None] when it rejects; the
    result is the value the promise resolves to, [None] when it rejects. *)
Definition getCoordinates (geocode : option Coordinates.t) (now : float)
           (address : string) (st : State) : option Coordinates.t * State :=
  match coordinatesCache st !! address with
  | Some cachedCoordinates => (Some cachedCoordinates, st)
  | None =>
      let st := mkState (manualLocation st) (currentLocation st) (coordinatesCache st)
                        (geocoderCalls st ++ [address]) in
      match geocode with
      | Some coordinates =>
          let st := mkState (manualLocation st) (currentLocation st)
                            (<[address := coordinates]> (coordinatesCache st))
                            (geocoderCalls st) in
          (Some coordinates, setUserLocation coordinates now st)
      | None => (None, st)
      end
  end.

(** [effectiveLocation]; [now] is [Date.now()] of the render. *)
Definition effectiveLocation (now : float) (st : State) : option UserLocation.t :=
  match manualLocation st with
  | Some manual => Some (UserLocation.mk manual None now None)
  | None => currentLocation st
  end.

Definition hasLocation (now : float) (st : State) : bool :=
  bool_decide (is_Some (effectiveLocation now st)).

Definition isManualLocation (st : State) : bool :=
  bool_decide (is_Some (manualLocation st)).

(** The query client removes the entry [['location', 'coordinates',
    address]]: the entry is written by [setQueryData] and never observed,
    so the timer set when it was created, [gcTime] = 10 minutes in
    lib/tanstack-query/client, collects it when it fires. *)
Definition coordinates_collected (address : string) (st : State) : State :=
  mkState (manualLocation st) (currentLocation st)
          (delete address (coordinatesCache st)) (geocoderCalls st).

(** What can happen to the hook, in any order. *)
Inductive Event :=
| SetUserLocation (coordinates : Coordinates.t) (now : float)
| CurrentLocationResolved (location : UserLocation.t)
| UseGPSLocation
| GetCoordinates (geocode : option Coordinates.t) (now : float) (address : string)
| CoordinatesCollected (address : string).

Definition handle (e : Event) (st : State) : State :=
  match e with
  | SetUserLocation coordinates now => setUserLocation coordinates now st
  | CurrentLocationResolved location => currentLocation_resolved location st
  | UseGPSLocation => useGPSLocation st
  | GetCoordinates geocode now address => snd (getCoordinates geocode now address st)
  | CoordinatesCollected address => coordinates_collected address st
  end.

(** The events leave the cache entry of [address] alone. *)
Definition keepsEntry (address : string) (events : list Event) : bool :=
  forallb (fun e => match e with
                    | CoordinatesCollected collected => negb (String.eqb collected address)
                    | _ => true
                    end) events.

Definition run (events : list Event) (st : State) : State :=
  fold_left (fun s e => handle e s) events st.

End UseLocation.

(** ** lib/services/google-places: GooglePlacesService.searchPlaces *)

Module GooglePlacesService.
Import JS.

(** The fields of [google.maps.places.PlaceResult] that the conversion
    reads; [location] stands for [geometry?.location] with its [lat()] and
    [lng()]. *)
Module PlaceResult.
Record t := mk {
  place_id : option string;
  name : option string;
  formatted_address : option string;
  vicinity : option string;
  location : option (float * float);
  rating : option float;
  user_ratings_total : option float;
  price_level : option float
}.
End PlaceResult.

(** [google.maps.places.PlacesServiceStatus] *)
Inductive PlacesServiceStatus :=
| INVALID_REQUEST | NOT_FOUND | OK | OVER_QUERY_LIMIT
| REQUEST_DENIED | UNKNOWN_ERROR | ZERO_RESULTS.

(** The string value of a status, as a template literal writes it. *)
Definition statusText (status : PlacesServiceStatus) : string :=
  match status with
  | INVALID_REQUEST => "INVALID_REQUEST"
  | NOT_FOUND => "NOT_FOUND"
  | OK => "OK"
  | OVER_QUERY_LIMIT => "OVER_QUERY_LIMIT"
  | REQUEST_DENIED => "REQUEST_DENIED"
  | UNKNOWN_ERROR => "UNKNOWN_ERROR"
  | ZERO_RESULTS => "ZERO_RESULTS"
  end.

(** [ToBoolean] of an optional string. *)
Definition truthy_opt_string (x : option string) : bool :=
  match x with
  | Some v => truthy_string v
  | None => false
  end.

(** [x || d] for an optional string [x]. *)
Definition or_string (x : option string) (d : string) : string :=
  match x with
  | Some v => if truthy_string v then v else d
  | None => d
  end.

Section WithCalculateDistance.
(** [GooglePlacesService.calculateDistance], the haversine formula in
    binary64 arithmetic. *)
Variable calculateDistance : Coordinates.t -> Coordinates.t -> float.

Definition convertGooglePlaceToPlace (googlePlace : PlaceResult.t)
           (userLocation : option Coordinates.t) : Place.t :=
  let coordinates :=
    Coordinates.mk (or_number (option_map fst (PlaceResult.location googlePlace)) 0)
                   (or_number (option_map snd (PlaceResult.location googlePlace)) 0) in
  let distance :=
    match userLocation with
    | Some origin => Some (calculateDistance origin coordinates)
    | None => None
    end in
  Place.mk (or_string (PlaceResult.place_id googlePlace) "")
           (or_string (PlaceResult.name googlePlace) "")
           (if truthy_opt_string (PlaceResult.formatted_address googlePlace)
            then or_string (PlaceResult.formatted_address googlePlace) ""
            else or_string (PlaceResult.vicinity googlePlace) "")
           coordinates
           (or_number (PlaceResult.rating googlePlace) 0)
           (or_number (PlaceResult.user_ratings_total googlePlace) 0)
           (PlaceResult.price_level googlePlace)
           None
           distance.

(** The callback of [service.nearbySearch] in [searchPlaces(params)]:
    [results] is [null] or an array, [hasNextPage] is
    [pagination?.hasNextPage], [now] is [Date.now()].  The promise resolves
    ([inl]) or rejects with the message of the error ([inr]). *)
Definition searchPlaces (params : PlaceSearchParams.t) (now : float)
           (results : option (list PlaceResult.t)) (status : PlacesServiceStatus)
           (hasNextPage : option bool) : PlaceSearchResult.t + string :=
  match status, results with
  | OK, Some results =>
      let places :=
        List.filter
          (fun place =>
             match PlaceSearchParams.minRating params with
             | Some minRating =>
                 if truthy minRating && (Place.rating place <? minRating)%float
                 then false else true
             | None => true
             end)
          (map (fun result =>
                  convertGooglePlaceToPlace result (Some (PlaceSearchParams.location params)))
               (List.filter
                  (fun result =>
                     truthy_opt_string (PlaceResult.place_id result) &&
                     truthy_opt_string (PlaceResult.name result))
                  results)) in
      inl (PlaceSearchResult.mk
             places
             (length results)
             params
             now
             (match hasNextPage with
              | Some true => Some "next_page_token"%string
              | _ => None
              end))
  | _, _ => inr ("Places search failed: " +:+ statusText status)%string
  end.

End WithCalculateDistance.
End GooglePlacesService.

(** The classifications from worst to best. *)
Definition classificationRank (c : PlaceClassification) : nat :=
  match c with
  | POOR => 0
  | AVERAGE => 1
  | GOOD => 2
  | VERY_GOOD => 3
  | EXCELLENT => 4
  end.

(** ** features/places/place-filters.tsx and the filter state of usePlacesSearch *)

Module PlaceFiltersPanel.
Import JS.

(** [{ ...prev, ...newFilters }], the update [updateFilters] applies to the
    filter state: a key of [newFilters] replaces the key of [prev]. *)
Definition mergeFilters (prev newFilters : PlaceFilters.t) : PlaceFilters.t :=
  let pick {A : Type} (new old : option A) : option A :=
    match new with
    | Some v => Some v
    | None => old
    end in
  PlaceFilters.mk
    (pick (PlaceFilters.rating newFilters) (PlaceFilters.rating prev))
    (pick (PlaceFilters.priceLevel newFilters) (PlaceFilters.priceLevel prev))
    (pick (PlaceFilters.openNow newFilters) (PlaceFilters.openNow prev))
    (pick (PlaceFilters.distance newFilters) (PlaceFilters.distance prev))
    (pick (PlaceFilters.features newFilters) (PlaceFilters.features prev)).

(** The object [resetFilters] passes to [onFiltersChange]. *)
Definition resetValue : PlaceFilters.t :=
  PlaceFilters.mk (Some (PlaceFilters.Rating.mk 0 5)) (Some []) (Some false)
                  (Some (PlaceFilters.Distance.mk 5)) (Some []).

(** [x !== n] for an optional number [x] ([undefined !== n] holds). *)
Definition strictNe (x : option float) (n : float) : bool :=
  match x with
  | Some v => negb (v =? n)%float
  | None => true
  end.

Definition hasActiveFilters (filters : PlaceFilters.t) : bool :=
  strictNe (option_map PlaceFilters.Rating.min (PlaceFilters.rating filters)) 0 ||
  strictNe (option_map PlaceFilters.Rating.max (PlaceFilters.rating filters)) 5 ||
  match PlaceFilters.priceLevel filters with
  | Some levels => (0 <? length levels)%nat
  | None => false
  end ||
  match PlaceFilters.openNow filters with
  | Some b => b
  | None => false
  end ||
  strictNe (option_map PlaceFilters.Distance.max (PlaceFilters.distance filters)) 5 ||
  match PlaceFilters.features filters with
  | Some features => (0 <? length features)%nat
  | None => false
  end.

(** [onCheckedChange] of a price checkbox: the object passed to
    [onFiltersChange], [{ ...filters, priceLevel: newPrices }]. *)
Definition togglePrice (checked : bool) (value : float) (filters : PlaceFilters.t)
  : PlaceFilters.t :=
  let currentPrices :=
    match PlaceFilters.priceLevel filters with
    | Some levels => levels
    | None => []
    end in
  let newPrices :=
    if checked
    then currentPrices ++ [value]
    else List.filter (fun p => negb (p =? value)%float) currentPrices in
  PlaceFilters.mk (PlaceFilters.rating filters) (Some newPrices)
                  (PlaceFilters.openNow filters) (PlaceFilters.distance filters)
                  (PlaceFilters.features filters).

(** The price levels a filter set selects. *)
Definition selectedPrices (filters : PlaceFilters.t) : list float :=
  match PlaceFilters.priceLevel filters with
  | Some levels => levels
  | None => []
  end.

End PlaceFiltersPanel.

(** ** lib/mock/places-service.ts: MockOpenAIService.analyzeReviewSentiment *)

Module ReviewSentiment.
Import JS Runtime.

(** The object [analyzeReviewSentiment] resolves to. *)
Record t := mk {
  sentiment : Sentiment.t;
  confidence : float;
  keywords : list string
}.

Definition positiveWords : list string :=
  ["great"; "amazing"; "excellent"; "wonderful"; "fantastic"; "perfect"]%string.

Definition negativeWords : list string :=
  ["bad"; "terrible"; "awful"; "poor"; "disappointing"; "horrible"]%string.

Definition analyzeReviewSentiment (reviewText : string) : M t :=
  let text := toLowerCase reviewText in
  let positiveCount :=
    length (List.filter (fun word => includes text word) positiveWords) in
  let negativeCount :=
    length (List.filter (fun word => includes text word) negativeWords) in
  let sentiment :=
    if (negativeCount <? positiveCount)%nat then Sentiment.positive
    else if (positiveCount <? negativeCount)%nat then Sentiment.negative
    else Sentiment.neutral in
  (let* u := Math_random in
   ret (mk sentiment
           (u * 0.3 + 0.7)%float
           (List.filter (fun word => includes text word)
                        (positiveWords ++ negativeWords))))%js.

(** Membership in the two word lists. *)
Definition isPositiveWord (word : string) : bool := existsb (String.eqb word) positiveWords.
Definition isNegativeWord (word : string) : bool := existsb (String.eqb word) negativeWords.

End ReviewSentiment.

(** ** features/places/place-search-container.tsx: the markers handed to the map *)

Module MapMarker.
Record t := mk {
  id : string;
  position : Coordinates.t;
  type : PlaceType;
  place : Place.t;
  isSelected : bool
}.
End MapMarker.

Module PlaceSearchContainer.

(** The memo [markers]; [selectedPlace?.id === place.id] is false when no
    place is selected. *)
Definition markers (filteredPlaces : list Place.t) (selectedPlaceType : PlaceType)
           (selectedPlace : option Place.t) : list MapMarker.t :=
  map (fun place =>
         MapMarker.mk (Place.id place) (Place.coordinates place) selectedPlaceType place
                      (match selectedPlace with
                       | Some selected => String.eqb (Place.id selected) (Place.id place)
                       | None => false
                       end))
      filteredPlaces.

End PlaceSearchContainer.

(** ** features/places/map-container.tsx: the cleanup on unmount *)

Module MapContainerLifecycle.
Import NavigationState MapContainer.

(** The cleanup of the effect "Cleanup on unmount", as far as location
    watches go: [if (locationWatchIdRef.current) clearWatch(...)]. *)
Definition unmount (st : State) : State :=
  match locationWatchIdRef st with
  | Some (S n) => clearWatch (S n) st
  | _ => st
  end.

(** Every registered watch is the one whose id the ref holds: no watch is
    registered that the component can no longer clear. *)
Definition noOrphanWatch (st : State) : Prop :=
  Forall (fun w => locationWatchIdRef st = Some w) (activeWatches st).

(** A sequence of actions in which live navigation is only started while
    the ref holds no watch id. *)
Fixpoint liveOnlyWhenIdle (events : list Event) (st : State) : Prop :=
  match events with
  | [] => True
  | e :: rest =>
      (MapContainerFacts.isLiveNavigationEvent e = true -> locationWatchIdRef st = None) /\
      liveOnlyWhenIdle rest (handle e st)
  end.

End MapContainerLifecycle.

(** ** lib/services/google-places: GooglePlacesService.textSearch *)

Module GooglePlacesTextSearch.
Import JS GooglePlacesService.

Section WithCalculateDistance.
Variable calculateDistance : Coordinates.t -> Coordinates.t -> float.


End WithCalculateDistance.
End GooglePlacesTextSearch.

(* ===================================================================== *)
(** * Part II: properties *)
(* ===================================================================== *)

(** ** Facts about binary64 subtraction and comparison *)

Lemma binary_round_sign (p : positive) (e : Z) :
  binary_round prec emax true p e = SFopp (binary_round prec emax false p e).
Proof.
  unfold binary_round, binary_round_aux.
  destruct (shl_align _ _ _) as [mz ez].
  destruct (shr_fexp _ _ _ _ _) as [mrs' e'].
  destruct (shr_fexp _ _ _ _ _) as [mrs'' e''].
  destruct (shr_m mrs''); try reflexivity.
  destruct (Z.leb _ _); reflexivity.
Qed.

Lemma binary_normalize_opp (m : Z) (e : Z) :
  binary_normalize prec emax (- m) e false =
  match m with
  | Z0 => S754_zero false
  | _ => SFopp (binary_normalize prec emax m e false)
  end.
Proof.
  destruct m as [|p|p]; simpl; try reflexivity.
  - apply binary_round_sign.
  - rewrite binary_round_sign.
    destruct (binary_round _ _ _ _ _) as [[]|[]| |[] ? ?]; reflexivity.
Qed.

(** Swapping the operands of a subtraction negates the result, except that
    an exact zero difference is [+0] both ways. *)
Lemma SFsub_swap (x y : spec_float) :
  SF64sub y x = SFopp (SF64sub x y) \/
  (SF64sub y x = S754_zero false /\ SF64sub x y = S754_zero false).
Proof.
  unfold SF64sub.
  destruct x as [sx|sx| |sx mx ex], y as [sy|sy| |sy my ey];
    try (destruct sx, sy; simpl; auto; fail);
    try (destruct sx; simpl; auto; fail);
    try (destruct sy; simpl; auto; fail);
    try (simpl; auto; fail).
  unfold SFsub.
  rewrite (Z.min_comm ey ex).
  set (ez := Z.min ex ey).
  set (a := cond_Zopp sx (Z.pos (fst (shl_align mx ex ez)))).
  set (b := cond_Zopp sy (Z.pos (fst (shl_align my ey ez)))).
  replace (b - a)%Z with (- (a - b))%Z by lia.
  rewrite binary_normalize_opp.
  destruct (a - b)%Z eqn:E; simpl; auto.
Qed.

Lemma float_sub_abs_swap (x y : float) : abs (y - x) = abs (x - y).
Proof.
  apply Prim2SF_inj. rewrite !abs_spec, !sub_spec.
  destruct (SFsub_swap (Prim2SF x) (Prim2SF y)) as [-> | [-> ->]]; [|reflexivity].
  destruct (SF64sub _ _) as [[]|[]| |[] ? ?]; reflexivity.
Qed.

Lemma float_sub_pos_asym (x y : float) :
  (0 <? y - x)%float = true -> (0 <? x - y)%float = false.
Proof.
  rewrite !ltb_spec, !sub_spec.
  change (Prim2SF 0) with (S754_zero false).
  destruct (SFsub_swap (Prim2SF x) (Prim2SF y)) as [-> | [-> ->]]; [|discriminate].
  destruct (SF64sub _ _) as [[]|[]| |[] ? ?]; compute; congruence.
Qed.

(** [SFcompare] with its arguments swapped. *)
Lemma SFcompare_swap (x y : spec_float) :
  SFcompare y x = option_map CompOpp (SFcompare x y).
Proof.
  destruct x as [sx|sx| |sx mx ex], y as [sy|sy| |sy my ey];
    try (destruct sx, sy; reflexivity);
    try (destruct sx; reflexivity);
    try (destruct sy; reflexivity);
    try reflexivity.
  simpl. destruct sx, sy; simpl; try reflexivity.
  all: rewrite (Z.compare_antisym ex ey).
  all: destruct (ex ?= ey)%Z; simpl; try reflexivity.
  all: pose proof (Pos.compare_cont_antisym mx my Eq) as H; simpl in H; rewrite <- H.
  all: destruct (Pos.compare_cont Eq mx my); reflexivity.
Qed.

Lemma SFcompare_None (a b : spec_float) :
  SFcompare a b = None -> a = S754_nan \/ b = S754_nan.
Proof.
  destruct a as [sa|sa| |sa ma ea], b as [sb|sb| |sb mb eb]; simpl;
    try discriminate; auto.
Qed.

Ltac fold_pos_compare :=
  repeat match goal with
         | |- context [PosDef.Pos.compare_cont Eq ?a ?b] =>
             change (PosDef.Pos.compare_cont Eq a b) with (Pos.compare a b)
         end.

Lemma SFltb_trans (x y z : spec_float) :
  SFltb x y = true -> SFltb y z = true -> SFltb x z = true.
Proof.
  unfold SFltb.
  destruct x as [sx|sx| |sx mx ex], y as [sy|sy| |sy my ey], z as [sz|sz| |sz mz ez];
    try (destruct sx); try (destruct sy); try (destruct sz);
    cbn; try discriminate; try reflexivity.
  all: fold_pos_compare.
  all: destruct (Z.compare_spec ex ey), (Z.compare_spec ey ez), (Z.compare_spec ex ez);
    try discriminate; try reflexivity; try lia.
  all: destruct (Pos.compare_spec mx my), (Pos.compare_spec my mz), (Pos.compare_spec mx mz);
    cbn; try discriminate; try reflexivity; try lia.
Qed.

Lemma float_ltb_trans (x y z : float) :
  (x <? y)%float = true -> (y <? z)%float = true -> (x <? z)%float = true.
Proof. rewrite !ltb_spec. apply SFltb_trans. Qed.

Lemma is_nan_false (x : float) : is_nan x = false -> Prim2SF x <> S754_nan.
Proof.
  unfold is_nan. rewrite FloatAxioms.eqb_spec. intros H E. rewrite E in H. discriminate H.
Qed.

(** Two numbers neither of which is [NaN] are comparable. *)
Lemma float_not_ltb_leb (x y : float) :
  is_nan x = false -> is_nan y = false ->
  (x <? y)%float = false -> (y <=? x)%float = true.
Proof.
  intros Hx%is_nan_false Hy%is_nan_false.
  rewrite ltb_spec, leb_spec. unfold SFltb, SFleb.
  rewrite (SFcompare_swap (Prim2SF x) (Prim2SF y)).
  destruct (SFcompare (Prim2SF x) (Prim2SF y)) as [[]|] eqn:E; simpl;
    try reflexivity; try discriminate.
  destruct (SFcompare_None _ _ E) as [H|H]; contradiction.
Qed.

Lemma SFeqb_sym (x y : spec_float) : SFeqb x y = SFeqb y x.
Proof.
  unfold SFeqb. rewrite (SFcompare_swap y x).
  destruct (SFcompare y x) as [[]|]; reflexivity.
Qed.

Lemma SFeqb_trans (x y z : spec_float) :
  SFeqb x y = true -> SFeqb y z = true -> SFeqb x z = true.
Proof.
  unfold SFeqb.
  destruct x as [sx|sx| |sx mx ex], y as [sy|sy| |sy my ey], z as [sz|sz| |sz mz ez];
    try (destruct sx); try (destruct sy); try (destruct sz);
    cbn; try discriminate; try reflexivity.
  all: fold_pos_compare.
  all: destruct (Z.compare_spec ex ey), (Z.compare_spec ey ez), (Z.compare_spec ex ez);
    try discriminate; try reflexivity; try lia.
  all: destruct (Pos.compare_spec mx my), (Pos.compare_spec my mz), (Pos.compare_spec mx mz);
    cbn; try discriminate; try reflexivity; try lia.
Qed.

Lemma float_eqb_sym (x y : float) : (x =? y)%float = (y =? x)%float.
Proof. rewrite !FloatAxioms.eqb_spec. apply SFeqb_sym. Qed.

Lemma float_eqb_trans (x y z : float) :
  (x =? y)%float = true -> (y =? z)%float = true -> (x =? z)%float = true.
Proof. rewrite !FloatAxioms.eqb_spec. apply SFeqb_trans. Qed.

Lemma float_eqb_not_nan (x y : float) : (x =? y)%float = true -> is_nan x = false.
Proof.
  intros H. unfold is_nan. apply Bool.negb_false_iff.
  apply (float_eqb_trans x y x H). now rewrite float_eqb_sym.
Qed.


Lemma truthy_not_nan (x : float) : JS.truthy x = true -> is_nan x = false.
Proof.
  unfold JS.truthy. destruct (is_nan x); [|reflexivity].
  now rewrite Bool.orb_true_r.
Qed.

(** ** Array.prototype.sort *)

Section ArraySortFacts.
Context {A : Type} (comparefn : A -> A -> float).

Local Abbreviation after := (JS.sortsAfter comparefn).

Lemma insert_Permutation (x : A) (l : list A) :
  Permutation (JS.insert comparefn x l) (x :: l).
Proof.
  induction l as [|y l IH]; simpl.
  - reflexivity.
  - destruct (after x y).
    + rewrite IH. apply perm_swap.
    + reflexivity.
Qed.

Lemma Array_sort_Permutation (l : list A) :
  Permutation (JS.Array_sort comparefn l) l.
Proof.
  induction l as [|x l IH]; simpl.
  - reflexivity.
  - rewrite insert_Permutation. now constructor.
Qed.

Lemma Array_sort_length (l : list A) :
  length (JS.Array_sort comparefn l) = length l.
Proof. apply Permutation_length, Array_sort_Permutation. Qed.

End ArraySortFacts.

(** ** MockPlacesService.searchPlaces *)

Lemma comparefn_asym (a b : Place.t) :
  JS.sortsAfter MockPlacesService.comparefn a b = true ->
  JS.sortsAfter MockPlacesService.comparefn b a = false.
Proof.
  unfold JS.sortsAfter, MockPlacesService.comparefn. cbv zeta.
  rewrite (float_sub_abs_swap (Place.rating b) (Place.rating a)).
  destruct (abs (Place.rating b - Place.rating a) <? 0.1)%float;
    apply float_sub_pos_asym.
Qed.

(** In binary64 the ratings 4.6 and 4.5, and 4.5 and 4.4, are less than 0.1
    apart (both differences are 0.0999999999999996), while 4.6 and 4.4 are
    0.2 apart: the first two pairs are ties for the comparator, the third
    is not. *)
Lemma binary64_rating_gaps :
  (abs (4.5 - 4.6) <? 0.1)%float = true /\
  (abs (4.4 - 4.5) <? 0.1)%float = true /\
  (abs (4.4 - 4.6) <? 0.1)%float = false.
Proof. vm_compute. auto. Qed.

(** On generated ratings the comparator is not consistent: it orders
    [laMama] (4.6, 300 m) after [trattoria] (4.5, 200 m) by distance,
    [trattoria] after [sushiZen] (4.4, 100 m) by distance, and [sushiZen]
    after [laMama] by rating.  The order of a result that holds such a
    cycle is the engine's choice. *)
Lemma example_cycle :
  JS.sortsAfter MockPlacesService.comparefn Examples.laMama Examples.trattoria = true /\
  JS.sortsAfter MockPlacesService.comparefn Examples.trattoria Examples.sushiZen = true /\
  JS.sortsAfter MockPlacesService.comparefn Examples.sushiZen Examples.laMama = true.
Proof. vm_compute. auto. Qed.

(** Length, count and content of a result do not depend on the order the
    sort chooses. *)
Lemma searchPlaces_length_totalFound
      (String_toLowerCase : string -> string)
      (allPlaces : list Place.t) (now : float) (params : PlaceSearchParams.t) :
  let result := MockPlacesService.searchPlaces String_toLowerCase allPlaces now params in
  let candidates := MockPlacesService.filteredCandidates String_toLowerCase params allPlaces in
  length (PlaceSearchResult.places result) <= 10 /\
  PlaceSearchResult.totalFound result = length candidates /\
  length (PlaceSearchResult.places result) = Nat.min 10 (length candidates) /\
  exists rest, Permutation (PlaceSearchResult.places result ++ rest) candidates.
Proof.
  cbv zeta. unfold MockPlacesService.searchPlaces, JS.Array_slice0. simpl.
  set (candidates := MockPlacesService.filteredCandidates String_toLowerCase params allPlaces).
  set (sorted := JS.Array_sort MockPlacesService.comparefn candidates).
  assert (Hlen : length sorted = length candidates) by apply Array_sort_length.
  repeat split.
  - rewrite length_firstn. lia.
  - exact Hlen.
  - rewrite length_firstn, Hlen. reflexivity.
  - exists (skipn 10 sorted). rewrite firstn_skipn. apply Array_sort_Permutation.
Qed.

(** The restaurants rated 4.5 or more are [laMama] (4.6, 300 m),
    [trattoria] (4.5, 200 m) and [steakhouse] (4.9), whatever the case
    conversion: the search has no keyword. *)
Lemma topRated_candidates (String_toLowerCase : string -> string) :
  MockPlacesService.filteredCandidates String_toLowerCase Examples.topRatedSearch
    Examples.mockRestaurants
  = [Examples.laMama; Examples.trattoria; Examples.steakhouse].
Proof. reflexivity. Qed.

(** On these three places the comparator is consistent, and the order it
    asks for leaves one arrangement only: a list of the three in which no
    place is followed by one the comparator puts ahead of it is
    [steakhouse], [trattoria], [laMama].  Whatever algorithm the engine
    sorts with, this is what it returns. *)
Lemma topRated_sortOrder_unique (sorted : list Place.t) :
  Permutation sorted [Examples.laMama; Examples.trattoria; Examples.steakhouse] ->
  JS.sortOrder MockPlacesService.comparefn sorted ->
  sorted = [Examples.steakhouse; Examples.trattoria; Examples.laMama].
Proof.
  intros Hp Hs.
  pose proof (Permutation_length Hp) as Hlen.
  destruct sorted as [|x [|y [|z [|w rest]]]]; try discriminate Hlen.
  assert (Hx : In x [Examples.laMama; Examples.trattoria; Examples.steakhouse])
    by (apply (Permutation_in _ Hp); simpl; auto).
  assert (Hy : In y [Examples.laMama; Examples.trattoria; Examples.steakhouse])
    by (apply (Permutation_in _ Hp); simpl; auto).
  assert (Hz : In z [Examples.laMama; Examples.trattoria; Examples.steakhouse])
    by (apply (Permutation_in _ Hp); simpl; auto).
  assert (Hnd : NoDup (map Place.id [x; y; z])).
  { apply NoDup_ListNoDup.
    apply (Permutation_NoDup (Permutation_map Place.id (Permutation_sym Hp))).
    apply NoDup_ListNoDup.
    apply (bool_decide_unpack
             (NoDup (map Place.id
                       [Examples.laMama; Examples.trattoria; Examples.steakhouse]))).
    vm_compute. exact I. }
  apply (bool_decide_pack _) in Hnd.
  unfold JS.sortOrder in Hs.
  inversion Hs as [|? ? Hs1 Hall1]; subst.
  inversion Hs1 as [|? ? Hs2 Hall2]; subst.
  inversion Hall1 as [|? ? Hxy Hall1']; subst.
  inversion Hall1' as [|? ? Hxz _]; subst.
  inversion Hall2 as [|? ? Hyz _]; subst.
  simpl in Hx, Hy, Hz.
  destruct Hx as [<-|[<-|[<-|[]]]], Hy as [<-|[<-|[<-|[]]]], Hz as [<-|[<-|[<-|[]]]];
    try reflexivity;
    try (vm_compute in Hnd; contradiction);
    try (vm_compute in Hxy; discriminate Hxy);
    try (vm_compute in Hxz; discriminate Hxz);
    try (vm_compute in Hyz; discriminate Hyz).
Qed.

(** C1: the search for the restaurants rated at least 4.5 among the fifteen
    generated ones has three candidates, and returns [trattoria], rated
    4.5, ahead of [laMama], rated 4.6.  The two ratings differ by 0.1, not
    by less, so the stated rule asks for the higher rated [laMama] first;
    the comparator takes them for a tie, because in binary64 the
    difference 4.6 - 4.5 is below 0.1, and goes by distance.  The returned
    order is the one every engine gives: the comparator is consistent on
    the three candidates and no other arrangement of them respects it.
    Length and count are as stated: at most ten places, and [totalFound]
    the number of candidates before truncation. *)
Theorem searchPlaces_ranks_lower_rating_first (String_toLowerCase : string -> string) :
  let candidates :=
    MockPlacesService.filteredCandidates String_toLowerCase Examples.topRatedSearch
      Examples.mockRestaurants in
  let result :=
    MockPlacesService.searchPlaces String_toLowerCase Examples.mockRestaurants
      Examples.now Examples.topRatedSearch in
  candidates = [Examples.laMama; Examples.trattoria; Examples.steakhouse] /\
  (forall sorted,
      Permutation sorted candidates ->
      JS.sortOrder MockPlacesService.comparefn sorted ->
      sorted = [Examples.steakhouse; Examples.trattoria; Examples.laMama]) /\
  PlaceSearchResult.places result
  = [Examples.steakhouse; Examples.trattoria; Examples.laMama] /\
  JS.sortOrder MockPlacesService.comparefn (PlaceSearchResult.places result) /\
  PlaceSearchResult.totalFound result = 3 /\
  Place.rating Examples.trattoria = 4.5%float /\
  Place.rating Examples.laMama = 4.6%float /\
  Spec.ratingsTie Examples.trattoria Examples.laMama = false /\
  ~ Spec.rankedBefore Examples.trattoria Examples.laMama /\
  ~ Spec.sortedAsStated (PlaceSearchResult.places result) /\
  Spec.sortedAsStated [Examples.steakhouse; Examples.laMama; Examples.trattoria] /\
  (forall (allPlaces : list Place.t) (now : float) (params : PlaceSearchParams.t),
      let result := MockPlacesService.searchPlaces String_toLowerCase allPlaces now params in
      let candidates :=
        MockPlacesService.filteredCandidates String_toLowerCase params allPlaces in
      length (PlaceSearchResult.places result) <= 10 /\
      PlaceSearchResult.totalFound result = length candidates /\
      length (PlaceSearchResult.places result) = Nat.min 10 (length candidates) /\
      exists rest, Permutation (PlaceSearchResult.places result ++ rest) candidates).
Proof.
  cbv zeta.
  assert (Hres : PlaceSearchResult.places
                   (MockPlacesService.searchPlaces String_toLowerCase
                      Examples.mockRestaurants Examples.now Examples.topRatedSearch)
                 = [Examples.steakhouse; Examples.trattoria; Examples.laMama])
    by reflexivity.
  assert (Hno : ~ Spec.rankedBefore Examples.trattoria Examples.laMama).
  { vm_compute. discriminate. }
  rewrite Hres, topRated_candidates.
  split; [reflexivity|]. split; [exact topRated_sortOrder_unique|].
  split; [reflexivity|]. split.
  { unfold JS.sortOrder. repeat constructor. }
  split; [reflexivity|]. split; [reflexivity|]. split; [reflexivity|].
  split; [reflexivity|]. split; [exact Hno|]. split.
  { intros Hs. inversion Hs as [|? ? Hs1 _]; subst.
    inversion Hs1 as [|? ? _ Hall]; subst.
    inversion Hall as [|? ? H _]; subst. exact (Hno H). }
  split.
  { unfold Spec.sortedAsStated. repeat constructor; vm_compute; reflexivity. }
  intros allPlaces now params.
  apply (searchPlaces_length_totalFound String_toLowerCase allPlaces now params).
Qed.

(** ** useNavigationState *)

Lemma parseMode_serializeMode (m : NavigationState.NavigationMode) :
  NavigationState.parseMode (NavigationState.serializeMode m) = m.
Proof. destruct m; reflexivity. Qed.

Lemma navigationMode_startNavigation placeId mode u :
  NavigationState.navigationMode (NavigationState.startNavigation placeId mode u) = mode.
Proof. apply parseMode_serializeMode. Qed.

Lemma destinationId_startNavigation placeId mode u :
  JS.truthy_string placeId = true ->
  NavigationState.destinationId (NavigationState.startNavigation placeId mode u)
  = Some placeId.
Proof.
  intros Ht. unfold NavigationState.destinationId, NavigationState.startNavigation.
  simpl. unfold NavigationState.serializeDestination, NavigationState.parseDestination.
  now rewrite !Ht.
Qed.

Lemma stopNavigation_clears u :
  NavigationState.navigationMode (NavigationState.stopNavigation u) = NavigationState.none /\
  NavigationState.destinationId (NavigationState.stopNavigation u) = None.
Proof. split; reflexivity. Qed.

(** C2, counterexample: from a page opened without navigation parameters,
    [setNavigationMode('live')] leads to the mode [live] with no
    destination; the state is reachable through the API and breaks
    "destination set iff mode is not none". *)
Lemma navigation_invariant_not_preserved :
  ~ (forall u, NavigationState.reachable u -> NavigationState.invariant u).
Proof.
  intros H.
  pose (u := NavigationState.setNavigationMode NavigationState.live
               NavigationState.emptyUrl).
  assert (Hr : NavigationState.reachable u).
  { eapply NavigationState.reachable_step.
    - apply (NavigationState.reachable_restore NavigationState.emptyUrl).
    - apply NavigationState.step_setNavigationMode. }
  destruct (H u Hr) as [_ Hback].
  assert (Hs : is_Some (NavigationState.destinationId u)) by (apply Hback; discriminate).
  destruct Hs as [d Hd]. discriminate Hd.
Qed.

Lemma invariant_emptyUrl : NavigationState.invariant NavigationState.emptyUrl.
Proof.
  split.
  - intros [d Hd]. discriminate Hd.
  - intros Hn. now contradiction Hn.
Qed.

(** Each of the two calls establishes the invariant, whatever the state it
    is made in. *)
Lemma start_stop_step_invariant (u u' : NavigationState.Url) :
  NavigationState.start_stop_step u u' -> NavigationState.invariant u'.
Proof.
  intros [placeId mode u0 Ht Hm | u0].
  - unfold NavigationState.invariant.
    rewrite navigationMode_startNavigation, destinationId_startNavigation by exact Ht.
    split; [intros _; exact Hm | intros _; now exists placeId].
  - split.
    + intros [d Hd]. discriminate Hd.
    + intros Hn. now contradiction Hn.
Qed.

(** C2, as amended: in every state reached through [startNavigation] with
    the id of a place and the mode [static] or [live], and through
    [stopNavigation], from a page opened on a URL whose parameters agree
    (such as a page without navigation parameters), the destination is set
    if and only if the mode is not [none]. *)
Theorem navigation_invariant_start_stop (u : NavigationState.Url) :
  NavigationState.reachable_by_start_stop u -> NavigationState.invariant u.
Proof.
  induction 1 as [u Hinv | u u' Hr IH Hstep].
  - exact Hinv.
  - exact (start_stop_step_invariant u u' Hstep).
Qed.

(** The invariant after [startNavigation('restaurant_1', 'live')] and a
    [stopNavigation()] that follows it, on a fresh page. *)
Lemma navigation_invariant_start_stop_witness :
  NavigationState.reachable_by_start_stop
    (NavigationState.stopNavigation
       (NavigationState.startNavigation "restaurant_1" NavigationState.live
          NavigationState.emptyUrl)) /\
  NavigationState.invariant
    (NavigationState.stopNavigation
       (NavigationState.startNavigation "restaurant_1" NavigationState.live
          NavigationState.emptyUrl)).
Proof.
  assert (Hr : NavigationState.reachable_by_start_stop
                 (NavigationState.stopNavigation
                    (NavigationState.startNavigation "restaurant_1" NavigationState.live
                       NavigationState.emptyUrl))).
  { eapply NavigationState.rss_step; [|apply NavigationState.ss_stop].
    eapply NavigationState.rss_step.
    - apply NavigationState.rss_restore, invariant_emptyUrl.
    - apply NavigationState.ss_start; [reflexivity | discriminate]. }
  split; [exact Hr | apply (navigation_invariant_start_stop _ Hr)].
Defined.

(** ** filteredPlaces *)

Lemma filter_filter_andb {A : Type} (f g : A -> bool) (l : list A) :
  List.filter g (List.filter f l) = List.filter (fun x => f x && g x) l.
Proof.
  induction l as [|x l IH]; simpl; [reflexivity|].
  destruct (f x); simpl; [destruct (g x)|]; now rewrite IH.
Qed.

Lemma filter_true {A : Type} (l : list A) : List.filter (fun _ => true) l = l.
Proof. induction l as [|x l IH]; simpl; [reflexivity | now rewrite IH]. Qed.

Lemma filter_sublist {A : Type} (f : A -> bool) (l : list A) :
  sublist (List.filter f l) l.
Proof.
  induction l as [|x l IH]; simpl; [constructor|].
  destruct (f x); now constructor.
Qed.

(** The three conditional filters of [filteredPlaces] are one filter by the
    conjunction of the steps. *)
Lemma filteredPlaces_filter (result : PlaceSearchResult.t) (filters : PlaceFilters.t) :
  UsePlacesSearch.filteredPlaces (Some result) filters
  = List.filter (UsePlacesSearch.passes filters) (PlaceSearchResult.places result).
Proof.
  unfold UsePlacesSearch.filteredPlaces, UsePlacesSearch.passes,
    UsePlacesSearch.ratingStep, UsePlacesSearch.priceStep, UsePlacesSearch.distanceStep.
  destruct filters as [r pl o d f]; simpl.
  set (fr := fun place : Place.t =>
               match r with Some r0 => UsePlacesSearch.ratingClause r0 place | None => true end).
  set (fp := fun place : Place.t =>
               match pl with
               | Some levels => if (0 <? length levels)%nat
                                then UsePlacesSearch.priceClause levels place else true
               | None => true end).
  set (fd := fun place : Place.t =>
               match d with
               | Some lim => if JS.truthy (PlaceFilters.Distance.max lim)
                             then UsePlacesSearch.distanceClause
                                    (PlaceFilters.Distance.max lim * 1000)%float place
                             else true
               | None => true end).
  transitivity (List.filter fd (List.filter fp
                  (List.filter fr (PlaceSearchResult.places result)))).
  - assert (E1 : match r with
                 | Some r0 => List.filter (UsePlacesSearch.ratingClause r0)
                                (PlaceSearchResult.places result)
                 | None => PlaceSearchResult.places result
                 end = List.filter fr (PlaceSearchResult.places result)).
    { subst fr. destruct r; [reflexivity | now rewrite filter_true]. }
    rewrite E1. set (l1 := List.filter fr _).
    assert (E2 : match pl with
                 | Some levels => if (0 <? length levels)%nat
                                  then List.filter (UsePlacesSearch.priceClause levels) l1
                                  else l1
                 | None => l1
                 end = List.filter fp l1).
    { subst fp. destruct pl as [levels|]; [|now rewrite filter_true].
      destruct (0 <? length levels)%nat; [reflexivity | now rewrite filter_true]. }
    rewrite E2. set (l2 := List.filter fp _).
    subst fd. destruct d as [lim|]; [|now rewrite filter_true].
    destruct (JS.truthy (PlaceFilters.Distance.max lim));
      [reflexivity | now rewrite filter_true].
  - rewrite !filter_filter_andb. apply List.filter_ext. intros place.
    now rewrite Bool.andb_assoc.
Qed.

(** [ToBoolean] of a number is "neither zero nor NaN". *)
Lemma truthy_nonZero (x : float) : JS.truthy x = Spec.nonZero x.
Proof.
  unfold JS.truthy, Spec.nonZero, is_zero, is_nan.
  change PrimFloat.zero with 0%float.
  destruct (x =? 0)%float, (x =? x)%float; reflexivity.
Qed.

(** [levels.includes(v)] for a number [v] that is not [NaN]: some member
    of [levels] equals [v]. *)
Lemma Array_includes_existsb (levels : list float) (v : float) :
  is_nan v = false ->
  JS.Array_includes levels v = existsb (fun member => (member =? v)%float) levels.
Proof.
  intros Hv. unfold JS.Array_includes, JS.sameValueZero.
  induction levels as [|l levels IH]; simpl; [reflexivity|].
  rewrite IH, Hv, Bool.orb_false_r. now rewrite (float_eqb_sym v l).
Qed.

(** The steps of [filteredPlaces] ask of a place what the clauses of the
    amended statement ask. *)
Lemma ratingStep_ratingActive (filters : PlaceFilters.t) (place : Place.t) :
  UsePlacesSearch.ratingStep filters place = Spec.ratingActive filters place.
Proof. reflexivity. Qed.

Lemma priceStep_priceActive (filters : PlaceFilters.t) (place : Place.t) :
  UsePlacesSearch.priceStep filters place = Spec.priceActive filters place.
Proof.
  unfold UsePlacesSearch.priceStep, Spec.priceActive, UsePlacesSearch.priceClause.
  destruct (PlaceFilters.priceLevel filters) as [[|level levels]|]; try reflexivity.
  change (0 <? length (level :: levels))%nat with true. cbv iota.
  destruct (Place.priceLevel place) as [v|]; [|reflexivity].
  rewrite truthy_nonZero. destruct (Spec.nonZero v) eqn:Hv; [|reflexivity].
  rewrite Array_includes_existsb; [reflexivity|].
  apply truthy_not_nan. now rewrite truthy_nonZero.
Qed.

Lemma distanceStep_distanceActive (filters : PlaceFilters.t) (place : Place.t) :
  UsePlacesSearch.distanceStep filters place = Spec.distanceActive filters place.
Proof.
  unfold UsePlacesSearch.distanceStep, Spec.distanceActive, UsePlacesSearch.distanceClause.
  destruct (PlaceFilters.distance filters) as [limit|]; [|reflexivity].
  rewrite truthy_nonZero. destruct (Spec.nonZero (PlaceFilters.Distance.max limit));
    [|reflexivity].
  destruct (Place.distance place) as [d|]; [|reflexivity].
  rewrite truthy_nonZero. now destruct (Spec.nonZero d).
Qed.

Lemma passes_kept (filters : PlaceFilters.t) (place : Place.t) :
  UsePlacesSearch.passes filters place = Spec.kept filters place.
Proof.
  unfold UsePlacesSearch.passes, Spec.kept.
  now rewrite ratingStep_ratingActive, priceStep_priceActive, distanceStep_distanceActive.
Qed.

Lemma filteredPlaces_kept (result : PlaceSearchResult.t) (filters : PlaceFilters.t) :
  UsePlacesSearch.filteredPlaces (Some result) filters
  = List.filter (Spec.kept filters) (PlaceSearchResult.places result).
Proof.
  rewrite filteredPlaces_filter. apply List.filter_ext. intros place. apply passes_kept.
Qed.

(** C3, counterexample: with the full filter set whose distance maximum is
    0 km, the four places at 500 m are all kept, although none of them is
    within [0 * 1000] meters. *)
Lemma filteredPlaces_not_as_stated :
  UsePlacesSearch.filteredPlaces (Some FilterExamples.fetched) FilterExamples.distanceZero
  <> List.filter
       (Spec.keptAsStated (PlaceFilters.Rating.mk 0 5) [] (PlaceFilters.Distance.mk 0))
       (PlaceSearchResult.places FilterExamples.fetched).
Proof. vm_compute. discriminate. Qed.

(** C3, as amended: applying filters keeps, in their original order, exactly
    the fetched places that pass every active clause; the rating clause
    (declared range) asks for a rating in [[min, max]], the price clause
    (declared non-empty set) for a price level in the set, and the distance
    clause (declared non-zero maximum) for a distance of at most
    [max * 1000] meters of the places that have a non-zero distance.  The
    result is a sub-sequence computed from the fetched list, which is left
    as it is.  The
    rating filter [{min: 4, max: 5}] keeps of the places rated 3.2, 4.1,
    4.9, 5.0 exactly those rated 4.1, 4.9, 5.0, in that order. *)
Theorem filteredPlaces_and_composition :
  (forall (result : PlaceSearchResult.t) (filters : PlaceFilters.t),
      UsePlacesSearch.filteredPlaces (Some result) filters
      = List.filter (Spec.kept filters) (PlaceSearchResult.places result)) /\
  (forall (result : PlaceSearchResult.t) (filters : PlaceFilters.t),
      sublist (UsePlacesSearch.filteredPlaces (Some result) filters)
              (PlaceSearchResult.places result)) /\
  (forall (result : PlaceSearchResult.t) (filters : PlaceFilters.t) (place : Place.t),
      In place (UsePlacesSearch.filteredPlaces (Some result) filters) <->
      In place (PlaceSearchResult.places result) /\
      Spec.ratingActive filters place = true /\
      Spec.priceActive filters place = true /\
      Spec.distanceActive filters place = true) /\
  UsePlacesSearch.filteredPlaces (Some FilterExamples.fetched) FilterExamples.ratingFourToFive
  = [FilterExamples.p41; FilterExamples.p49; FilterExamples.p50].
Proof.
  split; [exact filteredPlaces_kept|]. split; [|split].
  - intros result filters. rewrite filteredPlaces_kept. apply filter_sublist.
  - intros result filters place. rewrite filteredPlaces_kept, filter_In.
    unfold Spec.kept. rewrite !Bool.andb_true_iff. tauto.
  - vm_compute. reflexivity.
Qed.

(** C10: a place whose distance is undefined or 0 passes the distance
    clause for every maximum, so the distance filter never removes it: it
    is in the filtered view with a distance filter exactly when it is
    without one. *)
Theorem distance_filter_skips_places_without_distance (place : Place.t) :
  (Place.distance place = None \/
   exists d, Place.distance place = Some d /\ is_zero d = true) ->
  (forall maxDistanceMeters,
      UsePlacesSearch.distanceClause maxDistanceMeters place = true) /\
  (forall (result : PlaceSearchResult.t) (filters : PlaceFilters.t)
          (lim : PlaceFilters.Distance.t),
      In place (UsePlacesSearch.filteredPlaces (Some result)
                  (Spec.with_distance filters (Some lim))) <->
      In place (UsePlacesSearch.filteredPlaces (Some result)
                  (Spec.with_distance filters None))).
Proof.
  intros Hd.
  assert (Hclause : forall m, UsePlacesSearch.distanceClause m place = true).
  { intros m. unfold UsePlacesSearch.distanceClause.
    destruct Hd as [-> | (d & -> & Hz)]; [reflexivity|].
    unfold JS.truthy. now rewrite Hz. }
  split; [exact Hclause|].
  intros result filters lim. rewrite !filteredPlaces_filter, !filter_In.
  unfold UsePlacesSearch.passes, UsePlacesSearch.distanceStep, Spec.with_distance,
    UsePlacesSearch.ratingStep, UsePlacesSearch.priceStep. simpl.
  destruct (JS.truthy (PlaceFilters.Distance.max lim)); [|tauto].
  rewrite Hclause. tauto.
Qed.

(** A place found by a text search without location has no distance and
    passes a one-kilometre limit. *)
Lemma distance_filter_skips_places_without_distance_witness :
  (Place.distance FilterExamples.noDistance = None \/
   exists d, Place.distance FilterExamples.noDistance = Some d /\ is_zero d = true) /\
  UsePlacesSearch.distanceClause 1000 FilterExamples.noDistance = true.
Proof.
  assert (H : Place.distance FilterExamples.noDistance = None \/
              exists d, Place.distance FilterExamples.noDistance = Some d /\
                        is_zero d = true)
    by (left; reflexivity).
  split; [exact H|].
  apply (proj1 (distance_filter_skips_places_without_distance _ H)).
Defined.

(** ** Classification buckets *)

(** A number that is at least some bound and is not [>= c] is below [c]. *)
Lemma float_not_geb_ltb (x lo c : float) :
  Prim2SF c <> S754_nan ->
  JS.geb x lo = true -> JS.geb x c = false -> (x <? c)%float = true.
Proof.
  unfold JS.geb. rewrite ltb_spec, !leb_spec. unfold SFltb, SFleb.
  intros Hc Hlo Hge.
  assert (Hx : Prim2SF x <> S754_nan).
  { intros E. rewrite E in Hlo. destruct (Prim2SF lo) as [[]|[]| |[] ? ?]; discriminate Hlo. }
  rewrite (SFcompare_swap (Prim2SF c) (Prim2SF x)).
  destruct (SFcompare (Prim2SF c) (Prim2SF x)) as [[]|] eqn:E; simpl;
    try reflexivity; try discriminate Hge.
  destruct (SFcompare_None _ _ E); contradiction.
Qed.

Lemma getClassificationFromRating_inBucket (rating : float) :
  Spec.inBucket rating (PlacesData.getClassificationFromRating rating).
Proof.
  unfold PlacesData.getClassificationFromRating.
  destruct (JS.geb rating 4.5) eqn:H45; [exact H45|].
  destruct (JS.geb rating 4.0) eqn:H40.
  { split; [exact H40|]. apply (float_not_geb_ltb rating 4.0 4.5); auto; discriminate. }
  destruct (JS.geb rating 3.5) eqn:H35.
  { split; [exact H35|]. apply (float_not_geb_ltb rating 3.5 4.0); auto; discriminate. }
  destruct (JS.geb rating 3.0) eqn:H30.
  { split; [exact H30|]. apply (float_not_geb_ltb rating 3.0 3.5); auto; discriminate. }
  exact H30.
Qed.

(** C5, counterexample: a place rated 4.5 with 50 reviews is classified
    [GOOD] by the enricher, not [EXCELLENT]: 4.5 is not in the range of the
    bucket it is given. *)
Lemma metrics_bucket_not_by_rating :
  ~ Spec.inBucket 4.5 (MockOpenAIService.getClassificationFromMetrics 4.5 50).
Proof. vm_compute. intros [_ H]. discriminate H. Qed.

(** C5, as amended: the rating utility [getClassificationFromRating] (of
    the mock data and of the badge component) gives excellent when
    rating >= 4.5, very_good when 4.0 <= rating < 4.5, good when
    3.5 <= rating < 4.0, average when 3.0 <= rating < 3.5 and poor
    otherwise; the enricher applies the same thresholds to the rating
    scaled by review volume, [rating * (0.7 + 0.3 * min(reviewCount / 100, 1))]. *)
Theorem classification_buckets :
  (forall rating,
      Spec.inBucket rating (PlaceClassificationBadge.getClassificationFromRating rating)) /\
  (forall rating,
      PlacesData.getClassificationFromRating rating
      = PlaceClassificationBadge.getClassificationFromRating rating) /\
  (forall rating reviewCount,
      Spec.inBucket
        (rating * (0.7 + 0.3 * JS.Math_min (reviewCount / 100) 1))%float
        (MockOpenAIService.getClassificationFromMetrics rating reviewCount)).
Proof.
  split; [|split].
  - intros rating. apply getClassificationFromRating_inBucket.
  - reflexivity.
  - intros rating reviewCount.
    apply (getClassificationFromRating_inBucket
             (MockOpenAIService.adjustedRating rating reviewCount)).
Qed.

(** ** MockOpenAIService *)

Section Enrichment.
Variable Number_toString : float -> string.

Lemma analyzePlaceReviews_providerCalls (place : Place.t) (env : Runtime.Env) :
  Runtime.providerCalls (snd (MockOpenAIService.analyzePlaceReviews Number_toString place env))
  = Runtime.providerCalls env ++ [Place.id place].
Proof. reflexivity. Qed.

Lemma batchAnalyzeLoop_providerCalls (places : list Place.t)
      (analyses : gmap string AIAnalysis.t) (env : Runtime.Env) :
  Runtime.providerCalls
    (snd (MockOpenAIService.batchAnalyzeLoop Number_toString places analyses env))
  = Runtime.providerCalls env ++ map Place.id places.
Proof.
  revert analyses env. induction places as [|place rest IH]; intros analyses env.
  - simpl. now rewrite app_nil_r.
  - cbn [MockOpenAIService.batchAnalyzeLoop]. unfold Runtime.bind at 1.
    destruct (MockOpenAIService.analyzePlaceReviews Number_toString place env)
      as [a env'] eqn:E.
    rewrite IH.
    pose proof (analyzePlaceReviews_providerCalls place env) as Hc.
    rewrite E in Hc. simpl in Hc. rewrite Hc. simpl. now rewrite <- app_assoc.
Qed.

(** Called on its class, the batch method sends every place it is given to
    the provider, classified or not. *)
Lemma batchAnalyzePlaces_providerCalls (places : list Place.t) (env : Runtime.Env) :
  Runtime.providerCalls (snd (MockOpenAIService.batchAnalyzePlaces Number_toString places env))
  = Runtime.providerCalls env ++ map Place.id places.
Proof. apply batchAnalyzeLoop_providerCalls. Qed.

Lemma analyzePlaceReviews_with_totalReviews (place : Place.t) (n : float)
      (env : Runtime.Env) :
  snd (MockOpenAIService.analyzePlaceReviews Number_toString
         (Place.with_totalReviews place n) env)
  = snd (MockOpenAIService.analyzePlaceReviews Number_toString place env) /\
  AIAnalysis.confidence
    (fst (MockOpenAIService.analyzePlaceReviews Number_toString
            (Place.with_totalReviews place n) env))
  = AIAnalysis.confidence
      (fst (MockOpenAIService.analyzePlaceReviews Number_toString place env)).
Proof. split; reflexivity. Qed.

Lemma batchAnalyzeLoop_confidence (places : list Place.t) (reviews : Place.t -> float)
      (m m' : gmap string AIAnalysis.t) (env : Runtime.Env) :
  AIAnalysis.confidence <$> m' = AIAnalysis.confidence <$> m ->
  AIAnalysis.confidence <$>
    fst (MockOpenAIService.batchAnalyzeLoop Number_toString
           (map (fun p => Place.with_totalReviews p (reviews p)) places) m' env)
  = AIAnalysis.confidence <$>
      fst (MockOpenAIService.batchAnalyzeLoop Number_toString places m env).
Proof.
  revert m m' env. induction places as [|place rest IH]; intros m m' env Hm.
  - exact Hm.
  - cbn [map MockOpenAIService.batchAnalyzeLoop].
    change (Runtime.bind ?c ?k env) with (let '(a, env') := c env in k a env').
    destruct (analyzePlaceReviews_with_totalReviews place (reviews place) env)
      as [Henv Hconf].
    destruct (MockOpenAIService.analyzePlaceReviews Number_toString
                (Place.with_totalReviews place (reviews place)) env) as [a' env'].
    destruct (MockOpenAIService.analyzePlaceReviews Number_toString place env)
      as [a env''].
    simpl in Henv, Hconf. subst env''.
    apply IH. rewrite !fmap_insert. simpl. now rewrite Hconf, Hm.
Qed.

(** C6, as amended: the confidence of an analysis is [0.8 + 0.2 * u] for
    the random draw [u] of the call and does not depend on the review
    count: a place and the same place with any other review count get the
    same confidence from the same draws, one at a time or in a batch, and
    nothing relates the confidences of different draws. *)
Theorem confidence_independent_of_review_count :
  (forall (place : Place.t) (env : Runtime.Env),
      AIAnalysis.confidence
        (fst (MockOpenAIService.analyzePlaceReviews Number_toString place env))
      = (Runtime.randomSource env (S (Runtime.randomCursor env)) * 0.2 + 0.8)%float) /\
  (forall (place : Place.t) (reviewCount : float) (env : Runtime.Env),
      AIAnalysis.confidence
        (fst (MockOpenAIService.analyzePlaceReviews Number_toString
                (Place.with_totalReviews place reviewCount) env))
      = AIAnalysis.confidence
          (fst (MockOpenAIService.analyzePlaceReviews Number_toString place env))) /\
  (forall (places : list Place.t) (reviews : Place.t -> float) (env : Runtime.Env),
      AIAnalysis.confidence <$>
        fst (MockOpenAIService.batchAnalyzePlaces Number_toString
               (map (fun p => Place.with_totalReviews p (reviews p)) places) env)
      = AIAnalysis.confidence <$>
          fst (MockOpenAIService.batchAnalyzePlaces Number_toString places env)).
Proof.
  split; [|split].
  - intros place env. reflexivity.
  - intros place reviewCount env.
    apply (analyzePlaceReviews_with_totalReviews place reviewCount env).
  - intros places reviews env. unfold MockOpenAIService.batchAnalyzePlaces.
    now apply batchAnalyzeLoop_confidence.
Qed.

End Enrichment.

(** C6, counterexample: the place with 12 reviews is analysed with
    confidence 0.98 and the same place with 480 reviews, analysed next,
    with confidence 0.82: fewer reviews got the higher confidence. *)
Lemma confidence_not_monotone_in_review_count :
  let '(few, env1) :=
    MockOpenAIService.analyzePlaceReviews EnrichmentExamples.Number_toString
      EnrichmentExamples.fewReviews EnrichmentExamples.env0 in
  let '(many, _) :=
    MockOpenAIService.analyzePlaceReviews EnrichmentExamples.Number_toString
      EnrichmentExamples.manyReviews env1 in
  (Place.totalReviews EnrichmentExamples.fewReviews
   <? Place.totalReviews EnrichmentExamples.manyReviews)%float = true /\
  (AIAnalysis.confidence many <? AIAnalysis.confidence few)%float = true.
Proof. vm_compute. split; reflexivity. Qed.

(** ** usePlacesSearch: the two mutations *)

Section HookFacts.
Variable Number_toString : float -> string.
Variable String_toLowerCase : string -> string.

(** The single-place mutation always fails: its function, called as a
    method of the mutation's options, throws at
    [this.getClassificationFromMetrics].  The run is recorded with its
    error, the call of the provider is recorded, and nothing else of the
    state changes. *)
Lemma analyzeePlaceMutation_mutate_fails (now : float) (place : Place.t)
      (st : UsePlacesSearch.State) (env : Runtime.Env) :
  UsePlacesSearch.analyzeePlaceMutation_mutate Number_toString now place st env
  = (UsePlacesSearch.mkState
       (UsePlacesSearch.searchParams st) (UsePlacesSearch.selectedPlace st)
       (UsePlacesSearch.filters st) (UsePlacesSearch.enableAIAnalysis st)
       (UsePlacesSearch.queryCache st)
       (UsePlacesSearch.analyzeePlaceMutation st ++
          [UsePlacesSearch.mkRun place
             (inl (JS.TypeError "this.getClassificationFromMetrics is not a function"))])
       (UsePlacesSearch.batchAnalyzeMutation st),
     Runtime.mkEnv (Runtime.randomSource env) (Runtime.randomCursor env)
                   (Runtime.providerCalls env ++ [Place.id place])).
Proof. reflexivity. Qed.

(** The batch mutation fails for every non-empty list of places: its
    function throws at [this.analyzePlaceReviews] for the first place,
    before any place is analysed. *)
Lemma batchAnalyzeMutation_mutate_fails (now : float) (places : list Place.t)
      (st : UsePlacesSearch.State) (env : Runtime.Env) :
  places <> [] ->
  UsePlacesSearch.batchAnalyzeMutation_mutate Number_toString now places st env
  = (UsePlacesSearch.mkState
       (UsePlacesSearch.searchParams st) (UsePlacesSearch.selectedPlace st)
       (UsePlacesSearch.filters st) (UsePlacesSearch.enableAIAnalysis st)
       (UsePlacesSearch.queryCache st)
       (UsePlacesSearch.analyzeePlaceMutation st)
       (UsePlacesSearch.batchAnalyzeMutation st ++
          [UsePlacesSearch.mkRun places
             (inl (JS.TypeError "this.analyzePlaceReviews is not a function"))]),
     env).
Proof. destruct places as [|place rest]; [congruence | reflexivity]. Qed.

(** The continuation of [searchPlaces] changes nothing but the record of
    the batch mutation: when it starts the mutation, for a non-empty
    result with the analysis on, the mutation fails. *)
Lemma searchPlaces_enrich_runs (enabled : bool) (now : float)
      (result : PlaceSearchResult.t) (st : UsePlacesSearch.State) (env : Runtime.Env) :
  UsePlacesSearch.searchPlaces_enrich Number_toString enabled now result st env
  = (UsePlacesSearch.mkState
       (UsePlacesSearch.searchParams st) (UsePlacesSearch.selectedPlace st)
       (UsePlacesSearch.filters st) (UsePlacesSearch.enableAIAnalysis st)
       (UsePlacesSearch.queryCache st)
       (UsePlacesSearch.analyzeePlaceMutation st)
       (UsePlacesSearch.batchAnalyzeMutation st ++
          if enabled && (0 <? length (PlaceSearchResult.places result))%nat
          then [UsePlacesSearch.mkRun (PlaceSearchResult.places result)
                  (inl (JS.TypeError "this.analyzePlaceReviews is not a function"))]
          else []),
     env).
Proof.
  unfold UsePlacesSearch.searchPlaces_enrich.
  destruct enabled; cbn [andb].
  - destruct (PlaceSearchResult.places result) as [|place rest] eqn:E.
    + simpl. rewrite app_nil_r. now destruct st.
    + change (0 <? length (place :: rest))%nat with true. cbv iota.
      now rewrite batchAnalyzeMutation_mutate_fails.
  - rewrite app_nil_r. now destruct st.
Qed.

(** Running a computation and then another is running the second on the
    result and the runtime of the first. *)
Lemma bind_eq {A B : Type} (c : Runtime.M A) (k : A -> Runtime.M B) (env : Runtime.Env) :
  Runtime.bind c k env = k (fst (c env)) (snd (c env)).
Proof. unfold Runtime.bind. now destruct (c env). Qed.

Lemma searchPlaces_queryFn_eq (allPlaces : list Place.t) (now : float)
      (params : PlaceSearchParams.t) (env : Runtime.Env) :
  UsePlacesSearch.searchPlaces_queryFn String_toLowerCase allPlaces now params env
  = (MockPlacesService.searchPlaces String_toLowerCase allPlaces now params,
     Runtime.mkEnv (Runtime.randomSource env) (Runtime.randomCursor env + 9 * 15)
                   (Runtime.providerCalls env)).
Proof. reflexivity. Qed.

(** The details query writes details entries only, and calls no provider. *)
Lemma placeDetails_observe_frame (mockPlace : Place.t) (now fetched : float)
      (previous selected : option Place.t) (c : UsePlacesSearch.QueryCache)
      (env : Runtime.Env) :
  let '(c', env') :=
    UsePlacesSearch.placeDetails_observe mockPlace now fetched previous selected c env in
  UsePlacesSearch.searchQueries c' = UsePlacesSearch.searchQueries c /\
  Runtime.providerCalls env' = Runtime.providerCalls env /\
  Runtime.randomSource env' = Runtime.randomSource env.
Proof.
  unfold UsePlacesSearch.placeDetails_observe.
  destruct selected as [place|]; [|now repeat split].
  destruct (JS.truthy_string (Place.id place) && _); [|now repeat split].
  destruct (UsePlacesSearch.detailQueries c !! Place.id place) as [q|].
  - destruct (UsePlacesSearch.isStaleByTime q _ _); now repeat split.
  - now repeat split.
Qed.

End HookFacts.

(** C4: selecting a place that is classified already starts no analysis:
    no run of either mutation, no call of the provider, the search results
    untouched.  Batch enrichment has no such guard.  The search for the
    restaurants rated at least 4.5, made with the analysis on, returns
    three places that are all classified, and the batch mutation is run
    with the three of them; the run ends in the [TypeError] of a method
    called without its class, so the places keep the analyses they had.
    In general, whenever a search made with the analysis on resolves to a
    non-empty result, the batch mutation is run with all its places,
    classified or not. *)
Theorem batch_enrichment_runs_on_classified_places
  (Number_toString : float -> string) (String_toLowerCase : string -> string) :
  (forall (mockPlace : Place.t) (now fetched settled : float) (place : Place.t)
          (analysis : AIAnalysis.t) (st : UsePlacesSearch.State) (env : Runtime.Env),
      Place.aiAnalysis place = Some analysis ->
      let '(st', env') :=
        UsePlacesSearch.selectPlace Number_toString mockPlace now fetched settled
          (Some place) st env in
      Runtime.providerCalls env' = Runtime.providerCalls env /\
      UsePlacesSearch.analyzeePlaceMutation st' = UsePlacesSearch.analyzeePlaceMutation st /\
      UsePlacesSearch.batchAnalyzeMutation st' = UsePlacesSearch.batchAnalyzeMutation st /\
      UsePlacesSearch.searchResult st' = UsePlacesSearch.searchResult st /\
      UsePlacesSearch.selectedPlace st' = Some place) /\
  (let result :=
     MockPlacesService.searchPlaces String_toLowerCase Examples.mockRestaurants
       Examples.served Examples.topRatedSearch in
   let '(st, env) :=
     UsePlacesSearch.searchPlaces Number_toString String_toLowerCase
       Examples.mockRestaurants Examples.now Examples.served Examples.settled
       Examples.topRatedSearch UsePlacesSearch.initialState EnrichmentExamples.env0 in
   PlaceSearchResult.places result
   = [Examples.steakhouse; Examples.trattoria; Examples.laMama] /\
   Forall (fun place => is_Some (Place.aiAnalysis place)) (PlaceSearchResult.places result) /\
   UsePlacesSearch.batchAnalyzeMutation st
   = [UsePlacesSearch.mkRun (PlaceSearchResult.places result)
        (inl (JS.TypeError "this.analyzePlaceReviews is not a function"))] /\
   UsePlacesSearch.searchResult st = Some result /\
   Runtime.providerCalls env = []) /\
  (forall (allPlaces : list Place.t) (now served settled : float)
          (params : PlaceSearchParams.t) (st : UsePlacesSearch.State) (env : Runtime.Env),
      UsePlacesSearch.enableAIAnalysis st = true ->
      let resolved :=
        match UsePlacesSearch.fetchQuery_cached params now (UsePlacesSearch.queryCache st) with
        | Some cached => cached
        | None => MockPlacesService.searchPlaces String_toLowerCase allPlaces served params
        end in
      let '(st', env') :=
        UsePlacesSearch.searchPlaces Number_toString String_toLowerCase
          allPlaces now served settled params st env in
      Runtime.providerCalls env' = Runtime.providerCalls env /\
      UsePlacesSearch.analyzeePlaceMutation st' = UsePlacesSearch.analyzeePlaceMutation st /\
      UsePlacesSearch.batchAnalyzeMutation st'
      = UsePlacesSearch.batchAnalyzeMutation st ++
        match PlaceSearchResult.places resolved with
        | [] => []
        | places =>
            [UsePlacesSearch.mkRun places
               (inl (JS.TypeError "this.analyzePlaceReviews is not a function"))]
        end).
Proof.
  split; [|split].
  - intros mockPlace now fetched settled place analysis st env Ha.
    unfold UsePlacesSearch.selectPlace. rewrite bind_eq, Ha.
    assert (Hd : bool_decide (is_Some (Some analysis)) = true)
      by (apply bool_decide_eq_true; eauto).
    rewrite Hd, Bool.andb_false_r. unfold Runtime.ret.
    pose proof (placeDetails_observe_frame mockPlace now fetched
                  (UsePlacesSearch.selectedPlace st) (Some place)
                  (UsePlacesSearch.queryCache st) env) as Hf.
    destruct (UsePlacesSearch.placeDetails_observe _ _ _ _ _ _ env) as [c' env'].
    destruct Hf as (Hq & Hp & _). simpl.
    split; [exact Hp|]. repeat split; try reflexivity.
    unfold UsePlacesSearch.searchResult. simpl. now rewrite Hq.
  - vm_compute. split; [reflexivity|]. split.
    { repeat constructor; eexists; reflexivity. }
    repeat split; reflexivity.
  - intros allPlaces now served settled params st env Hai. cbv zeta.
    unfold UsePlacesSearch.searchPlaces. rewrite Hai.
    change (UsePlacesSearch.queryCache (UsePlacesSearch.searchPlaces_request params st))
      with (UsePlacesSearch.queryCache st).
    destruct (UsePlacesSearch.fetchQuery_cached params now (UsePlacesSearch.queryCache st))
      as [cached|].
    + rewrite bind_eq, searchPlaces_enrich_runs. cbn [andb].
      destruct (match UsePlacesSearch.getSearchQuery _ _ with Some _ => _ | None => _ end).
      * rewrite bind_eq, searchPlaces_queryFn_eq. simpl.
        split; [reflexivity|]. split; [reflexivity|].
        now destruct (PlaceSearchResult.places cached).
      * simpl. split; [reflexivity|]. split; [reflexivity|].
        now destruct (PlaceSearchResult.places cached).
    + rewrite bind_eq, searchPlaces_queryFn_eq.
      set (fetched := MockPlacesService.searchPlaces String_toLowerCase allPlaces
                        served params).
      clearbody fetched. cbn [fst snd]. rewrite searchPlaces_enrich_runs. cbn [andb].
      split; [reflexivity|]. split; [reflexivity|]. simpl.
      now destruct (PlaceSearchResult.places fetched).
Qed.

(** ** MapContainer: the location watch *)

(** Stopping live navigation releases the watch: the path that does
    release it. *)
Lemma stop_releases_watch :
  let st := MapContainer.run ScenarioExamples.liveThenStop ScenarioExamples.map0 in
  NavigationState.navigationMode (MapContainer.url st) = NavigationState.none /\
  MapContainer.locationWatchIdRef st = None /\
  MapContainer.activeWatches st = [].
Proof. vm_compute. auto. Qed.

(** Showing a static route never releases a watch: whatever the state,
    [handleStaticRoute] leaves the ref and the registered watches as they
    are. *)
Lemma handleStaticRoute_keeps_watch (place : Place.t) (st : MapContainer.State) :
  MapContainer.locationWatchIdRef (MapContainer.handleStaticRoute place st)
  = MapContainer.locationWatchIdRef st /\
  MapContainer.activeWatches (MapContainer.handleStaticRoute place st)
  = MapContainer.activeWatches st.
Proof.
  destruct st as [u [c|] markers renderer ref watches next routes];
    unfold MapContainer.handleStaticRoute; simpl; [|auto].
  unfold MapContainer.rerender.
  destruct (MapContainer.depsChanged _ _); [|auto].
  unfold MapContainer.navigationEffect. simpl.
  destruct (MapContainer.currentDestination _) as [dest|]; [|auto].
  destruct renderer; simpl; auto.
Qed.

(** C8: after live navigation to [laMama] and then static navigation to
    [trattoria] the mode is [static] and the destination is [trattoria],
    but the watch opened for the live tracking is still held in the ref and
    still registered with the geolocation service. *)
Theorem live_then_static_leaves_watch_open :
  let st := MapContainer.run ScenarioExamples.liveThenStatic ScenarioExamples.map0 in
  NavigationState.navigationMode (MapContainer.url st) = NavigationState.static /\
  NavigationState.destinationId (MapContainer.url st) = Some (Place.id Examples.trattoria) /\
  MapContainer.locationWatchIdRef st = Some 1 /\
  MapContainer.activeWatches st = [1] /\
  ~ MapContainer.noWatchUnlessLive st.
Proof.
  vm_compute. repeat split.
  intros H. destruct H as [H _]; [discriminate | discriminate H].
Qed.

(** ** usePlacesSearch: responses and the query cache *)

Lemma sameKey_refl (p : PlaceSearchParams.t) : UsePlacesSearch.sameKey p p = true.
Proof. unfold UsePlacesSearch.sameKey. now apply bool_decide_eq_true. Qed.

Lemma getSearchData_setSearchData_same (p : PlaceSearchParams.t) (v : PlaceSearchResult.t)
      (now : float)
      (entries : list (PlaceSearchParams.t * UsePlacesSearch.Query PlaceSearchResult.t)) :
  UsePlacesSearch.getSearchData p (UsePlacesSearch.setSearchData p v now entries) = Some v.
Proof.
  unfold UsePlacesSearch.getSearchData.
  induction entries as [|[k q] rest IH]; simpl.
  - now rewrite sameKey_refl.
  - destruct (UsePlacesSearch.sameKey p k) eqn:E; simpl; rewrite E; [reflexivity | exact IH].
Qed.

Lemma getSearchData_setSearchData_other (p q : PlaceSearchParams.t)
      (v : PlaceSearchResult.t) (now : float)
      (entries : list (PlaceSearchParams.t * UsePlacesSearch.Query PlaceSearchResult.t)) :
  UsePlacesSearch.sameKey q p = false ->
  UsePlacesSearch.getSearchData q (UsePlacesSearch.setSearchData p v now entries)
  = UsePlacesSearch.getSearchData q entries.
Proof.
  unfold UsePlacesSearch.getSearchData.
  intros Hqp. induction entries as [|[k v'] rest IH]; simpl.
  - now rewrite Hqp.
  - destruct (UsePlacesSearch.sameKey p k) eqn:E; simpl.
    + assert (Hqk : UsePlacesSearch.sameKey q k = false).
      { unfold UsePlacesSearch.sameKey in *.
        apply bool_decide_eq_true in E. apply bool_decide_eq_false in Hqp.
        apply bool_decide_eq_false. congruence. }
      now rewrite Hqk.
    + destruct (UsePlacesSearch.sameKey q k); [reflexivity | exact IH].
Qed.

(** Two finite numbers that differ are written differently in a key: JSON
    only identifies [0] with [-0], and the non-finite numbers with one
    another. *)
Lemma jsonNumber_differ (x y : float) :
  is_finite x = true -> is_finite y = true -> (x =? y)%float = false ->
  UsePlacesSearch.jsonNumber x <> UsePlacesSearch.jsonNumber y.
Proof.
  intros Hx Hy Hxy. unfold UsePlacesSearch.jsonNumber. rewrite Hx, Hy.
  assert (Hnx : is_nan x = false).
  { unfold is_finite in Hx. destruct (is_nan x); [discriminate Hx | reflexivity]. }
  assert (Hrefl : (x =? x)%float = true).
  { unfold is_nan in Hnx. now destruct (x =? x)%float. }
  unfold is_zero. change PrimFloat.zero with 0%float.
  destruct (x =? 0)%float eqn:Ex, (y =? 0)%float eqn:Ey; intros E.
  - rewrite (float_eqb_trans x 0 y Ex) in Hxy; [discriminate Hxy|].
    now rewrite float_eqb_sym.
  - injection E as E. subst y. discriminate Ey.
  - injection E as E. subst x. discriminate Ex.
  - injection E as E. subst y. congruence.
Qed.

(** A change of location, between coordinates that are finite numbers,
    changes the part of the key that holds the location. *)
Lemma jsonLocation_differ (a b : Coordinates.t) :
  is_finite (Coordinates.lat a) = true -> is_finite (Coordinates.lng a) = true ->
  is_finite (Coordinates.lat b) = true -> is_finite (Coordinates.lng b) = true ->
  (Coordinates.lat a =? Coordinates.lat b)%float = false \/
  (Coordinates.lng a =? Coordinates.lng b)%float = false ->
  UsePlacesSearch.jsonLocation a <> UsePlacesSearch.jsonLocation b.
Proof.
  intros Ha1 Ha2 Hb1 Hb2 Hd E. unfold UsePlacesSearch.jsonLocation in E.
  injection E as E1 E2. destruct Hd as [Hd|Hd].
  - exact (jsonNumber_differ _ _ Ha1 Hb1 Hd E1).
  - exact (jsonNumber_differ _ _ Ha2 Hb2 Hd E2).
Qed.

(** A change of category or of location changes the query key. *)
Lemma superseding_changes_key (stale newer : PlaceSearchParams.t) :
  PlaceSearchParams.type stale <> PlaceSearchParams.type newer \/
  Spec.locationChanged (PlaceSearchParams.location stale)
                       (PlaceSearchParams.location newer) ->
  UsePlacesSearch.sameKey newer stale = false.
Proof.
  intros H. apply bool_decide_eq_false. intros E.
  pose proof (f_equal UsePlacesSearch.key_type E) as Et.
  pose proof (f_equal UsePlacesSearch.key_location E) as El.
  simpl in Et, El. destruct H as [H|H].
  - congruence.
  - destruct H as (Ha1 & Ha2 & Hb1 & Hb2 & Hd).
    apply (jsonLocation_differ _ _ Ha1 Ha2 Hb1 Hb2 Hd). now symmetry.
Qed.

Section StaleResponses.
Variable Number_toString : float -> string.

(** The current result after the continuation of a [searchPlaces] call is
    the current result before it. *)
Lemma searchResult_searchPlaces_enrich (enabled : bool) (now : float)
      (result : PlaceSearchResult.t) (st : UsePlacesSearch.State) (env : Runtime.Env) :
  UsePlacesSearch.searchResult
    (fst (UsePlacesSearch.searchPlaces_enrich Number_toString enabled now result st env))
  = UsePlacesSearch.searchResult st.
Proof. now rewrite searchPlaces_enrich_runs. Qed.

(** A response of a request with another key, and the continuation that
    follows it, leave the result set of the current parameters as it is. *)
Lemma stale_response_keeps_searchResult
      (stale newer : PlaceSearchParams.t) (staleResult : PlaceSearchResult.t)
      (enabled : bool) (arrived settled : float)
      (st : UsePlacesSearch.State) (env : Runtime.Env) :
  UsePlacesSearch.searchParams st = Some newer ->
  UsePlacesSearch.sameKey newer stale = false ->
  UsePlacesSearch.searchResult
    (fst (UsePlacesSearch.searchPlaces_enrich Number_toString enabled settled staleResult
            (UsePlacesSearch.searchPlaces_response stale staleResult arrived st) env))
  = UsePlacesSearch.searchResult st.
Proof.
  intros Hp Hkey. rewrite searchResult_searchPlaces_enrich.
  unfold UsePlacesSearch.searchResult, UsePlacesSearch.searchPlaces_response.
  simpl. rewrite Hp. now apply getSearchData_setSearchData_other.
Qed.

(** C9: when a search is superseded by a search with another category or
    another location, the result set shown once the newer response is
    committed is the newer one.  A response of the superseded request that
    arrives afterwards does not replace it, nor does the continuation of
    the superseded call that follows the response: the response is stored
    under the key of its own request, and the batch enrichment the
    continuation starts writes nothing.  The same holds when the stale
    response arrives first. *)
Theorem stale_search_response_does_not_overwrite
  (st0 : UsePlacesSearch.State) (stale newer : PlaceSearchParams.t)
  (staleResult newResult : PlaceSearchResult.t)
  (enabled : bool) (first second settled : float) (env : Runtime.Env) :
  PlaceSearchParams.type stale <> PlaceSearchParams.type newer \/
  Spec.locationChanged (PlaceSearchParams.location stale)
                       (PlaceSearchParams.location newer) ->
  let st := UsePlacesSearch.searchPlaces_request newer
              (UsePlacesSearch.searchPlaces_request stale st0) in
  let committed := UsePlacesSearch.searchPlaces_response newer newResult first st in
  let staleLast :=
    fst (UsePlacesSearch.searchPlaces_enrich Number_toString enabled settled staleResult
           (UsePlacesSearch.searchPlaces_response stale staleResult second committed) env) in
  let staleFirst :=
    UsePlacesSearch.searchPlaces_response newer newResult second
      (fst (UsePlacesSearch.searchPlaces_enrich Number_toString enabled settled staleResult
              (UsePlacesSearch.searchPlaces_response stale staleResult first st) env)) in
  UsePlacesSearch.searchResult committed = Some newResult /\
  UsePlacesSearch.searchResult staleLast = Some newResult /\
  UsePlacesSearch.searchResult staleFirst = Some newResult /\
  UsePlacesSearch.searchParams staleLast = Some newer /\
  UsePlacesSearch.searchParams staleFirst = Some newer.
Proof.
  intros Hchg. apply superseding_changes_key in Hchg. cbv zeta.
  assert (Hc : UsePlacesSearch.searchResult
                 (UsePlacesSearch.searchPlaces_response newer newResult first
                    (UsePlacesSearch.searchPlaces_request newer
                       (UsePlacesSearch.searchPlaces_request stale st0)))
               = Some newResult).
  { unfold UsePlacesSearch.searchResult. simpl. apply getSearchData_setSearchData_same. }
  split; [exact Hc|]. split; [|split; [|split]].
  - rewrite (stale_response_keeps_searchResult stale newer); [exact Hc | reflexivity | exact Hchg].
  - unfold UsePlacesSearch.searchResult. simpl.
    rewrite searchPlaces_enrich_runs. simpl. apply getSearchData_setSearchData_same.
  - now rewrite searchPlaces_enrich_runs.
  - simpl. now rewrite searchPlaces_enrich_runs.
Qed.

End StaleResponses.

(** Scenario D on the examples: the restaurant search in Bucharest
    superseded by the restaurant search in Cluj, the response for Bucharest
    arriving last, followed by its continuation. *)
Lemma stale_search_response_does_not_overwrite_witness :
  (PlaceSearchParams.type Examples.restaurantSearch
   <> PlaceSearchParams.type ScenarioExamples.clujSearch \/
   Spec.locationChanged (PlaceSearchParams.location Examples.restaurantSearch)
                        (PlaceSearchParams.location ScenarioExamples.clujSearch)) /\
  UsePlacesSearch.searchResult
    (fst (UsePlacesSearch.searchPlaces_enrich EnrichmentExamples.Number_toString true
            Examples.settled ScenarioExamples.restaurantResult
            (UsePlacesSearch.searchPlaces_response Examples.restaurantSearch
               ScenarioExamples.restaurantResult Examples.served
               (UsePlacesSearch.searchPlaces_response ScenarioExamples.clujSearch
                  ScenarioExamples.clujResult Examples.now
                  (UsePlacesSearch.searchPlaces_request ScenarioExamples.clujSearch
                     (UsePlacesSearch.searchPlaces_request Examples.restaurantSearch
                        UsePlacesSearch.initialState))))
            EnrichmentExamples.env0))
  = Some ScenarioExamples.clujResult.
Proof.
  assert (H : PlaceSearchParams.type Examples.restaurantSearch
              <> PlaceSearchParams.type ScenarioExamples.clujSearch \/
              Spec.locationChanged (PlaceSearchParams.location Examples.restaurantSearch)
                                   (PlaceSearchParams.location ScenarioExamples.clujSearch)).
  { right. unfold Spec.locationChanged. vm_compute. auto 10. }
  split; [exact H|].
  exact (proj1 (proj2 (stale_search_response_does_not_overwrite
                         EnrichmentExamples.Number_toString
                         UsePlacesSearch.initialState Examples.restaurantSearch
                         ScenarioExamples.clujSearch ScenarioExamples.restaurantResult
                         ScenarioExamples.clujResult true Examples.now Examples.served
                         Examples.settled EnrichmentExamples.env0 H))).
Defined.

(** ** Haversine distance *)

(** A number that is [NaN] is the [NaN] of binary64. *)
Lemma is_nan_true (x : float) : is_nan x = true -> x = nan.
Proof.
  unfold is_nan. rewrite FloatAxioms.eqb_spec. intros H.
  apply Prim2SF_inj. change (Prim2SF nan) with S754_nan.
  destruct (Prim2SF x) as [s|s| |s m e]; try reflexivity; exfalso.
  - destruct s; discriminate H.
  - destruct s; discriminate H.
  - revert H. unfold SFeqb. cbn. destruct s; cbn; fold_pos_compare;
      rewrite Z.compare_refl, Pos.compare_refl; discriminate.
Qed.

Section NearAntipodes.
Variables Math_sin Math_cos Math_sqrt : float -> float.
Variable Math_atan2 : float -> float -> float.

(** What ECMAScript fixes of the two functions: the square root of a
    negative number is [NaN], and so is the angle of a point one of whose
    coordinates is [NaN]. *)
Hypothesis Math_sqrt_negative : forall x, (x <? 0)%float = true -> is_nan (Math_sqrt x) = true.
Hypothesis Math_atan2_NaN : forall y x, is_nan x = true -> is_nan (Math_atan2 y x) = true.

(** The sine and the cosine the engine returns for eight degrees and for
    the right angle, up and down. *)
Hypothesis sin_eight :
  Math_sin HaversineExamples.eightDegrees = 0.13917310096006544%float.
Hypothesis sin_minus_eight :
  Math_sin (- HaversineExamples.eightDegrees)%float = (- 0.13917310096006544)%float.
Hypothesis sin_right : Math_sin HaversineExamples.rightAngle = 1%float.
Hypothesis sin_minus_right : Math_sin (- HaversineExamples.rightAngle)%float = (- 1)%float.
Hypothesis cos_eight :
  Math_cos HaversineExamples.eightDegrees = 0.9902680687415704%float.
Hypothesis cos_minus_eight :
  Math_cos (- HaversineExamples.eightDegrees)%float = 0.9902680687415704%float.

(** With these values the haversine term of the two points comes out
    above 1, in either direction. *)
Lemma haversine_term_above_one :
  (0.13917310096006544 * 0.13917310096006544 +
   0.9902680687415704 * 0.9902680687415704 * 1 * 1)%float = 1.0000000000000002%float /\
  (1 - 1.0000000000000002 <? 0)%float = true.
Proof. vm_compute. auto. Qed.

Ltac distance_is_NaN :=
  let Hs1 := fresh "Hs" in let Hs2 := fresh "Hs" in
  let Hs3 := fresh "Hs" in let Hs4 := fresh "Hs" in
  let Hc1 := fresh "Hc" in let Hc2 := fresh "Hc" in
  pose proof sin_eight as Hs1; pose proof sin_minus_eight as Hs2;
  pose proof sin_right as Hs3; pose proof sin_minus_right as Hs4;
  pose proof cos_eight as Hc1; pose proof cos_minus_eight as Hc2;
  vm_compute in Hs1, Hs2, Hs3, Hs4, Hc1, Hc2; vm_compute;
  rewrite ?Hs1, ?Hs2, ?Hs3, ?Hs4, ?Hc1, ?Hc2; vm_compute;
  match goal with
  | |- context [Math_atan2 ?y (Math_sqrt ?x)] =>
      rewrite (is_nan_true _ (Math_sqrt_negative x eq_refl));
      rewrite (is_nan_true _ (Math_atan2_NaN y nan eq_refl))
  end;
  reflexivity.

Lemma Google_north_south :
  Haversine.GooglePlacesService.calculateDistance Math_sin Math_cos Math_sqrt Math_atan2
    HaversineExamples.north HaversineExamples.south = nan.
Proof. distance_is_NaN. Qed.

Lemma Google_south_north :
  Haversine.GooglePlacesService.calculateDistance Math_sin Math_cos Math_sqrt Math_atan2
    HaversineExamples.south HaversineExamples.north = nan.
Proof. distance_is_NaN. Qed.

Lemma Mock_north_south :
  Haversine.MockDistanceService.calculateDistance Math_sin Math_cos Math_sqrt Math_atan2
    HaversineExamples.north HaversineExamples.south = nan.
Proof. distance_is_NaN. Qed.

Lemma Mock_south_north :
  Haversine.MockDistanceService.calculateDistance Math_sin Math_cos Math_sqrt Math_atan2
    HaversineExamples.south HaversineExamples.north = nan.
Proof. distance_is_NaN. Qed.

End NearAntipodes.

(** C7: for the valid coordinates (8, 0) and (-8, 180), which lie nearly
    opposite each other, the distance function of the places service and
    that of the mock distance service return [NaN], in both directions, so
    [distance(a, b) == distance(b, a)] is false.  In binary64 the
    haversine term [a] of the two points comes out as 1.0000000000000002,
    [1 - a] is negative and [Math.sqrt(1 - a)] is [NaN].  The statement
    is about every engine whose [Math.sin] and [Math.cos] return, at the
    four angles involved, the binary64 numbers nearest to the sine and the
    cosine. *)
Theorem calculateDistance_NaN_near_antipodes
  (Math_sin Math_cos Math_sqrt : float -> float) (Math_atan2 : float -> float -> float) :
  (forall x, (x <? 0)%float = true -> is_nan (Math_sqrt x) = true) ->
  (forall y x, is_nan x = true -> is_nan (Math_atan2 y x) = true) ->
  Math_sin HaversineExamples.eightDegrees = 0.13917310096006544%float ->
  Math_sin (- HaversineExamples.eightDegrees)%float = (- 0.13917310096006544)%float ->
  Math_sin HaversineExamples.rightAngle = 1%float ->
  Math_sin (- HaversineExamples.rightAngle)%float = (- 1)%float ->
  Math_cos HaversineExamples.eightDegrees = 0.9902680687415704%float ->
  Math_cos (- HaversineExamples.eightDegrees)%float = 0.9902680687415704%float ->
  let google :=
    Haversine.GooglePlacesService.calculateDistance Math_sin Math_cos Math_sqrt Math_atan2 in
  let mock :=
    Haversine.MockDistanceService.calculateDistance Math_sin Math_cos Math_sqrt Math_atan2 in
  Haversine.valid HaversineExamples.north = true /\
  Haversine.valid HaversineExamples.south = true /\
  (8 * Haversine.Math_PI / 180 = HaversineExamples.eightDegrees)%float /\
  (180 * Haversine.Math_PI / 180 / 2 = HaversineExamples.rightAngle)%float /\
  is_nan (google HaversineExamples.north HaversineExamples.south) = true /\
  is_nan (google HaversineExamples.south HaversineExamples.north) = true /\
  is_nan (mock HaversineExamples.north HaversineExamples.south) = true /\
  is_nan (mock HaversineExamples.south HaversineExamples.north) = true /\
  (google HaversineExamples.north HaversineExamples.south
   =? google HaversineExamples.south HaversineExamples.north)%float = false /\
  (mock HaversineExamples.north HaversineExamples.south
   =? mock HaversineExamples.south HaversineExamples.north)%float = false.
Proof.
  intros Hsqrt Hatan2 Hs1 Hs2 Hs3 Hs4 Hc1 Hc2. cbv zeta.
  rewrite (Google_north_south _ _ _ _ Hsqrt Hatan2 Hs1 Hs2 Hs3 Hs4 Hc1 Hc2).
  rewrite (Google_south_north _ _ _ _ Hsqrt Hatan2 Hs1 Hs2 Hs3 Hs4 Hc1 Hc2).
  rewrite (Mock_north_south _ _ _ _ Hsqrt Hatan2 Hs1 Hs2 Hs3 Hs4 Hc1 Hc2).
  rewrite (Mock_south_north _ _ _ _ Hsqrt Hatan2 Hs1 Hs2 Hs3 Hs4 Hc1 Hc2).
  repeat split; reflexivity.
Qed.

(** The hypotheses hold of the tabulated engine, with the correctly rounded
    square root of binary64. *)
Lemma calculateDistance_NaN_near_antipodes_witness :
  (forall x, (x <? 0)%float = true -> is_nan (PrimFloat.sqrt x) = true) /\
  HaversineExamples.sinTable HaversineExamples.eightDegrees = 0.13917310096006544%float /\
  HaversineExamples.cosTable HaversineExamples.eightDegrees = 0.9902680687415704%float /\
  is_nan (Haversine.GooglePlacesService.calculateDistance
            HaversineExamples.sinTable HaversineExamples.cosTable PrimFloat.sqrt
            HaversineExamples.atan2Table
            HaversineExamples.north HaversineExamples.south) = true.
Proof.
  assert (Hsqrt : forall x, (x <? 0)%float = true -> is_nan (PrimFloat.sqrt x) = true).
  { intros x Hx. unfold is_nan. rewrite FloatAxioms.eqb_spec, sqrt_spec.
    rewrite ltb_spec in Hx. change (Prim2SF 0) with (S754_zero false) in Hx.
    destruct (Prim2SF x) as [s|s| |s m e]; try discriminate Hx;
      destruct s; try discriminate Hx; reflexivity. }
  assert (Hatan2 : forall y x, is_nan x = true ->
                               is_nan (HaversineExamples.atan2Table y x) = true).
  { intros y x Hx. unfold HaversineExamples.atan2Table.
    rewrite Hx, Bool.orb_true_r. reflexivity. }
  split; [exact Hsqrt|]. split; [reflexivity|]. split; [reflexivity|].
  exact (proj1 (proj2 (proj2 (proj2 (proj2
           (calculateDistance_NaN_near_antipodes
              HaversineExamples.sinTable HaversineExamples.cosTable PrimFloat.sqrt
              HaversineExamples.atan2Table Hsqrt Hatan2
              eq_refl eq_refl eq_refl eq_refl eq_refl eq_refl)))))).
Defined.

(* ===================================================================== *)
(** * Part III: further properties of the code *)
(* ===================================================================== *)

(** ** MockPlacesService.searchPlaces: filters, keyword and paging *)

Lemma firstn_In {A : Type} (n : nat) (l : list A) (x : A) :
  In x (firstn n l) -> In x l.
Proof.
  intros H. rewrite <- (firstn_skipn n l). apply in_or_app. now left.
Qed.

(** What the two filters of [searchPlaces] ask of a place. *)
Lemma filteredCandidates_In (String_toLowerCase : string -> string)
      (params : PlaceSearchParams.t) (allPlaces : list Place.t) (place : Place.t) :
  In place (MockPlacesService.filteredCandidates String_toLowerCase params allPlaces) <->
  In place allPlaces /\
  match PlaceSearchParams.minRating params with
  | Some minRating =>
      if JS.truthy minRating then JS.geb (Place.rating place) minRating else true
  | None => true
  end = true /\
  match PlaceSearchParams.keyword params with
  | Some kw =>
      if JS.truthy_string kw
      then JS.includes (String_toLowerCase (Place.name place)) (String_toLowerCase kw) ||
           JS.includes (String_toLowerCase (Place.address place)) (String_toLowerCase kw)
      else true
  | None => true
  end = true.
Proof.
  unfold MockPlacesService.filteredCandidates. cbv zeta.
  destruct (PlaceSearchParams.minRating params) as [m|];
    destruct (PlaceSearchParams.keyword params) as [kw|];
    try destruct (JS.truthy m); try destruct (JS.truthy_string kw);
    rewrite ?filter_In; tauto.
Qed.

(** X1: every place a search returns is one of the generated places, is
    rated at least [minRating] when a non-zero minimum is given, and has
    the keyword in its name or address, both lowered by the engine's case
    conversion, when a non-empty keyword is given. *)
Theorem searchPlaces_results_pass_filters
  (String_toLowerCase : string -> string)
  (allPlaces : list Place.t) (now : float) (params : PlaceSearchParams.t)
  (place : Place.t) :
  In place (PlaceSearchResult.places
              (MockPlacesService.searchPlaces String_toLowerCase allPlaces now params)) ->
  In place allPlaces /\
  (forall minRating,
      PlaceSearchParams.minRating params = Some minRating ->
      JS.truthy minRating = true ->
      JS.geb (Place.rating place) minRating = true) /\
  (forall keyword,
      PlaceSearchParams.keyword params = Some keyword ->
      JS.truthy_string keyword = true ->
      JS.includes (String_toLowerCase (Place.name place)) (String_toLowerCase keyword)
      = true \/
      JS.includes (String_toLowerCase (Place.address place)) (String_toLowerCase keyword)
      = true).
Proof.
  unfold MockPlacesService.searchPlaces, JS.Array_slice0. simpl.
  intros H%firstn_In.
  apply (Permutation_in _ (Array_sort_Permutation _ _)) in H.
  apply filteredCandidates_In in H. destruct H as (Hin & Hr & Hk).
  split; [exact Hin|]. split.
  - intros m Em Ht. rewrite Em, Ht in Hr. exact Hr.
  - intros kw Ek Ht. rewrite Ek, Ht in Hk. now apply Bool.orb_true_iff.
Qed.

(** The search for PIZZA among the restaurants rated 3.5 or more returns
    Pizza Corner, rated 3.5. *)
Lemma searchPlaces_results_pass_filters_witness :
  In SearchExamples.pizzaCorner
     (PlaceSearchResult.places
        (MockPlacesService.searchPlaces JS.toLowerCase Examples.mockRestaurants
           Examples.now SearchExamples.pizzaSearch)) /\
  JS.geb (Place.rating SearchExamples.pizzaCorner) 3.5 = true /\
  (JS.includes (JS.toLowerCase (Place.name SearchExamples.pizzaCorner))
               (JS.toLowerCase "PIZZA") = true \/
   JS.includes (JS.toLowerCase (Place.address SearchExamples.pizzaCorner))
               (JS.toLowerCase "PIZZA") = true).
Proof.
  assert (H : In SearchExamples.pizzaCorner
                 (PlaceSearchResult.places
                    (MockPlacesService.searchPlaces JS.toLowerCase
                       Examples.mockRestaurants Examples.now SearchExamples.pizzaSearch)))
    by (vm_compute; left; reflexivity).
  split; [exact H|]. split.
  - apply (proj1 (proj2 (searchPlaces_results_pass_filters _ _ _ _ _ H)) 3.5%float);
      reflexivity.
  - apply (proj2 (proj2 (searchPlaces_results_pass_filters _ _ _ _ _ H)) "PIZZA"%string);
      reflexivity.
Defined.

(** X2: a search reports a next page exactly when it found more places
    than it returns, that is, more than ten; without a next page the
    returned places are all the places found, rearranged. *)
Theorem searchPlaces_nextPageToken
  (String_toLowerCase : string -> string)
  (allPlaces : list Place.t) (now : float) (params : PlaceSearchParams.t) :
  let result := MockPlacesService.searchPlaces String_toLowerCase allPlaces now params in
  (is_Some (PlaceSearchResult.nextPageToken result) <->
   length (PlaceSearchResult.places result) < PlaceSearchResult.totalFound result) /\
  (is_Some (PlaceSearchResult.nextPageToken result) <->
   10 < PlaceSearchResult.totalFound result) /\
  (PlaceSearchResult.nextPageToken result = None ->
   Permutation (PlaceSearchResult.places result)
               (MockPlacesService.filteredCandidates String_toLowerCase params allPlaces)).
Proof.
  cbv zeta. unfold MockPlacesService.searchPlaces, JS.Array_slice0. simpl.
  set (sorted := JS.Array_sort MockPlacesService.comparefn
                   (MockPlacesService.filteredCandidates String_toLowerCase params
                      allPlaces)).
  rewrite length_firstn.
  destruct (10 <? length sorted)%nat eqn:E.
  - apply Nat.ltb_lt in E. repeat split; try (intros; eauto; lia); try discriminate.
  - apply Nat.ltb_ge in E. repeat split; try (intros [? ?]; discriminate); try lia.
    intros _. rewrite firstn_all2 by exact E. apply Array_sort_Permutation.
Qed.

(** X3: the keyword of a search is matched without regard to letter case:
    two non-empty keywords that the engine's case conversion lowers to the
    same string select the same places and give the same count, whatever
    the conversion does to the letters. *)
Theorem searchPlaces_keyword_case_insensitive
  (String_toLowerCase : string -> string)
  (allPlaces : list Place.t) (now : float) (params : PlaceSearchParams.t)
  (keyword1 keyword2 : string) :
  JS.truthy_string keyword1 = true ->
  JS.truthy_string keyword2 = true ->
  String_toLowerCase keyword1 = String_toLowerCase keyword2 ->
  let result1 := MockPlacesService.searchPlaces String_toLowerCase allPlaces now
                   (withKeyword params (Some keyword1)) in
  let result2 := MockPlacesService.searchPlaces String_toLowerCase allPlaces now
                   (withKeyword params (Some keyword2)) in
  PlaceSearchResult.places result1 = PlaceSearchResult.places result2 /\
  PlaceSearchResult.totalFound result1 = PlaceSearchResult.totalFound result2 /\
  PlaceSearchResult.nextPageToken result1 = PlaceSearchResult.nextPageToken result2.
Proof.
  intros H1 H2 E. cbv zeta.
  assert (Hc : MockPlacesService.filteredCandidates String_toLowerCase
                 (withKeyword params (Some keyword1)) allPlaces
               = MockPlacesService.filteredCandidates String_toLowerCase
                   (withKeyword params (Some keyword2)) allPlaces).
  { unfold MockPlacesService.filteredCandidates, withKeyword. simpl.
    now rewrite H1, H2, E. }
  unfold MockPlacesService.searchPlaces. simpl. now rewrite Hc.
Qed.

(** Pizza and PIZZA find the same restaurants. *)
Lemma searchPlaces_keyword_case_insensitive_witness :
  JS.truthy_string "Pizza" = true /\
  JS.truthy_string "PIZZA" = true /\
  JS.toLowerCase "Pizza" = JS.toLowerCase "PIZZA" /\
  PlaceSearchResult.places
    (MockPlacesService.searchPlaces JS.toLowerCase Examples.mockRestaurants Examples.now
       (withKeyword Examples.restaurantSearch (Some "Pizza"%string)))
  = PlaceSearchResult.places
      (MockPlacesService.searchPlaces JS.toLowerCase Examples.mockRestaurants Examples.now
         (withKeyword Examples.restaurantSearch (Some "PIZZA"%string))).
Proof.
  assert (H1 : JS.truthy_string "Pizza" = true) by reflexivity.
  assert (H2 : JS.truthy_string "PIZZA" = true) by reflexivity.
  assert (H : JS.toLowerCase "Pizza" = JS.toLowerCase "PIZZA") by reflexivity.
  split; [exact H1|]. split; [exact H2|]. split; [exact H|].
  apply (proj1 (searchPlaces_keyword_case_insensitive JS.toLowerCase
                  Examples.mockRestaurants Examples.now Examples.restaurantSearch
                  "Pizza" "PIZZA" H1 H2 H)).
Defined.

Lemma SFltb_irrefl (x : spec_float) : SFltb x x = false.
Proof.
  unfold SFltb.
  destruct x as [sx|sx| |sx mx ex]; try (destruct sx); cbn; try reflexivity.
  all: fold_pos_compare; rewrite Z.compare_refl, Pos.compare_refl; reflexivity.
Qed.

Lemma float_ltb_irrefl (x : float) : (x <? x)%float = false.
Proof. rewrite ltb_spec. apply SFltb_irrefl. Qed.

(** ** usePlacesSearch: placesByClassification and searchStats *)

Lemma fold_left_push (l : list Place.t) (groups : PlacesSearchViews.Groups.t) :
  let classified c := List.filter (PlacesSearchViews.classifiedAs c) l in
  fold_left PlacesSearchViews.push l groups
  = PlacesSearchViews.Groups.mk
      (PlacesSearchViews.Groups.excellent groups ++ classified (Some EXCELLENT))
      (PlacesSearchViews.Groups.very_good groups ++ classified (Some VERY_GOOD))
      (PlacesSearchViews.Groups.good groups ++ classified (Some GOOD))
      (PlacesSearchViews.Groups.average groups ++ classified (Some AVERAGE))
      (PlacesSearchViews.Groups.poor groups ++ classified (Some POOR))
      (PlacesSearchViews.Groups.unclassified groups ++ classified None).
Proof.
  cbv zeta. revert groups. induction l as [|place l IH]; intros [e v g a p u].
  - simpl. now rewrite !app_nil_r.
  - cbn [fold_left]. rewrite IH. cbn [List.filter].
    unfold PlacesSearchViews.push, PlacesSearchViews.classifiedAs,
      PlacesSearchViews.classificationOf.
    destruct (Place.aiAnalysis place) as [analysis|]; simpl.
    + destruct (AIAnalysis.classification analysis); simpl;
        now rewrite <- ?app_assoc.
    + now rewrite <- ?app_assoc.
Qed.

(** X4: [placesByClassification] splits the filtered places into six
    groups: each group holds exactly the places of its classification (the
    last one the places without analysis), in the order of the list, so
    every place is in exactly one group and the group sizes add up to the
    number of places. *)
Theorem placesByClassification_partition (filteredPlaces : list Place.t) :
  let groups := PlacesSearchViews.placesByClassification filteredPlaces in
  let classified c := List.filter (PlacesSearchViews.classifiedAs c) filteredPlaces in
  PlacesSearchViews.Groups.excellent groups = classified (Some EXCELLENT) /\
  PlacesSearchViews.Groups.very_good groups = classified (Some VERY_GOOD) /\
  PlacesSearchViews.Groups.good groups = classified (Some GOOD) /\
  PlacesSearchViews.Groups.average groups = classified (Some AVERAGE) /\
  PlacesSearchViews.Groups.poor groups = classified (Some POOR) /\
  PlacesSearchViews.Groups.unclassified groups = classified None /\
  length (PlacesSearchViews.Groups.excellent groups) +
  length (PlacesSearchViews.Groups.very_good groups) +
  length (PlacesSearchViews.Groups.good groups) +
  length (PlacesSearchViews.Groups.average groups) +
  length (PlacesSearchViews.Groups.poor groups) +
  length (PlacesSearchViews.Groups.unclassified groups) = length filteredPlaces.
Proof.
  cbv zeta. unfold PlacesSearchViews.placesByClassification.
  rewrite fold_left_push. simpl. repeat (split; [reflexivity|]).
  induction filteredPlaces as [|place l IH]; [reflexivity|].
  cbn [List.filter length].
  unfold PlacesSearchViews.classifiedAs in *.
  destruct (PlacesSearchViews.classificationOf place) as [[]|]; simpl; lia.
Qed.

Section ReduceBest.
Context {A : Type} (key : A -> float).

Local Abbreviation better :=
  (fun best x : A => if (key best <? key x)%float then x else best).

(** Folding "take the element if its key is greater than the best so far"
    ends on an element that no element beats; it is the initial one unless
    a later one beats it. *)
Lemma fold_left_better (l : list A) (a : A) :
  let b := fold_left better l a in
  (b = a \/ (In b l /\ (key a <? key b)%float = true)) /\
  Forall (fun x => (key b <? key x)%float = false) (a :: l).
Proof.
  cbv zeta. revert a. induction l as [|x l IH]; intros a.
  - simpl. split; [now left|]. constructor; [apply float_ltb_irrefl | constructor].
  - cbn [fold_left]. destruct (IH (better a x)) as [Hb Hall].
    set (b := fold_left better l (better a x)) in *.
    inversion Hall as [|? ? Hbx Hl]; subst. cbv beta in Hb, Hbx.
    destruct (key a <? key x)%float eqn:Eax.
    + assert (Hab : (key a <? key b)%float = true).
      { destruct Hb as [->|[_ Hxb]]; [exact Eax|].
        exact (float_ltb_trans _ _ _ Eax Hxb). }
      split.
      * right. split; [|exact Hab]. destruct Hb as [->|[Hin _]]; [now left | now right].
      * constructor; [|constructor; assumption].
        destruct (key b <? key a)%float eqn:Eba; [|reflexivity].
        pose proof (float_ltb_trans _ _ _ Hab Eba) as Haa.
        rewrite float_ltb_irrefl in Haa. discriminate Haa.
    + split.
      * destruct Hb as [->|[Hin Hab]]; [now left|]. right. split; [now right | exact Hab].
      * constructor; [exact Hbx|]. constructor; [|exact Hl].
        destruct Hb as [Hb|[_ Hab]]; [rewrite Hb; exact Eax|].
        destruct (key b <? key x)%float eqn:Ebx; [|reflexivity].
        pose proof (float_ltb_trans _ _ _ Hab Ebx) as Hax. congruence.
Qed.

Lemma Array_reduce1_better (l : list A) :
  match PlacesSearchViews.Array_reduce1 better l with
  | None => l = []
  | Some b => In b l /\ Forall (fun x => (key b <? key x)%float = false) l
  end.
Proof.
  destruct l as [|a l]; simpl; [reflexivity|].
  destruct (fold_left_better l a) as [Hb Hall]. split; [|exact Hall].
  destruct Hb as [->|[Hin _]]; [now left | now right].
Qed.

End ReduceBest.

(** X5: the statistics of a non-empty list name as [topRated] a place of
    the list that no place of the list out-rates, and as [mostReviewed] a
    place of the list that no place has more reviews than; when no rating
    (review count) is NaN, every place is rated (reviewed) at most as high
    as it.  For the empty list both are [null] and the total is 0. *)
Theorem searchStats_best_places (filteredPlaces : list Place.t) :
  let stats := PlacesSearchViews.searchStats filteredPlaces in
  PlacesSearchViews.SearchStats.total stats = length filteredPlaces /\
  (PlacesSearchViews.SearchStats.topRated stats = None <-> filteredPlaces = []) /\
  (PlacesSearchViews.SearchStats.mostReviewed stats = None <-> filteredPlaces = []) /\
  (forall best,
      PlacesSearchViews.SearchStats.topRated stats = Some best ->
      In best filteredPlaces /\
      Forall (fun place => (Place.rating best <? Place.rating place)%float = false)
             filteredPlaces /\
      (Forall (fun place => is_nan (Place.rating place) = false) filteredPlaces ->
       Forall (fun place => (Place.rating place <=? Place.rating best)%float = true)
              filteredPlaces)) /\
  (forall best,
      PlacesSearchViews.SearchStats.mostReviewed stats = Some best ->
      In best filteredPlaces /\
      Forall (fun place =>
                (Place.totalReviews best <? Place.totalReviews place)%float = false)
             filteredPlaces /\
      (Forall (fun place => is_nan (Place.totalReviews place) = false) filteredPlaces ->
       Forall (fun place =>
                 (Place.totalReviews place <=? Place.totalReviews best)%float = true)
              filteredPlaces)).
Proof.
  cbv zeta. unfold PlacesSearchViews.searchStats.
  pose proof (Array_reduce1_better Place.rating filteredPlaces) as Hr.
  pose proof (Array_reduce1_better Place.totalReviews filteredPlaces) as Hn.
  destruct filteredPlaces as [|first rest]; [simpl; repeat split; intros; discriminate|].
  set (l := first :: rest) in *.
  change (length l =? 0)%nat with false. cbv iota. simpl in Hr, Hn.
  cbn [PlacesSearchViews.SearchStats.total PlacesSearchViews.SearchStats.topRated
       PlacesSearchViews.SearchStats.mostReviewed PlacesSearchViews.Array_reduce1].
  subst l. cbv iota.
  split; [reflexivity|]. split; [split; intros; discriminate|].
  split; [split; intros; discriminate|].
  assert (Hmax : forall (key : Place.t -> float) (best : Place.t) (l : list Place.t),
             In best l ->
             Forall (fun place => (key best <? key place)%float = false) l ->
             Forall (fun place => is_nan (key place) = false) l ->
             Forall (fun place => (key place <=? key best)%float = true) l).
  { intros key best l Hin Hall Hnan. rewrite List.Forall_forall in *.
    intros place Hp. apply float_not_ltb_leb; auto. }
  split.
  - intros best E. injection E as <-. destruct Hr as [Hin Hall].
    split; [exact Hin|]. split; [exact Hall|]. now apply (Hmax Place.rating).
  - intros best E. injection E as <-. destruct Hn as [Hin Hall].
    split; [exact Hin|]. split; [exact Hall|]. now apply (Hmax Place.totalReviews).
Qed.

(** ** MockOpenAIService.batchAnalyzePlaces *)

Section EnrichmentActions.
Variable Number_toString : float -> string.

Lemma analyzePlaceReviews_classification (place : Place.t) (env : Runtime.Env) :
  AIAnalysis.classification
    (fst (MockOpenAIService.analyzePlaceReviews Number_toString place env))
  = MockOpenAIService.getClassificationFromMetrics
      (Place.rating place) (Place.totalReviews place).
Proof.
  unfold MockOpenAIService.analyzePlaceReviews. simpl.
  destruct (MockOpenAIService.getClassificationFromMetrics _ _); reflexivity.
Qed.

Lemma analyzePlaceReviews_env (place : Place.t) (env : Runtime.Env) :
  snd (MockOpenAIService.analyzePlaceReviews Number_toString place env)
  = Runtime.mkEnv (Runtime.randomSource env) (S (S (Runtime.randomCursor env)))
                  (Runtime.providerCalls env ++ [Place.id place]).
Proof. reflexivity. Qed.

Lemma batchAnalyzeLoop_cons (place : Place.t) (rest : list Place.t)
      (analyses : gmap string AIAnalysis.t) (env : Runtime.Env) :
  MockOpenAIService.batchAnalyzeLoop Number_toString (place :: rest) analyses env
  = MockOpenAIService.batchAnalyzeLoop Number_toString rest
      (<[Place.id place :=
           fst (MockOpenAIService.analyzePlaceReviews Number_toString place env)]> analyses)
      (snd (MockOpenAIService.analyzePlaceReviews Number_toString place env)).
Proof.
  cbn [MockOpenAIService.batchAnalyzeLoop]. unfold Runtime.bind at 1.
  now destruct (MockOpenAIService.analyzePlaceReviews Number_toString place env).
Qed.

Lemma batchAnalyzeLoop_env (places : list Place.t) (analyses : gmap string AIAnalysis.t)
      (env : Runtime.Env) :
  snd (MockOpenAIService.batchAnalyzeLoop Number_toString places analyses env)
  = Runtime.mkEnv (Runtime.randomSource env)
                  (Runtime.randomCursor env + 2 * length places)
                  (Runtime.providerCalls env ++ map Place.id places).
Proof.
  revert analyses env. induction places as [|place rest IH]; intros analyses env.
  - destruct env. simpl. now rewrite Nat.add_0_r, app_nil_r.
  - rewrite batchAnalyzeLoop_cons, IH, analyzePlaceReviews_env. simpl.
    f_equal; [lia | now rewrite <- app_assoc].
Qed.

Lemma batchAnalyzeLoop_dom (places : list Place.t) (analyses : gmap string AIAnalysis.t)
      (env : Runtime.Env) :
  dom (fst (MockOpenAIService.batchAnalyzeLoop Number_toString places analyses env))
  = dom analyses ∪ list_to_set (map Place.id places).
Proof.
  revert analyses env. induction places as [|place rest IH]; intros analyses env.
  - simpl. now rewrite union_empty_r_L.
  - rewrite batchAnalyzeLoop_cons, IH, dom_insert_L. simpl.
    rewrite (comm_L (∪) {[Place.id place]} (dom analyses)).
    now rewrite (assoc_L (∪)).
Qed.

Lemma batchAnalyzeLoop_lookup_other (places : list Place.t)
      (analyses : gmap string AIAnalysis.t) (env : Runtime.Env) (placeId : string) :
  ~ In placeId (map Place.id places) ->
  fst (MockOpenAIService.batchAnalyzeLoop Number_toString places analyses env) !! placeId
  = analyses !! placeId.
Proof.
  revert analyses env. induction places as [|place rest IH]; intros analyses env Hn.
  - reflexivity.
  - rewrite batchAnalyzeLoop_cons, IH by (intros H; apply Hn; now right).
    apply lookup_insert_ne. intros E. apply Hn. now left.
Qed.

(** After the loop, the entry of the id of each place is the analysis of
    some place with that id: of the place itself when ids do not repeat. *)
Lemma batchAnalyzeLoop_lookup (places : list Place.t)
      (analyses : gmap string AIAnalysis.t) (env : Runtime.Env) (place : Place.t) :
  In place places ->
  exists a q,
    fst (MockOpenAIService.batchAnalyzeLoop Number_toString places analyses env)
      !! Place.id place = Some a /\
    In q places /\ Place.id q = Place.id place /\
    (List.NoDup (map Place.id places) -> q = place) /\
    AIAnalysis.classification a
    = MockOpenAIService.getClassificationFromMetrics (Place.rating q) (Place.totalReviews q).
Proof.
  revert place analyses env.
  induction places as [|p rest IH]; intros place analyses env Hin; [destruct Hin|].
  rewrite batchAnalyzeLoop_cons.
  destruct Hin as [->|Hin].
  - destruct (in_dec string_dec (Place.id place) (map Place.id rest)) as [Hlater|Hnot].
    + apply in_map_iff in Hlater. destruct Hlater as (q0 & Hid & Hq0).
      destruct (IH q0 (<[Place.id place :=
                              fst (MockOpenAIService.analyzePlaceReviews
                                     Number_toString place env)]> analyses)
                   (snd (MockOpenAIService.analyzePlaceReviews Number_toString place env))
                   Hq0) as (a & q & Hl & Hq & Hqid & _ & Hc).
      rewrite Hid in Hl, Hqid.
      exists a, q. split; [exact Hl|]. split; [now right|].
      split; [exact Hqid|]. split; [|exact Hc].
      intros Hnd. inversion Hnd as [|? ? Hnotin _]; subst. exfalso. apply Hnotin.
      rewrite <- Hid. now apply in_map.
    + exists (fst (MockOpenAIService.analyzePlaceReviews Number_toString place env)), place.
      rewrite batchAnalyzeLoop_lookup_other by exact Hnot.
      rewrite lookup_insert_eq. split; [reflexivity|]. split; [now left|].
      split; [reflexivity|]. split; [reflexivity|].
      apply analyzePlaceReviews_classification.
  - destruct (IH place (<[Place.id p :=
                             fst (MockOpenAIService.analyzePlaceReviews
                                    Number_toString p env)]> analyses)
                 (snd (MockOpenAIService.analyzePlaceReviews Number_toString p env)) Hin)
      as (a & q & Hl & Hq & Hqid & Hnd & Hc).
    exists a, q. split; [exact Hl|]. split; [now right|]. split; [exact Hqid|].
    split; [|exact Hc]. intros H. apply Hnd. simpl in H. now inversion H.
Qed.

(** X6: a batch analysis returns an analysis for exactly the ids of the
    places it is given; it calls the provider once per place, in order, and
    draws two random numbers per place; the analysis stored under the id
    of a place is classified from the rating and review count of a place
    with that id, the place itself when no id occurs twice. *)
Theorem batchAnalyzePlaces_analyses (places : list Place.t) (env : Runtime.Env) :
  let '(analyses, env') :=
    MockOpenAIService.batchAnalyzePlaces Number_toString places env in
  dom analyses = (list_to_set (map Place.id places) : gset string) /\
  Runtime.randomSource env' = Runtime.randomSource env /\
  Runtime.randomCursor env' = Runtime.randomCursor env + 2 * length places /\
  Runtime.providerCalls env' = Runtime.providerCalls env ++ map Place.id places /\
  forall place,
    In place places ->
    exists a q,
      analyses !! Place.id place = Some a /\
      In q places /\ Place.id q = Place.id place /\
      (List.NoDup (map Place.id places) -> q = place) /\
      AIAnalysis.classification a
      = MockOpenAIService.getClassificationFromMetrics
          (Place.rating q) (Place.totalReviews q).
Proof.
  unfold MockOpenAIService.batchAnalyzePlaces.
  pose proof (batchAnalyzeLoop_env places ∅ env) as Henv.
  pose proof (batchAnalyzeLoop_dom places ∅ env) as Hdom.
  pose proof (batchAnalyzeLoop_lookup places ∅ env) as Hl.
  destruct (MockOpenAIService.batchAnalyzeLoop Number_toString places ∅ env)
    as [analyses env'].
  simpl in Henv, Hdom, Hl. subst env'. simpl.
  rewrite Hdom, dom_empty_L, union_empty_l_L. repeat split; auto.
Qed.

End EnrichmentActions.

(** ** usePlacesSearch: what the actions do *)

Lemma mockRestaurants_ids_NoDup : List.NoDup (map Place.id Examples.mockRestaurants).
Proof.
  apply NoDup_ListNoDup.
  apply (bool_decide_unpack (NoDup (map Place.id Examples.mockRestaurants))).
  vm_compute. exact I.
Qed.

Section HookActions.
Variable Number_toString : float -> string.
Variable String_toLowerCase : string -> string.

(** What [fetchQuery] answers from the cache is the data of the entry. *)
Lemma fetchQuery_cached_data (params : PlaceSearchParams.t) (now : float)
      (c : UsePlacesSearch.QueryCache) (cached : PlaceSearchResult.t) :
  UsePlacesSearch.fetchQuery_cached params now c = Some cached ->
  UsePlacesSearch.getSearchData params (UsePlacesSearch.searchQueries c) = Some cached.
Proof.
  unfold UsePlacesSearch.fetchQuery_cached, UsePlacesSearch.getSearchData.
  destruct (UsePlacesSearch.getSearchQuery params (UsePlacesSearch.searchQueries c))
    as [q|]; [|discriminate].
  destruct (UsePlacesSearch.isStaleByTime q _ _); [discriminate|].
  intros E. injection E as <-. reflexivity.
Qed.

(** X7: a search records its parameters, clears the selection and leaves
    as current result what it fetched: the result of the service when
    [fetchQuery] had no fresh data (or when the observed query refetched),
    the cached result otherwise.  The batch enrichment that follows never
    changes it: the places keep the analyses they were fetched with.  No
    place is sent to [analyzePlaceReviews], and the only random numbers
    drawn are the 135 of the generator when the service is called. *)
Theorem searchPlaces_leaves_result_unenriched
  (allPlaces : list Place.t) (now served settled : float) (params : PlaceSearchParams.t)
  (st : UsePlacesSearch.State) (env : Runtime.Env) :
  let fetched := MockPlacesService.searchPlaces String_toLowerCase allPlaces served params in
  let '(st', env') :=
    UsePlacesSearch.searchPlaces Number_toString String_toLowerCase
      allPlaces now served settled params st env in
  UsePlacesSearch.searchParams st' = Some params /\
  UsePlacesSearch.selectedPlace st' = None /\
  UsePlacesSearch.detailQueries (UsePlacesSearch.queryCache st')
  = UsePlacesSearch.detailQueries (UsePlacesSearch.queryCache st) /\
  UsePlacesSearch.analyzeePlaceMutation st' = UsePlacesSearch.analyzeePlaceMutation st /\
  Runtime.providerCalls env' = Runtime.providerCalls env /\
  match UsePlacesSearch.fetchQuery_cached params now (UsePlacesSearch.queryCache st) with
  | None =>
      UsePlacesSearch.searchResult st' = Some fetched /\
      Runtime.randomCursor env' = Runtime.randomCursor env + 135
  | Some cached =>
      (UsePlacesSearch.searchResult st' = Some cached /\ env' = env) \/
      (UsePlacesSearch.searchResult st' = Some fetched /\
       Runtime.randomCursor env' = Runtime.randomCursor env + 135)
  end.
Proof.
  cbv zeta. unfold UsePlacesSearch.searchPlaces.
  change (UsePlacesSearch.queryCache (UsePlacesSearch.searchPlaces_request params st))
    with (UsePlacesSearch.queryCache st).
  pose proof (fetchQuery_cached_data params now (UsePlacesSearch.queryCache st)) as Hdata.
  destruct (UsePlacesSearch.fetchQuery_cached params now (UsePlacesSearch.queryCache st))
    as [cached|].
  - specialize (Hdata cached eq_refl).
    rewrite bind_eq, searchPlaces_enrich_runs.
    destruct (match UsePlacesSearch.getSearchQuery _ _ with Some _ => _ | None => _ end).
    + rewrite bind_eq, searchPlaces_queryFn_eq.
      set (fetched := MockPlacesService.searchPlaces String_toLowerCase allPlaces
                        served params).
      clearbody fetched. cbn [fst snd Runtime.ret].
      repeat (split; [reflexivity|]). right. split; [|reflexivity].
      unfold UsePlacesSearch.searchResult. simpl.
      apply getSearchData_setSearchData_same.
    + cbn [fst snd Runtime.ret]. repeat (split; [reflexivity|]). left.
      split; [|reflexivity]. unfold UsePlacesSearch.searchResult. simpl. exact Hdata.
  - rewrite bind_eq, searchPlaces_queryFn_eq.
    set (fetched := MockPlacesService.searchPlaces String_toLowerCase allPlaces
                      served params).
    clearbody fetched. cbn [fst snd]. rewrite searchPlaces_enrich_runs.
    repeat (split; [reflexivity|]). split; [|reflexivity].
    unfold UsePlacesSearch.searchResult. simpl. apply getSearchData_setSearchData_same.
Qed.

(** X8: with the AI analysis switched off, neither a search nor a
    selection starts a mutation or sends a place to the provider; a
    selection changes the selected place (and may fetch its details) and
    leaves the search parameters and the current result as they are. *)
Theorem ai_disabled_no_analysis
  (allPlaces : list Place.t) (mockPlace : Place.t) (now served settled : float)
  (params : PlaceSearchParams.t) (place : option Place.t)
  (st : UsePlacesSearch.State) (env : Runtime.Env) :
  UsePlacesSearch.enableAIAnalysis st = false ->
  (let '(st', env') :=
     UsePlacesSearch.searchPlaces Number_toString String_toLowerCase
       allPlaces now served settled params st env in
   Runtime.providerCalls env' = Runtime.providerCalls env /\
   UsePlacesSearch.analyzeePlaceMutation st' = UsePlacesSearch.analyzeePlaceMutation st /\
   UsePlacesSearch.batchAnalyzeMutation st' = UsePlacesSearch.batchAnalyzeMutation st) /\
  (let '(st', env') :=
     UsePlacesSearch.selectPlace Number_toString mockPlace now served settled place st env in
   Runtime.providerCalls env' = Runtime.providerCalls env /\
   UsePlacesSearch.analyzeePlaceMutation st' = UsePlacesSearch.analyzeePlaceMutation st /\
   UsePlacesSearch.batchAnalyzeMutation st' = UsePlacesSearch.batchAnalyzeMutation st /\
   UsePlacesSearch.selectedPlace st' = place /\
   UsePlacesSearch.searchParams st' = UsePlacesSearch.searchParams st /\
   UsePlacesSearch.searchResult st' = UsePlacesSearch.searchResult st).
Proof.
  intros Hai. split.
  - unfold UsePlacesSearch.searchPlaces. rewrite Hai.
    change (UsePlacesSearch.queryCache (UsePlacesSearch.searchPlaces_request params st))
      with (UsePlacesSearch.queryCache st).
    destruct (UsePlacesSearch.fetchQuery_cached params now (UsePlacesSearch.queryCache st))
      as [cached|].
    + rewrite bind_eq, searchPlaces_enrich_runs. cbn [andb].
      destruct (match UsePlacesSearch.getSearchQuery _ _ with Some _ => _ | None => _ end).
      * rewrite bind_eq, searchPlaces_queryFn_eq. simpl. rewrite app_nil_r. now repeat split.
      * simpl. rewrite app_nil_r. now repeat split.
    + rewrite bind_eq, searchPlaces_queryFn_eq.
      set (fetched := MockPlacesService.searchPlaces String_toLowerCase allPlaces
                        served params).
      clearbody fetched. cbn [fst snd]. rewrite searchPlaces_enrich_runs. cbn [andb].
      simpl. rewrite app_nil_r. now repeat split.
  - unfold UsePlacesSearch.selectPlace. rewrite bind_eq, Hai. cbn [andb].
    pose proof (placeDetails_observe_frame mockPlace now served
                  (UsePlacesSearch.selectedPlace st) place
                  (UsePlacesSearch.queryCache st) env) as Hf.
    destruct (UsePlacesSearch.placeDetails_observe _ _ _ _ _ _ env) as [c' env'].
    destruct Hf as (Hq & Hp & _). cbn [fst snd].
    assert (Hr : UsePlacesSearch.searchResult
                   (UsePlacesSearch.mkState (UsePlacesSearch.searchParams st) place
                      (UsePlacesSearch.filters st) false c'
                      (UsePlacesSearch.analyzeePlaceMutation st)
                      (UsePlacesSearch.batchAnalyzeMutation st))
                 = UsePlacesSearch.searchResult st).
    { unfold UsePlacesSearch.searchResult. simpl. now rewrite Hq. }
    destruct place; unfold Runtime.ret; now repeat split.
Qed.

(** X9: selecting a place that has no analysis yet, with the AI analysis
    switched on, runs the single-place mutation for it, once, and the run
    fails: the function was handed to the mutation without its class and
    throws a [TypeError].  The error is what [analysisError] shows; the
    search parameters and the current result stay as they are.  When the
    place has an id, was not the selected one and has no details in the
    cache, its details are fetched: one generated place under the id of
    the selected one. *)
Theorem selectPlace_analysis_fails
  (mockPlace : Place.t) (now fetched settled : float) (place : Place.t)
  (st : UsePlacesSearch.State) (env : Runtime.Env) :
  UsePlacesSearch.enableAIAnalysis st = true ->
  Place.aiAnalysis place = None ->
  let error := JS.TypeError "this.getClassificationFromMetrics is not a function" in
  let '(st', env') :=
    UsePlacesSearch.selectPlace Number_toString mockPlace now fetched settled
      (Some place) st env in
  UsePlacesSearch.selectedPlace st' = Some place /\
  UsePlacesSearch.analyzeePlaceMutation st'
  = UsePlacesSearch.analyzeePlaceMutation st ++ [UsePlacesSearch.mkRun place (inl error)] /\
  UsePlacesSearch.analysisError st' = Some error /\
  UsePlacesSearch.batchAnalyzeMutation st' = UsePlacesSearch.batchAnalyzeMutation st /\
  Runtime.providerCalls env' = Runtime.providerCalls env ++ [Place.id place] /\
  UsePlacesSearch.searchParams st' = UsePlacesSearch.searchParams st /\
  UsePlacesSearch.searchResult st' = UsePlacesSearch.searchResult st /\
  (JS.truthy_string (Place.id place) = true ->
   UsePlacesSearch.selectedPlace st = None ->
   UsePlacesSearch.detailQueries (UsePlacesSearch.queryCache st) !! Place.id place = None ->
   UsePlacesSearch.placeDetails st'
   = Some (MockPlacesService.getPlaceDetails mockPlace (Place.id place)) /\
   Runtime.randomCursor env' = Runtime.randomCursor env + 9).
Proof.
  intros Hai Hnone. cbv zeta. unfold UsePlacesSearch.selectPlace.
  rewrite bind_eq, Hai, Hnone.
  assert (Hd : bool_decide (is_Some (@None AIAnalysis.t)) = false).
  { apply bool_decide_eq_false. intros [? ?]. discriminate. }
  rewrite Hd. cbn [andb negb]. rewrite analyzeePlaceMutation_mutate_fails.
  pose proof (placeDetails_observe_frame mockPlace now fetched
                (UsePlacesSearch.selectedPlace st) (Some place)
                (UsePlacesSearch.queryCache st) env) as Hf.
  assert (Hdet : JS.truthy_string (Place.id place) = true ->
                 UsePlacesSearch.selectedPlace st = None ->
                 UsePlacesSearch.detailQueries (UsePlacesSearch.queryCache st)
                   !! Place.id place = None ->
                 UsePlacesSearch.placeDetails_observe mockPlace now fetched
                   (UsePlacesSearch.selectedPlace st) (Some place)
                   (UsePlacesSearch.queryCache st) env
                 = (UsePlacesSearch.mkCache
                      (UsePlacesSearch.searchQueries (UsePlacesSearch.queryCache st))
                      (<[Place.id place :=
                           UsePlacesSearch.mkQuery
                             (MockPlacesService.getPlaceDetails mockPlace (Place.id place))
                             fetched]>
                         (UsePlacesSearch.detailQueries (UsePlacesSearch.queryCache st))),
                    Runtime.mkEnv (Runtime.randomSource env) (Runtime.randomCursor env + 9)
                                  (Runtime.providerCalls env))).
  { intros Ht Hsel Hmiss. unfold UsePlacesSearch.placeDetails_observe.
    rewrite Ht, Hsel, Hmiss. reflexivity. }
  destruct (UsePlacesSearch.placeDetails_observe _ _ _ _ _ _ env) as [c' env'].
  destruct Hf as (Hq & Hp & _). cbn [fst snd].
  cbn [UsePlacesSearch.selectedPlace UsePlacesSearch.analyzeePlaceMutation
       UsePlacesSearch.batchAnalyzeMutation UsePlacesSearch.searchParams
       UsePlacesSearch.enableAIAnalysis UsePlacesSearch.filters UsePlacesSearch.queryCache
       Runtime.providerCalls Runtime.randomCursor Runtime.randomSource].
  split; [reflexivity|]. split; [reflexivity|]. split.
  { unfold UsePlacesSearch.analysisError.
    cbn [UsePlacesSearch.analyzeePlaceMutation]. now rewrite rev_unit. }
  split; [reflexivity|]. split; [now rewrite Hp|]. split; [reflexivity|]. split.
  { unfold UsePlacesSearch.searchResult. simpl. now rewrite Hq. }
  intros Ht Hsel Hmiss. specialize (Hdet Ht Hsel Hmiss). injection Hdet as -> ->.
  split; [|reflexivity].
  unfold UsePlacesSearch.placeDetails. simpl. rewrite Ht. now rewrite lookup_insert_eq.
Qed.

End HookActions.

(** The search over the fifteen restaurants after the AI analysis has been
    switched off. *)
Lemma ai_disabled_no_analysis_witness :
  UsePlacesSearch.enableAIAnalysis
    (PlacesSearchActions.setEnableAIAnalysis false UsePlacesSearch.initialState) = false /\
  let '(st', _) :=
    UsePlacesSearch.searchPlaces EnrichmentExamples.Number_toString JS.toLowerCase
      Examples.mockRestaurants Examples.now Examples.served Examples.settled
      Examples.restaurantSearch
      (PlacesSearchActions.setEnableAIAnalysis false UsePlacesSearch.initialState)
      EnrichmentExamples.env0 in
  UsePlacesSearch.batchAnalyzeMutation st' = [].
Proof.
  assert (H1 : UsePlacesSearch.enableAIAnalysis
                 (PlacesSearchActions.setEnableAIAnalysis false UsePlacesSearch.initialState)
               = false) by reflexivity.
  split; [exact H1|].
  exact (proj2 (proj2 (proj1 (ai_disabled_no_analysis
                                EnrichmentExamples.Number_toString JS.toLowerCase
                                Examples.mockRestaurants Examples.laMama
                                Examples.now Examples.served Examples.settled
                                Examples.restaurantSearch None
                                (PlacesSearchActions.setEnableAIAnalysis false
                                   UsePlacesSearch.initialState)
                                EnrichmentExamples.env0 H1)))).
Defined.

(** Selecting the unanalysed place of the enrichment examples in the
    initial state of the hook. *)
Lemma selectPlace_analysis_fails_witness :
  UsePlacesSearch.enableAIAnalysis UsePlacesSearch.initialState = true /\
  Place.aiAnalysis EnrichmentExamples.fewReviews = None /\
  let '(st', _) :=
    UsePlacesSearch.selectPlace EnrichmentExamples.Number_toString Examples.laMama
      Examples.now Examples.served Examples.settled
      (Some EnrichmentExamples.fewReviews) UsePlacesSearch.initialState
      EnrichmentExamples.env0 in
  UsePlacesSearch.analysisError st'
  = Some (JS.TypeError "this.getClassificationFromMetrics is not a function").
Proof.
  assert (H1 : UsePlacesSearch.enableAIAnalysis UsePlacesSearch.initialState = true)
    by reflexivity.
  assert (H2 : Place.aiAnalysis EnrichmentExamples.fewReviews = None) by reflexivity.
  split; [exact H1|]. split; [exact H2|].
  exact (proj1 (proj2 (proj2 (selectPlace_analysis_fails
                                EnrichmentExamples.Number_toString Examples.laMama
                                Examples.now Examples.served Examples.settled
                                EnrichmentExamples.fewReviews UsePlacesSearch.initialState
                                EnrichmentExamples.env0 H1 H2)))).
Defined.

(** ** useNavigationState: the URL round trip *)

(** X10: the navigation state survives the round trip through the URL:
    a mode written with [setNavigationMode] is the mode read back, a
    non-empty destination id written with [setDestinationId] is the id read
    back, the empty id and [null] read back as no destination, neither
    setter disturbs the other parameter, and a [nav] parameter with any
    value other than [static] and [live] is read as [none]. *)
Theorem navigation_url_round_trip :
  (forall mode u,
      NavigationState.navigationMode (NavigationState.setNavigationMode mode u) = mode) /\
  (forall placeId u,
      JS.truthy_string placeId = true ->
      NavigationState.destinationId (NavigationState.setDestinationId (Some placeId) u)
      = Some placeId) /\
  (forall u,
      NavigationState.destinationId (NavigationState.setDestinationId (Some ""%string) u)
      = None /\
      NavigationState.destinationId (NavigationState.setDestinationId None u) = None) /\
  (forall mode u,
      NavigationState.destinationId (NavigationState.setNavigationMode mode u)
      = NavigationState.destinationId u) /\
  (forall placeId u,
      NavigationState.navigationMode (NavigationState.setDestinationId placeId u)
      = NavigationState.navigationMode u) /\
  (forall value destination,
      value <> "static"%string -> value <> "live"%string ->
      NavigationState.navigationMode (NavigationState.mkUrl (Some value) destination)
      = NavigationState.none /\
      NavigationState.isNavigating (NavigationState.mkUrl (Some value) destination)
      = false).
Proof.
  split; [intros; apply parseMode_serializeMode|].
  split.
  { intros placeId u H.
    unfold NavigationState.destinationId, NavigationState.setDestinationId. simpl.
    unfold NavigationState.serializeDestination, NavigationState.parseDestination.
    now rewrite H, H. }
  split; [intros; split; reflexivity|].
  split; [reflexivity|].
  split; [reflexivity|].
  intros value destination Hs Hl.
  unfold NavigationState.isNavigating, NavigationState.navigationMode,
    NavigationState.parseMode. simpl.
  destruct (String.eqb_spec value "static"); [contradiction|].
  destruct (String.eqb_spec value "live"); [contradiction|]. split; reflexivity.
Qed.

(** ** MapContainer: invariants of the navigation code *)

Lemma currentDestination_marker (st : MapContainer.State) (dest : Place.t) :
  MapContainer.currentDestination st = Some dest ->
  In (Place.id dest) (map Place.id (MapContainer.markers st)).
Proof.
  unfold MapContainer.currentDestination.
  destruct (NavigationState.destinationId (MapContainer.url st)); [|discriminate].
  intros H. apply find_some in H. apply in_map. tauto.
Qed.

(** The effect changes neither the URL state nor the props. *)
Lemma navigationEffect_frame (st : MapContainer.State) :
  MapContainer.url (MapContainer.navigationEffect st) = MapContainer.url st /\
  MapContainer.center (MapContainer.navigationEffect st) = MapContainer.center st /\
  MapContainer.markers (MapContainer.navigationEffect st) = MapContainer.markers st.
Proof.
  unfold MapContainer.navigationEffect.
  destruct (MapContainer.center st) eqn:Ec; [|auto].
  destruct (MapContainer.currentDestination st) as [dest|]; [|auto].
  destruct st as [u c m renderer ref watches next routes]. simpl in *.
  destruct renderer; simpl; destruct (NavigationState.navigationMode u); simpl; auto;
    unfold MapContainer.releaseWatch; simpl; destruct ref as [[|n]|]; simpl; auto.
Qed.

Lemma navigationEffect_watchesAccounted (st : MapContainer.State) :
  MapContainerFacts.watchesAccounted st ->
  MapContainerFacts.watchesAccounted (MapContainer.navigationEffect st).
Proof.
  unfold MapContainer.navigationEffect.
  destruct (MapContainer.center st) eqn:Ec; [|auto].
  destruct (MapContainer.currentDestination st) as [dest|]; [|auto].
  destruct st as [u c m renderer ref watches next routes].
  unfold MapContainerFacts.watchesAccounted. simpl.
  intros (Href & Hnext & Hrange & Hnd & Hnone).
  assert (Hfresh : ~ In next watches).
  { intros Hin. rewrite List.Forall_forall in Hrange. specialize (Hrange _ Hin). lia. }
  assert (Hlive :
            (forall id, Some next = Some id -> In id (watches ++ [next]) /\ 1 <= id) /\
            1 <= S next /\
            Forall (fun w => 1 <= w < S next) (watches ++ [next]) /\
            List.NoDup (watches ++ [next])).
  { split.
    { intros id E. injection E as <-. split; [apply in_or_app; right; now left | lia]. }
    split; [lia|]. split.
    { apply List.Forall_app. split.
      - eapply List.Forall_impl; [|exact Hrange]. simpl. intros w Hw. lia.
      - constructor; [lia | constructor]. }
    apply List.NoDup_app; [exact Hnd | repeat constructor; auto |].
    intros a Ha [<-|[]]. contradiction. }
  destruct Hlive as (G1 & G2 & G3 & G4).
  destruct renderer; simpl; destruct (NavigationState.navigationMode u) eqn:Emode; simpl;
    rewrite ?Emode.
  all: try (destruct (Hnone eq_refl) as [-> Hr]; try discriminate Hr; simpl; rewrite ?Emode).
  all: repeat split; auto; try discriminate.
  all: try match goal with
           | E : _ = Some _ |- _ =>
               first [apply (Href _ E) | apply (G1 _ E) | discriminate E]
           end.
Qed.

Lemma navigationEffect_routeRequests (st : MapContainer.State) :
  MapContainerFacts.routesToMarkers st ->
  MapContainerFacts.routesToMarkers (MapContainer.navigationEffect st).
Proof.
  unfold MapContainer.navigationEffect.
  destruct (MapContainer.center st) eqn:Ec; [|auto].
  destruct (MapContainer.currentDestination st) as [dest|] eqn:Ed; [|auto].
  apply currentDestination_marker in Ed.
  destruct st as [u c m renderer ref watches next routes].
  unfold MapContainerFacts.routesToMarkers. simpl in *. intros Hr.
  assert (Hr' : Forall (fun placeId => In placeId (map Place.id m))
                       (routes ++ [Place.id dest])).
  { apply List.Forall_app. split; [exact Hr | now repeat constructor]. }
  destruct renderer; simpl; destruct (NavigationState.navigationMode u); simpl; auto;
    unfold MapContainer.releaseWatch; simpl; destruct ref as [[|n]|]; simpl; auto.
Qed.

(** A render after a handler keeps the invariants of the state the
    handler produced. *)
Lemma rerender_invariants (old new : MapContainer.State) :
  (MapContainer.center (MapContainer.rerender old new) = MapContainer.center new /\
   MapContainer.markers (MapContainer.rerender old new) = MapContainer.markers new /\
   MapContainer.url (MapContainer.rerender old new) = MapContainer.url new) /\
  (MapContainerFacts.watchesAccounted new ->
   MapContainerFacts.watchesAccounted (MapContainer.rerender old new)) /\
  (MapContainerFacts.routesToMarkers new ->
   MapContainerFacts.routesToMarkers (MapContainer.rerender old new)).
Proof.
  unfold MapContainer.rerender. destruct (MapContainer.depsChanged old new).
  - pose proof (navigationEffect_frame new) as (Hu & Hc & Hm).
    split; [auto|]. split.
    + apply navigationEffect_watchesAccounted.
    + apply navigationEffect_routeRequests.
  - auto.
Qed.

Lemma set_url_watchesAccounted (u : NavigationState.Url) (st : MapContainer.State) :
  NavigationState.navigationMode u <> NavigationState.none ->
  MapContainerFacts.watchesAccounted st ->
  MapContainerFacts.watchesAccounted (MapContainer.set_url u st).
Proof.
  unfold MapContainerFacts.watchesAccounted. simpl.
  intros Hu (Href & Hnext & Hrange & Hnd & _). repeat split; auto; try contradiction.
  all: try match goal with E : _ = Some _ |- _ => apply (Href _ E) end.
Qed.

(** What [handleStopNavigation] does before the next render. *)
Lemma stop_watchesAccounted (st : MapContainer.State) :
  MapContainerFacts.watchesAccounted st ->
  let st' := MapContainer.set_directionsRendererRef false
               (MapContainer.releaseWatch
                  (MapContainer.set_url
                     (NavigationState.stopNavigation (MapContainer.url st)) st)) in
  MapContainerFacts.watchesAccounted st' /\
  MapContainer.locationWatchIdRef st' = None /\
  MapContainer.directionsRendererRef st' = false /\
  MapContainer.activeWatches st'
  = match MapContainer.locationWatchIdRef st with
    | Some id => List.filter (fun w => negb (Nat.eqb w id)) (MapContainer.activeWatches st)
    | None => MapContainer.activeWatches st
    end.
Proof.
  destruct st as [u c m renderer ref watches next routes].
  unfold MapContainerFacts.watchesAccounted, MapContainer.releaseWatch. simpl.
  intros (Href & Hnext & Hrange & Hnd & _).
  destruct ref as [[|n]|]; simpl.
  - destruct (Href 0 eq_refl) as [_ H]. lia.
  - repeat split; auto; try discriminate.
    + apply List.Forall_forall. intros w Hw. apply filter_In in Hw.
      rewrite List.Forall_forall in Hrange. apply Hrange. tauto.
    + now apply List.NoDup_filter.
  - repeat split; auto; discriminate.
Qed.

Lemma handle_invariants (e : MapContainer.Event) (st : MapContainer.State) :
  (MapContainer.center (MapContainer.handle e st) = MapContainer.center st /\
   MapContainer.markers (MapContainer.handle e st) = MapContainer.markers st) /\
  (MapContainerFacts.watchesAccounted st ->
   MapContainerFacts.watchesAccounted (MapContainer.handle e st)) /\
  (MapContainerFacts.routesToMarkers st ->
   MapContainerFacts.routesToMarkers (MapContainer.handle e st)).
Proof.
  destruct e as [place|place|]; simpl.
  - unfold MapContainer.handleStaticRoute.
    destruct (MapContainer.center st) eqn:Ec; [|auto].
    set (new := MapContainer.set_url _ st).
    destruct (rerender_invariants st new) as ((Hc & Hm & _) & Hw & Hr).
    split; [split; [now rewrite Hc | now rewrite Hm]|]. split.
    + intros H. apply Hw. apply set_url_watchesAccounted; [|exact H].
      rewrite navigationMode_startNavigation. discriminate.
    + intros H. apply Hr. exact H.
  - unfold MapContainer.handleLiveNavigation.
    destruct (MapContainer.center st) eqn:Ec; [|auto].
    set (new := MapContainer.set_url _ st).
    destruct (rerender_invariants st new) as ((Hc & Hm & _) & Hw & Hr).
    split; [split; [now rewrite Hc | now rewrite Hm]|]. split.
    + intros H. apply Hw. apply set_url_watchesAccounted; [|exact H].
      rewrite navigationMode_startNavigation. discriminate.
    + intros H. apply Hr. exact H.
  - unfold MapContainer.handleStopNavigation. cbv zeta.
    set (new := MapContainer.set_directionsRendererRef false _).
    destruct (rerender_invariants st new) as ((Hc & Hm & _) & Hw & Hr).
    split; [|split].
    + rewrite Hc, Hm. subst new. destruct st as [u c m renderer [[|n]|] watches next routes];
        split; reflexivity.
    + intros H. apply Hw. apply (stop_watchesAccounted st H).
    + intros H. apply Hr. subst new.
      destruct st as [u c m renderer [[|n]|] watches next routes]; exact H.
Qed.

Lemma run_app (events1 events2 : list MapContainer.Event) (st : MapContainer.State) :
  MapContainer.run (events1 ++ events2) st
  = MapContainer.run events2 (MapContainer.run events1 st).
Proof. apply fold_left_app. Qed.

Lemma run_invariants (events : list MapContainer.Event) (st : MapContainer.State) :
  (MapContainer.center (MapContainer.run events st) = MapContainer.center st /\
   MapContainer.markers (MapContainer.run events st) = MapContainer.markers st) /\
  (MapContainerFacts.watchesAccounted st ->
   MapContainerFacts.watchesAccounted (MapContainer.run events st)) /\
  (MapContainerFacts.routesToMarkers st ->
   MapContainerFacts.routesToMarkers (MapContainer.run events st)).
Proof.
  revert st. induction events as [|e events IH]; intros st; [simpl; auto|].
  change (MapContainer.run (e :: events) st)
    with (MapContainer.run events (MapContainer.handle e st)).
  destruct (IH (MapContainer.handle e st)) as ((Hc & Hm) & Hw & Hr).
  destruct (handle_invariants e st) as ((Hc' & Hm') & Hw' & Hr').
  split; [split; congruence|]. split; auto.
Qed.

Lemma mounted_invariants (center : option Coordinates.t) (markers : list Place.t) :
  MapContainerFacts.watchesAccounted (MapContainer.mounted center markers) /\
  MapContainerFacts.routesToMarkers (MapContainer.mounted center markers).
Proof.
  unfold MapContainerFacts.watchesAccounted, MapContainerFacts.routesToMarkers. simpl.
  repeat split; auto; try discriminate; constructor.
Qed.

(** X11: in every state the map component reaches from its first render
    through the actions of the navigation menu, the watch id held in the
    ref is the id of a watch that is still registered, registered watch ids
    are distinct, while the navigation mode is [none] no watch id is held
    and no directions renderer is attached, and every route request that
    was sent was for a place shown on the map. *)
Theorem run_keeps_watches_accounted
  (events : list MapContainer.Event) (center : option Coordinates.t)
  (markers : list Place.t) :
  let st := MapContainer.run events (MapContainer.mounted center markers) in
  MapContainerFacts.watchesAccounted st /\
  MapContainerFacts.routesToMarkers st /\
  MapContainer.center st = center /\
  MapContainer.markers st = markers.
Proof.
  cbv zeta.
  destruct (run_invariants events (MapContainer.mounted center markers))
    as ((Hc & Hm) & Hw & Hr).
  destruct (mounted_invariants center markers) as [Hw0 Hr0].
  split; [auto|]. split; [auto|]. split; [exact Hc | exact Hm].
Qed.

(** After [stopNavigation()] there is no destination, so the render that
    follows [handleStopNavigation] runs no navigation effect. *)
Lemma handleStopNavigation_eq (st : MapContainer.State) :
  MapContainer.handleStopNavigation st
  = MapContainer.set_directionsRendererRef false
      (MapContainer.releaseWatch
         (MapContainer.set_url (NavigationState.stopNavigation (MapContainer.url st)) st)).
Proof.
  unfold MapContainer.handleStopNavigation. cbv zeta.
  set (new := MapContainer.set_directionsRendererRef false _).
  unfold MapContainer.rerender. destruct (MapContainer.depsChanged st new); [|reflexivity].
  unfold MapContainer.navigationEffect.
  assert (Hd : MapContainer.currentDestination new = None).
  { subst new. destruct st as [u c m renderer [[|n]|] watches next routes]; reflexivity. }
  rewrite Hd. now destruct (MapContainer.center new).
Qed.

(** X12: whatever the user did before, [handleStopNavigation] leaves the
    navigation off: the mode is [none], there is no destination, the ref
    holds no watch id, no renderer is attached and no route request is
    sent; the watch whose id the ref held is unregistered, and no other
    watch is. *)
Theorem stop_resets_navigation
  (events : list MapContainer.Event) (center : option Coordinates.t)
  (markers : list Place.t) :
  let before := MapContainer.run events (MapContainer.mounted center markers) in
  let st := MapContainer.handleStopNavigation before in
  NavigationState.navigationMode (MapContainer.url st) = NavigationState.none /\
  NavigationState.destinationId (MapContainer.url st) = None /\
  MapContainer.locationWatchIdRef st = None /\
  MapContainer.directionsRendererRef st = false /\
  MapContainer.routeRequests st = MapContainer.routeRequests before /\
  (forall id,
      MapContainer.locationWatchIdRef before = Some id ->
      ~ In id (MapContainer.activeWatches st)) /\
  (forall w,
      In w (MapContainer.activeWatches before) ->
      MapContainer.locationWatchIdRef before <> Some w ->
      In w (MapContainer.activeWatches st)).
Proof.
  cbv zeta.
  destruct (run_invariants events (MapContainer.mounted center markers))
    as (_ & Hw & _).
  specialize (Hw (proj1 (mounted_invariants center markers))).
  set (before := MapContainer.run events (MapContainer.mounted center markers)) in *.
  rewrite handleStopNavigation_eq.
  destruct (stop_watchesAccounted before Hw) as (_ & Href & Hrend & Hact).
  cbv zeta in Href, Hrend, Hact.
  set (st := MapContainer.set_directionsRendererRef false _) in *.
  assert (Hurl : MapContainer.url st = NavigationState.stopNavigation (MapContainer.url before)).
  { subst st. destruct before as [u c m renderer [[|n]|] watches next routes]; reflexivity. }
  assert (Hroutes : MapContainer.routeRequests st = MapContainer.routeRequests before).
  { subst st. destruct before as [u c m renderer [[|n]|] watches next routes]; reflexivity. }
  rewrite Hurl. split; [reflexivity|]. split; [reflexivity|].
  split; [exact Href|]. split; [exact Hrend|]. split; [exact Hroutes|].
  rewrite Hact. split.
  - intros id E. rewrite E. intros Hin. apply filter_In in Hin.
    destruct Hin as [_ Hin]. now rewrite Nat.eqb_refl in Hin.
  - intros w Hin Hne. destruct (MapContainer.locationWatchIdRef before) as [id|];
      [|exact Hin].
    apply filter_In. split; [exact Hin|].
    apply Bool.negb_true_iff, Nat.eqb_neq. congruence.
Qed.

(** X13: geolocation watching is only ever started by live navigation:
    after any sequence of static-route and stop actions no watch is
    registered and the ref holds no watch id. *)
Theorem static_routes_never_watch
  (events : list MapContainer.Event) (center : option Coordinates.t)
  (markers : list Place.t) :
  Forall (fun e => MapContainerFacts.isLiveNavigationEvent e = false) events ->
  let st := MapContainer.run events (MapContainer.mounted center markers) in
  MapContainer.activeWatches st = [] /\ MapContainer.locationWatchIdRef st = None.
Proof.
  intros Hall. cbv zeta.
  assert (H : forall st,
             MapContainer.activeWatches st = [] /\ MapContainer.locationWatchIdRef st = None ->
             MapContainer.activeWatches (MapContainer.run events st) = [] /\
             MapContainer.locationWatchIdRef (MapContainer.run events st) = None).
  { induction Hall as [|e events He Hall IH]; intros st Hst; [exact Hst|].
    change (MapContainer.run (e :: events) st)
      with (MapContainer.run events (MapContainer.handle e st)).
    apply IH. destruct Hst as [Ha Hr]. destruct e as [place|place|]; simpl.
    - destruct (handleStaticRoute_keeps_watch place st) as [Hr' Ha']. split; congruence.
    - discriminate He.
    - rewrite handleStopNavigation_eq.
      destruct st as [u c m renderer ref watches next routes]. simpl in *.
      subst. split; reflexivity. }
  apply H. split; reflexivity.
Qed.

(** Two static routes and a stop on the map over the fifteen restaurants. *)
Lemma static_routes_never_watch_witness :
  Forall (fun e => MapContainerFacts.isLiveNavigationEvent e = false)
         [MapContainer.StaticRoute Examples.laMama;
          MapContainer.StaticRoute Examples.trattoria;
          MapContainer.StopNavigation] /\
  MapContainer.activeWatches
    (MapContainer.run [MapContainer.StaticRoute Examples.laMama;
                       MapContainer.StaticRoute Examples.trattoria;
                       MapContainer.StopNavigation]
                      (MapContainer.mounted (Some Examples.bucharest)
                                            Examples.mockRestaurants)) = [].
Proof.
  assert (H : Forall (fun e => MapContainerFacts.isLiveNavigationEvent e = false)
                     [MapContainer.StaticRoute Examples.laMama;
                      MapContainer.StaticRoute Examples.trattoria;
                      MapContainer.StopNavigation])
    by (repeat constructor).
  split; [exact H|].
  exact (proj1 (static_routes_never_watch _ (Some Examples.bucharest)
                  Examples.mockRestaurants H)).
Defined.

(** X14: without a user location the navigation actions are inert: after
    any sequence of actions on a map that has no center, the navigation
    mode is [none], no route request has been sent, no watch is registered
    and no renderer is attached. *)
Theorem no_center_no_navigation
  (events : list MapContainer.Event) (markers : list Place.t) :
  let st := MapContainer.run events (MapContainer.mounted None markers) in
  NavigationState.navigationMode (MapContainer.url st) = NavigationState.none /\
  NavigationState.destinationId (MapContainer.url st) = None /\
  MapContainer.routeRequests st = [] /\
  MapContainer.activeWatches st = [] /\
  MapContainer.locationWatchIdRef st = None /\
  MapContainer.directionsRendererRef st = false.
Proof.
  cbv zeta.
  assert (H : forall st,
             MapContainer.center st = None ->
             NavigationState.navigationMode (MapContainer.url st) = NavigationState.none /\
             NavigationState.destinationId (MapContainer.url st) = None /\
             MapContainer.routeRequests st = [] /\
             MapContainer.activeWatches st = [] /\
             MapContainer.locationWatchIdRef st = None /\
             MapContainer.directionsRendererRef st = false ->
             let st' := MapContainer.run events st in
             NavigationState.navigationMode (MapContainer.url st') = NavigationState.none /\
             NavigationState.destinationId (MapContainer.url st') = None /\
             MapContainer.routeRequests st' = [] /\
             MapContainer.activeWatches st' = [] /\
             MapContainer.locationWatchIdRef st' = None /\
             MapContainer.directionsRendererRef st' = false).
  { induction events as [|e events IH]; intros st Hc Hst; [exact Hst|].
    cbv zeta.
    change (MapContainer.run (e :: events) st)
      with (MapContainer.run events (MapContainer.handle e st)).
    destruct e as [place|place|]; simpl.
    - unfold MapContainer.handleStaticRoute. rewrite Hc. now apply IH.
    - unfold MapContainer.handleLiveNavigation. rewrite Hc. now apply IH.
    - rewrite handleStopNavigation_eq.
      destruct st as [u c m renderer ref watches next routes]. simpl in *.
      destruct Hst as (_ & _ & -> & -> & -> & ->). subst c.
      apply IH; [reflexivity|]. simpl. repeat split; reflexivity. }
  apply H; [reflexivity|]. simpl. repeat split; reflexivity.
Qed.

Lemma find_by_id_In (place : Place.t) (markers : list Place.t) :
  In place markers ->
  exists found,
    List.find (fun p => String.eqb (Place.id p) (Place.id place)) markers = Some found /\
    Place.id found = Place.id place.
Proof.
  intros Hin.
  destruct (List.find (fun p => String.eqb (Place.id p) (Place.id place)) markers)
    as [found|] eqn:E.
  - exists found. split; [reflexivity|]. apply find_some in E. now apply String.eqb_eq.
  - pose proof (find_none _ _ E place Hin) as H. simpl in H.
    now rewrite String.eqb_refl in H.
Qed.

(** X15: starting live navigation to a place on the map, when the
    navigation is not already live to that place, registers a new location
    watch and stores its id in the ref without clearing anything: the
    watches registered before all stay registered, also the one whose id
    the ref held; one route request is sent, for that place. *)
Theorem live_navigation_registers_fresh_watch
  (place : Place.t) (st : MapContainer.State) :
  MapContainer.center st <> None ->
  JS.truthy_string (Place.id place) = true ->
  In place (MapContainer.markers st) ->
  (NavigationState.navigationMode (MapContainer.url st) <> NavigationState.live \/
   option_map Place.id (MapContainer.currentDestination st) <> Some (Place.id place)) ->
  let st' := MapContainer.handleLiveNavigation place st in
  MapContainer.activeWatches st'
  = MapContainer.activeWatches st ++ [MapContainer.nextWatchId st] /\
  MapContainer.locationWatchIdRef st' = Some (MapContainer.nextWatchId st) /\
  MapContainer.routeRequests st' = MapContainer.routeRequests st ++ [Place.id place] /\
  NavigationState.navigationMode (MapContainer.url st') = NavigationState.live /\
  NavigationState.destinationId (MapContainer.url st') = Some (Place.id place).
Proof.
  intros Hc Hid Hin Hchg. cbv zeta. unfold MapContainer.handleLiveNavigation.
  destruct (MapContainer.center st) as [c|] eqn:Ec; [clear Hc | contradiction].
  set (new := MapContainer.set_url _ st).
  assert (Hmode : NavigationState.navigationMode (MapContainer.url new)
                  = NavigationState.live) by reflexivity.
  assert (Hdest : NavigationState.destinationId (MapContainer.url new)
                  = Some (Place.id place)).
  { subst new. destruct st. simpl. now apply destinationId_startNavigation. }
  destruct (find_by_id_In place (MapContainer.markers st) Hin) as (found & Hfind & Hfid).
  assert (Hcur : MapContainer.currentDestination new = Some found).
  { unfold MapContainer.currentDestination. rewrite Hdest.
    subst new. destruct st. exact Hfind. }
  assert (Hdeps : MapContainer.depsChanged st new = true).
  { unfold MapContainer.depsChanged. apply Bool.negb_true_iff.
    rewrite Hmode, Hcur. simpl. rewrite Hfid.
    destruct Hchg as [Hm|Hd].
    - rewrite (bool_decide_eq_false_2 _ Hm). reflexivity.
    - rewrite (bool_decide_eq_false_2 _ Hd). now rewrite Bool.andb_false_r. }
  unfold MapContainer.rerender. rewrite Hdeps.
  unfold MapContainer.navigationEffect. rewrite Hcur.
  assert (Hcn : MapContainer.center new = Some c) by (subst new; destruct st; exact Ec).
  rewrite Hcn.
  assert (Hm : forall s, MapContainer.url s = MapContainer.url new ->
                         NavigationState.navigationMode (MapContainer.url s)
                         = NavigationState.live) by (intros s ->; exact Hmode).
  subst new. destruct st as [u c0 m renderer ref watches next routes]. simpl in *.
  destruct renderer; simpl; rewrite Hfid; repeat split; auto.
Qed.

(** Live navigation to [trattoria] while live navigation to [laMama] is
    running. *)
Lemma live_navigation_registers_fresh_watch_witness :
  let st := MapContainer.run [MapContainer.LiveNavigation Examples.laMama]
                             ScenarioExamples.map0 in
  MapContainer.center st <> None /\
  JS.truthy_string (Place.id Examples.trattoria) = true /\
  In Examples.trattoria (MapContainer.markers st) /\
  MapContainer.activeWatches (MapContainer.handleLiveNavigation Examples.trattoria st)
  = MapContainer.activeWatches st ++ [MapContainer.nextWatchId st].
Proof.
  cbv zeta.
  set (st := MapContainer.run [MapContainer.LiveNavigation Examples.laMama]
                              ScenarioExamples.map0).
  assert (H1 : MapContainer.center st <> None) by discriminate.
  assert (H2 : JS.truthy_string (Place.id Examples.trattoria) = true) by reflexivity.
  assert (H3 : In Examples.trattoria (MapContainer.markers st))
    by (right; left; reflexivity).
  assert (H4 : NavigationState.navigationMode (MapContainer.url st)
               <> NavigationState.live \/
               option_map Place.id (MapContainer.currentDestination st)
               <> Some (Place.id Examples.trattoria))
    by (right; vm_compute; discriminate).
  split; [exact H1|]. split; [exact H2|]. split; [exact H3|].
  exact (proj1 (live_navigation_registers_fresh_watch Examples.trattoria st H1 H2 H3 H4)).
Defined.

(** ** useLocation *)

Lemma last_cons {A : Type} (x d : A) (l : list A) :
  List.last (x :: l) d = List.last l x.
Proof.
  revert x d. induction l as [|y l IH]; intros x d; [reflexivity|].
  change (List.last (x :: y :: l) d) with (List.last (y :: l) d).
  now rewrite (IH y d), (IH y x).
Qed.

Lemma currentLocation_resolved_fold (fixes : list UserLocation.t) (st : UseLocation.State)
      (d : UserLocation.t) :
  UseLocation.currentLocation st = Some d ->
  let st' := fold_left (fun s location => UseLocation.currentLocation_resolved location s)
                       fixes st in
  UseLocation.manualLocation st' = UseLocation.manualLocation st /\
  UseLocation.currentLocation st' = Some (List.last fixes d).
Proof.
  revert st d. induction fixes as [|location fixes IH]; intros st d Hd; [now split|].
  cbv zeta. cbn [fold_left].
  destruct (IH (UseLocation.currentLocation_resolved location st) location eq_refl)
    as [Hm Hc].
  split; [exact Hm|]. rewrite Hc. f_equal. symmetry. apply last_cons.
Qed.

(** X16: a location set by hand overrides the positions the browser
    reports: after [setUserLocation(c)], whatever positions arrive, the
    location the hook returns is [c] and it is flagged manual.  Switching
    back with [useGPSLocation] clears the flag and returns the last
    position that arrived meanwhile or, if none did, still the location
    set by hand, with the time it was set. *)
Theorem manual_location_overrides_gps
  (st : UseLocation.State) (c : Coordinates.t) (now now' : float)
  (fixes : list UserLocation.t) :
  let st1 := fold_left (fun s location => UseLocation.currentLocation_resolved location s)
                       fixes (UseLocation.setUserLocation c now st) in
  UseLocation.isManualLocation st1 = true /\
  UseLocation.effectiveLocation now' st1 = Some (UserLocation.mk c None now' None) /\
  UseLocation.isManualLocation (UseLocation.useGPSLocation st1) = false /\
  UseLocation.effectiveLocation now' (UseLocation.useGPSLocation st1)
  = Some (List.last fixes (UserLocation.mk c None now None)).
Proof.
  cbv zeta.
  destruct (currentLocation_resolved_fold fixes (UseLocation.setUserLocation c now st)
              (UserLocation.mk c None now None) eq_refl) as [Hm Hc].
  cbv zeta in Hm, Hc.
  set (st1 := fold_left _ fixes _) in *.
  unfold UseLocation.isManualLocation, UseLocation.effectiveLocation,
    UseLocation.useGPSLocation. simpl. rewrite Hm, Hc. simpl.
  repeat split; try reflexivity.
Qed.

Lemma coordinatesCache_run (events : list UseLocation.Event) (st : UseLocation.State)
      (address : string) (c : Coordinates.t) :
  UseLocation.keepsEntry address events = true ->
  UseLocation.coordinatesCache st !! address = Some c ->
  UseLocation.coordinatesCache (UseLocation.run events st) !! address = Some c.
Proof.
  revert st. induction events as [|e events IH]; intros st Hkeep H; [exact H|].
  change (UseLocation.run (e :: events) st)
    with (UseLocation.run events (UseLocation.handle e st)).
  simpl in Hkeep. apply andb_prop in Hkeep as [He Hkeep].
  apply IH; [exact Hkeep|].
  destruct e as [coordinates now|location| |geocode now a|a]; simpl; auto.
  - unfold UseLocation.getCoordinates.
    destruct (UseLocation.coordinatesCache st !! a) as [cached|] eqn:Ea; simpl; [exact H|].
    destruct geocode as [coordinates|]; simpl; [|exact H].
    rewrite lookup_insert_ne; [exact H|]. intros ->. congruence.
  - rewrite lookup_delete_ne; [exact H|]. intros ->.
    rewrite String.eqb_refl in He. discriminate He.
Qed.

(** X17: the first lookup of an address asks the geocoder once; when the
    geocoder answers, the result becomes the manual user location and is
    cached: as long as the query client has not collected the cache entry,
    every later lookup of that address, whatever else happened in between,
    returns the same coordinates without asking the geocoder and without
    moving the user location.  Once the entry is collected, the next lookup
    asks the geocoder again, and its answer becomes the user location.
    When the geocoder fails, the lookup fails and the location and the
    cache stay as they were. *)
Theorem getCoordinates_cached_until_collected
  (st : UseLocation.State) (address : string) (c : Coordinates.t) (now : float) :
  UseLocation.coordinatesCache st !! address = None ->
  (let '(result, st1) := UseLocation.getCoordinates (Some c) now address st in
   result = Some c /\
   UseLocation.manualLocation st1 = Some c /\
   UseLocation.geocoderCalls st1 = UseLocation.geocoderCalls st ++ [address] /\
   (forall events geocode now',
      UseLocation.keepsEntry address events = true ->
      let st2 := UseLocation.run events st1 in
      UseLocation.getCoordinates geocode now' address st2 = (Some c, st2)) /\
   (forall events geocode now',
      let st2 := UseLocation.run (events ++ [UseLocation.CoordinatesCollected address])
                                 st1 in
      let '(result', st3) := UseLocation.getCoordinates geocode now' address st2 in
      result' = geocode /\
      UseLocation.geocoderCalls st3 = UseLocation.geocoderCalls st2 ++ [address] /\
      forall c', geocode = Some c' -> UseLocation.manualLocation st3 = Some c')) /\
  (let '(result, st1) := UseLocation.getCoordinates None now address st in
   result = None /\
   UseLocation.manualLocation st1 = UseLocation.manualLocation st /\
   UseLocation.currentLocation st1 = UseLocation.currentLocation st /\
   UseLocation.coordinatesCache st1 = UseLocation.coordinatesCache st /\
   UseLocation.geocoderCalls st1 = UseLocation.geocoderCalls st ++ [address]).
Proof.
  intros Hmiss. unfold UseLocation.getCoordinates at 1 4. rewrite Hmiss. simpl. split.
  - split; [reflexivity|]. split; [reflexivity|]. split; [reflexivity|].
    set (st1 := UseLocation.setUserLocation c now _).
    split.
    + intros events geocode now' Hkeep. cbv zeta.
      assert (H1 : UseLocation.coordinatesCache st1 !! address = Some c)
        by (subst st1; simpl; apply lookup_insert_eq).
      pose proof (coordinatesCache_run events st1 address c Hkeep H1) as H2.
      unfold UseLocation.getCoordinates. now rewrite H2.
    + intros events geocode now'. cbv zeta.
      unfold UseLocation.run. rewrite fold_left_app. simpl.
      fold (UseLocation.run events st1).
      unfold UseLocation.getCoordinates. simpl. rewrite lookup_delete_eq.
      destruct geocode as [c'|]; simpl.
      * repeat split; try reflexivity. now intros ? [= ->].
      * repeat split; try reflexivity. discriminate.
  - repeat split; reflexivity.
Qed.

(** The first lookup of an address from the initial state of the hook, and
    a second one after the user went back to the GPS position. *)
Lemma getCoordinates_cached_until_collected_witness :
  UseLocation.coordinatesCache UseLocation.initialState !! "Cluj-Napoca"%string = None /\
  UseLocation.getCoordinates (Some (Coordinates.mk 46.7712 23.6236)) Examples.now
    "Cluj-Napoca" UseLocation.initialState
  = (Some (Coordinates.mk 46.7712 23.6236),
     UseLocation.mkState (Some (Coordinates.mk 46.7712 23.6236))
       (Some (UserLocation.mk (Coordinates.mk 46.7712 23.6236) None Examples.now None))
       {["Cluj-Napoca"%string := Coordinates.mk 46.7712 23.6236]}
       ["Cluj-Napoca"%string]) /\
  fst (UseLocation.getCoordinates None Examples.served "Cluj-Napoca"
         (UseLocation.run [UseLocation.UseGPSLocation]
            (snd (UseLocation.getCoordinates (Some (Coordinates.mk 46.7712 23.6236))
                    Examples.now "Cluj-Napoca" UseLocation.initialState))))
  = Some (Coordinates.mk 46.7712 23.6236).
Proof.
  assert (H : UseLocation.coordinatesCache UseLocation.initialState
                !! "Cluj-Napoca"%string = None) by reflexivity.
  split; [exact H|]. split; [reflexivity|].
  exact (f_equal fst
           (proj1 (proj2 (proj2 (proj2 (proj1
              (getCoordinates_cached_until_collected
                 UseLocation.initialState "Cluj-Napoca"
                 (Coordinates.mk 46.7712 23.6236) Examples.now H)))))
              [UseLocation.UseGPSLocation] None Examples.served eq_refl)).
Defined.

(** ** GooglePlacesService.searchPlaces *)

Section GooglePlaces.
Variable calculateDistance : Coordinates.t -> Coordinates.t -> float.


End GooglePlaces.

(** ** The rating buckets *)

Lemma SFleb_trans (x y z : spec_float) :
  SFleb x y = true -> SFleb y z = true -> SFleb x z = true.
Proof.
  unfold SFleb.
  destruct x as [sx|sx| |sx mx ex], y as [sy|sy| |sy my ey], z as [sz|sz| |sz mz ez];
    try (destruct sx); try (destruct sy); try (destruct sz);
    cbn; try discriminate; try reflexivity.
  all: fold_pos_compare.
  all: destruct (Z.compare_spec ex ey), (Z.compare_spec ey ez), (Z.compare_spec ex ez);
    try discriminate; try reflexivity; try lia.
  all: destruct (Pos.compare_spec mx my), (Pos.compare_spec my mz), (Pos.compare_spec mx mz);
    cbn; try discriminate; try reflexivity; try lia.
Qed.

Lemma float_leb_trans (x y z : float) :
  (x <=? y)%float = true -> (y <=? z)%float = true -> (x <=? z)%float = true.
Proof. rewrite !leb_spec. apply SFleb_trans. Qed.

(** X20: the rating buckets are monotone: of two ratings the higher one
    never gets the worse classification. *)
Theorem getClassificationFromRating_monotone (rating1 rating2 : float) :
  (rating1 <=? rating2)%float = true ->
  classificationRank (PlacesData.getClassificationFromRating rating1)
  <= classificationRank (PlacesData.getClassificationFromRating rating2) /\
  classificationRank (PlaceClassificationBadge.getClassificationFromRating rating1)
  <= classificationRank (PlaceClassificationBadge.getClassificationFromRating rating2).
Proof.
  intros Hle.
  assert (Hup : forall t, JS.geb rating1 t = true -> JS.geb rating2 t = true).
  { unfold JS.geb. intros t Ht. exact (float_leb_trans _ _ _ Ht Hle). }
  assert (H : classificationRank (PlacesData.getClassificationFromRating rating1)
              <= classificationRank (PlacesData.getClassificationFromRating rating2));
    [|split; exact H].
  unfold PlacesData.getClassificationFromRating.
  destruct (JS.geb rating1 4.5) eqn:E1; [rewrite (Hup _ E1); simpl; lia|].
  destruct (JS.geb rating1 4.0) eqn:E2;
    [rewrite (Hup _ E2); destruct (JS.geb rating2 4.5); simpl; lia|].
  destruct (JS.geb rating1 3.5) eqn:E3;
    [rewrite (Hup _ E3); destruct (JS.geb rating2 4.5), (JS.geb rating2 4.0); simpl; lia|].
  destruct (JS.geb rating1 3.0) eqn:E4;
    [rewrite (Hup _ E4);
     destruct (JS.geb rating2 4.5), (JS.geb rating2 4.0), (JS.geb rating2 3.5); simpl; lia|].
  simpl. lia.
Qed.

(** A place rated 3.9 and a place rated 4.6. *)
Lemma getClassificationFromRating_monotone_witness :
  (3.9 <=? 4.6)%float = true /\
  classificationRank (PlacesData.getClassificationFromRating 3.9)
  <= classificationRank (PlacesData.getClassificationFromRating 4.6).
Proof.
  assert (H : (3.9 <=? 4.6)%float = true) by reflexivity.
  split; [exact H|].
  apply (proj1 (getClassificationFromRating_monotone 3.9 4.6 H)).
Defined.

(** ** The filter panel *)

Lemma existsb_filter_irrelevant {A : Type} (f g : A -> bool) (l : list A) :
  (forall x, g x = false -> f x = false) ->
  existsb f (List.filter g l) = existsb f l.
Proof.
  intros H. induction l as [|x l IH]; simpl; [reflexivity|].
  destruct (g x) eqn:E; simpl; rewrite IH; [reflexivity|].
  now rewrite (H x E).
Qed.

(** X21: resetting the filters does not restore the filter state the page
    starts with.  The initial, empty filter set counts as active filters
    and shows every fetched place; after a reset, whatever was set before,
    no filter counts as active, yet the view keeps only the places rated
    within [[0, 5]] whose distance is missing, zero or at most 5000 m. *)
Theorem resetFilters_is_not_the_initial_state :
  PlaceFiltersPanel.hasActiveFilters PlaceFilters.empty = true /\
  (forall result,
      UsePlacesSearch.filteredPlaces (Some result) PlaceFilters.empty
      = PlaceSearchResult.places result) /\
  (forall prev,
      PlaceFiltersPanel.mergeFilters prev PlaceFiltersPanel.resetValue
      = PlaceFiltersPanel.resetValue) /\
  (forall prev,
      PlaceFiltersPanel.hasActiveFilters
        (PlaceFiltersPanel.mergeFilters prev PlaceFiltersPanel.resetValue) = false) /\
  (forall prev result,
      UsePlacesSearch.filteredPlaces
        (Some result) (PlaceFiltersPanel.mergeFilters prev PlaceFiltersPanel.resetValue)
      = List.filter
          (fun place =>
             UsePlacesSearch.ratingClause (PlaceFilters.Rating.mk 0 5) place &&
             UsePlacesSearch.distanceClause 5000 place)
          (PlaceSearchResult.places result)).
Proof.
  split; [reflexivity|]. split; [reflexivity|].
  assert (Hm : forall prev,
             PlaceFiltersPanel.mergeFilters prev PlaceFiltersPanel.resetValue
             = PlaceFiltersPanel.resetValue) by reflexivity.
  split; [exact Hm|]. split; [intros prev; rewrite Hm; reflexivity|].
  intros prev result. rewrite Hm.
  unfold UsePlacesSearch.filteredPlaces, PlaceFiltersPanel.resetValue. simpl.
  change (JS.truthy 5) with true. cbv iota.
  change (5 * 1000)%float with 5000%float.
  apply filter_filter_andb.
Qed.

(** X22: ticking a price checkbox selects its price level and unticking
    it deselects it (every copy of it), neither changes whether any other
    price level is selected, and the filter object the panel sends is the
    filter state after [updateFilters] has merged it. *)
Theorem togglePrice_membership (filters : PlaceFilters.t) (value : float) :
  is_nan value = false ->
  JS.Array_includes
    (PlaceFiltersPanel.selectedPrices (PlaceFiltersPanel.togglePrice true value filters))
    value = true /\
  JS.Array_includes
    (PlaceFiltersPanel.selectedPrices (PlaceFiltersPanel.togglePrice false value filters))
    value = false /\
  (forall checked other,
      (other =? value)%float = false ->
      JS.Array_includes
        (PlaceFiltersPanel.selectedPrices
           (PlaceFiltersPanel.togglePrice checked value filters)) other
      = JS.Array_includes (PlaceFiltersPanel.selectedPrices filters) other) /\
  (forall checked,
      PlaceFiltersPanel.mergeFilters filters
        (PlaceFiltersPanel.togglePrice checked value filters)
      = PlaceFiltersPanel.togglePrice checked value filters).
Proof.
  intros Hnan.
  assert (Hrefl : (value =? value)%float = true).
  { unfold is_nan in Hnan. now apply Bool.negb_false_iff in Hnan. }
  unfold PlaceFiltersPanel.togglePrice, PlaceFiltersPanel.selectedPrices,
    JS.Array_includes. cbv zeta. simpl.
  set (current := match PlaceFilters.priceLevel filters with
                  | Some levels => levels
                  | None => []
                  end).
  split; [|split; [|split]].
  - rewrite existsb_app. simpl. unfold JS.sameValueZero at 2. rewrite Hrefl.
    simpl. apply Bool.orb_true_r.
  - induction current as [|p l IH]; [reflexivity|]. simpl.
    destruct (p =? value)%float eqn:E; simpl; [exact IH|].
    rewrite IH. unfold JS.sameValueZero. rewrite (float_eqb_sym value p), E, Hnan.
    reflexivity.
  - intros checked other Hne.
    assert (Hsv : JS.sameValueZero other value = false).
    { unfold JS.sameValueZero. rewrite Hne, Hnan. now rewrite Bool.andb_false_r. }
    destruct checked.
    + rewrite existsb_app. simpl. rewrite Hsv. now rewrite !Bool.orb_false_r.
    + apply existsb_filter_irrelevant. intros p Hp.
      apply Bool.negb_false_iff in Hp. unfold JS.sameValueZero.
      rewrite (float_eqb_not_nan p value Hp), Bool.andb_false_r, Bool.orb_false_r.
      destruct (other =? p)%float eqn:E; [|reflexivity].
      rewrite (float_eqb_trans other p value E Hp) in Hne. discriminate Hne.
  - intros checked. unfold PlaceFiltersPanel.mergeFilters. simpl.
    destruct filters as [[r|] pl [o|] [d|] [f|]]; reflexivity.
Qed.

(** Ticking and unticking the price level 2 on the empty filter set. *)
Lemma togglePrice_membership_witness :
  is_nan 2 = false /\
  JS.Array_includes
    (PlaceFiltersPanel.selectedPrices
       (PlaceFiltersPanel.togglePrice true 2 PlaceFilters.empty)) 2 = true.
Proof.
  assert (H : is_nan 2 = false) by reflexivity.
  split; [exact H|].
  apply (proj1 (togglePrice_membership PlaceFilters.empty 2 H)).
Defined.

(** ** MockOpenAIService.analyzeReviewSentiment *)

Lemma lower_ascii_idempotent (c : ascii) :
  JS.lower_ascii (JS.lower_ascii c) = JS.lower_ascii c.
Proof. destruct c as [[] [] [] [] [] [] [] []]; reflexivity. Qed.

Lemma toLowerCase_idempotent (s : string) :
  JS.toLowerCase (JS.toLowerCase s) = JS.toLowerCase s.
Proof.
  induction s as [|c s IH]; simpl; [reflexivity|].
  now rewrite lower_ascii_idempotent, IH.
Qed.

Lemma filter_filter_all {A : Type} (f g : A -> bool) (l : list A) :
  Forall (fun x => g x = true) l -> List.filter g (List.filter f l) = List.filter f l.
Proof.
  induction 1 as [|x l Hx Hl IH]; simpl; [reflexivity|].
  destruct (f x); simpl; [rewrite Hx|]; now rewrite IH.
Qed.

Lemma filter_filter_none {A : Type} (f g : A -> bool) (l : list A) :
  Forall (fun x => g x = false) l -> List.filter g (List.filter f l) = [].
Proof.
  induction 1 as [|x l Hx Hl IH]; simpl; [reflexivity|].
  destruct (f x); simpl; [rewrite Hx|]; exact IH.
Qed.

(** X23: the sentiment of a review is decided by the keywords returned
    with it: every keyword is a positive or a negative marker word found in
    the review, the sentiment is positive when more positive than negative
    words were found, negative when fewer, and neutral otherwise (so a
    review without marker words is neutral); the letter case of the review
    does not matter, and one random number is drawn for the confidence. *)
Theorem analyzeReviewSentiment_by_keywords (reviewText : string) (env : Runtime.Env) :
  let '(result, env') := ReviewSentiment.analyzeReviewSentiment reviewText env in
  let positives :=
    length (List.filter ReviewSentiment.isPositiveWord (ReviewSentiment.keywords result)) in
  let negatives :=
    length (List.filter ReviewSentiment.isNegativeWord (ReviewSentiment.keywords result)) in
  length (ReviewSentiment.keywords result) = positives + negatives /\
  ReviewSentiment.sentiment result
  = (if (negatives <? positives)%nat then Sentiment.positive
     else if (positives <? negatives)%nat then Sentiment.negative
     else Sentiment.neutral) /\
  Forall (fun word => JS.includes (JS.toLowerCase reviewText) word = true)
         (ReviewSentiment.keywords result) /\
  ReviewSentiment.analyzeReviewSentiment (JS.toLowerCase reviewText) env = (result, env') /\
  Runtime.randomCursor env' = S (Runtime.randomCursor env) /\
  Runtime.providerCalls env' = Runtime.providerCalls env.
Proof.
  assert (Hpp : Forall (fun w => ReviewSentiment.isPositiveWord w = true)
                       ReviewSentiment.positiveWords) by (repeat constructor).
  assert (Hpn : Forall (fun w => ReviewSentiment.isNegativeWord w = false)
                       ReviewSentiment.positiveWords) by (repeat constructor).
  assert (Hnp : Forall (fun w => ReviewSentiment.isPositiveWord w = false)
                       ReviewSentiment.negativeWords) by (repeat constructor).
  assert (Hnn : Forall (fun w => ReviewSentiment.isNegativeWord w = true)
                       ReviewSentiment.negativeWords) by (repeat constructor).
  unfold ReviewSentiment.analyzeReviewSentiment, Runtime.bind, Runtime.Math_random,
    Runtime.ret. cbv zeta. rewrite toLowerCase_idempotent.
  set (positiveWords := ReviewSentiment.positiveWords) in *.
  set (negativeWords := ReviewSentiment.negativeWords) in *.
  clearbody positiveWords negativeWords.
  set (found := fun word : string => JS.includes (JS.toLowerCase reviewText) word).
  cbn [ReviewSentiment.keywords ReviewSentiment.sentiment].
  rewrite !List.filter_app, !length_app.
  rewrite (filter_filter_all found _ _ Hpp), (filter_filter_none found _ _ Hnp),
    (filter_filter_none found _ _ Hpn), (filter_filter_all found _ _ Hnn).
  cbn [length app]. rewrite Nat.add_0_r.
  split; [reflexivity|]. split; [reflexivity|]. split.
  - rewrite <- List.filter_app. apply List.Forall_forall. intros w Hw.
    apply filter_In in Hw. tauto.
  - split; [reflexivity|]. split; reflexivity.
Qed.

(** ** The markers of the search page *)

Lemma markers_cons (place : Place.t) (l : list Place.t) (type : PlaceType)
      (selectedPlace : option Place.t) :
  PlaceSearchContainer.markers (place :: l) type selectedPlace
  = MapMarker.mk (Place.id place) (Place.coordinates place) type place
                 (match selectedPlace with
                  | Some selected => String.eqb (Place.id selected) (Place.id place)
                  | None => false
                  end)
    :: PlaceSearchContainer.markers l type selectedPlace.
Proof. reflexivity. Qed.

Lemma selected_markers_absent (filteredPlaces : list Place.t) (type : PlaceType)
      (selected : Place.t) :
  ~ In (Place.id selected) (map Place.id filteredPlaces) ->
  List.filter MapMarker.isSelected
    (PlaceSearchContainer.markers filteredPlaces type (Some selected)) = [].
Proof.
  induction filteredPlaces as [|place l IH]; intros Hn; [reflexivity|].
  simpl. destruct (String.eqb_spec (Place.id selected) (Place.id place)) as [E|_].
  - exfalso. apply Hn. left. now symmetry.
  - apply IH. intros H. apply Hn. now right.
Qed.

(** X24: the map gets one marker per filtered place, in the order of the
    list, each with the id, the coordinates and the place itself.  When the
    ids of the places are distinct, at most one marker is flagged selected:
    exactly one when the selected place is among the filtered places, none
    when it was filtered out or when nothing is selected. *)
Theorem markers_selection
  (filteredPlaces : list Place.t) (type : PlaceType) (selectedPlace : option Place.t) :
  List.NoDup (map Place.id filteredPlaces) ->
  let markers := PlaceSearchContainer.markers filteredPlaces type selectedPlace in
  map MapMarker.place markers = filteredPlaces /\
  map MapMarker.id markers = map Place.id filteredPlaces /\
  length (List.filter MapMarker.isSelected markers) <= 1 /\
  (length (List.filter MapMarker.isSelected markers) = 1 <->
   exists selected,
     selectedPlace = Some selected /\
     In (Place.id selected) (map Place.id filteredPlaces)) /\
  Forall (fun marker =>
            MapMarker.isSelected marker = true ->
            option_map Place.id selectedPlace = Some (MapMarker.id marker))
         markers.
Proof.
  intros Hnd. cbv zeta.
  assert (Hplace : map MapMarker.place
                     (PlaceSearchContainer.markers filteredPlaces type selectedPlace)
                   = filteredPlaces).
  { unfold PlaceSearchContainer.markers. rewrite map_map. simpl. apply map_id. }
  assert (Hid : map MapMarker.id
                  (PlaceSearchContainer.markers filteredPlaces type selectedPlace)
                = map Place.id filteredPlaces).
  { unfold PlaceSearchContainer.markers. rewrite map_map. reflexivity. }
  split; [exact Hplace|]. split; [exact Hid|].
  assert (Hall : Forall (fun marker =>
                           MapMarker.isSelected marker = true ->
                           option_map Place.id selectedPlace = Some (MapMarker.id marker))
                        (PlaceSearchContainer.markers filteredPlaces type selectedPlace)).
  { apply List.Forall_forall. intros marker Hin.
    unfold PlaceSearchContainer.markers in Hin. apply in_map_iff in Hin.
    destruct Hin as (place & <- & _). simpl.
    destruct selectedPlace as [selected|]; [|discriminate].
    intros E. apply String.eqb_eq in E. simpl. now rewrite E. }
  destruct selectedPlace as [selected|].
  - assert (Hcount :
              length (List.filter MapMarker.isSelected
                        (PlaceSearchContainer.markers filteredPlaces type (Some selected)))
              = if in_dec string_dec (Place.id selected) (map Place.id filteredPlaces)
                then 1 else 0).
    { clear Hplace Hid Hall.
      induction filteredPlaces as [|place l IH]; [reflexivity|].
      simpl in Hnd. inversion Hnd as [|? ? Hnotin Hnd']; subst.
      rewrite markers_cons. cbn [List.filter MapMarker.isSelected].
      destruct (String.eqb_spec (Place.id selected) (Place.id place)) as [E|Hne].
      - cbn [length].
        assert (Hl : List.filter MapMarker.isSelected
                       (PlaceSearchContainer.markers l type (Some selected)) = []).
        { apply selected_markers_absent. now rewrite E. }
        rewrite Hl.
        destruct (in_dec string_dec (Place.id selected) (map Place.id (place :: l)))
          as [_|Hn]; [reflexivity|].
        exfalso. apply Hn. left. now symmetry.
      - rewrite (IH Hnd').
        destruct (in_dec string_dec (Place.id selected) (map Place.id l)) as [Hin|Hn];
          destruct (in_dec string_dec (Place.id selected) (map Place.id (place :: l)))
            as [Hin'|Hn']; try reflexivity.
        + exfalso. apply Hn'. now right.
        + exfalso. destruct Hin' as [E|Hin']; [now apply Hne | now apply Hn]. }
    rewrite Hcount.
    destruct (in_dec string_dec (Place.id selected) (map Place.id filteredPlaces))
      as [Hin|Hn].
    + split; [lia|]. split; [|exact Hall]. split; [|reflexivity].
      intros _. now exists selected.
    + split; [lia|]. split; [|exact Hall]. split; [discriminate|].
      intros (s & E & Hin). injection E as <-. contradiction.
  - assert (Hnone : List.filter MapMarker.isSelected
                      (PlaceSearchContainer.markers filteredPlaces type None) = []).
    { clear. induction filteredPlaces as [|place l IH]; [reflexivity | exact IH]. }
    rewrite Hnone. simpl. split; [lia|]. split; [|exact Hall].
    split; [discriminate|]. intros (s & E & _). discriminate E.
Qed.

(** The markers of the fifteen restaurants with La Mama selected. *)
Lemma markers_selection_witness :
  List.NoDup (map Place.id Examples.mockRestaurants) /\
  length (List.filter MapMarker.isSelected
            (PlaceSearchContainer.markers Examples.mockRestaurants RESTAURANTS
                                          (Some Examples.laMama))) <= 1.
Proof.
  split; [exact mockRestaurants_ids_NoDup|].
  apply (proj1 (proj2 (proj2 (markers_selection Examples.mockRestaurants RESTAURANTS
                                (Some Examples.laMama) mockRestaurants_ids_NoDup)))).
Defined.

(** ** MapContainer: repeated actions and orphaned watches *)

Lemma depsChanged_same (st : MapContainer.State) : MapContainer.depsChanged st st = false.
Proof.
  unfold MapContainer.depsChanged. apply Bool.negb_false_iff.
  rewrite !bool_decide_eq_true_2 by reflexivity. simpl.
  destruct (MapContainer.center st); [|reflexivity].
  now rewrite !bool_decide_eq_true_2 by reflexivity.
Qed.

Lemma set_url_same (st : MapContainer.State) :
  MapContainer.set_url (MapContainer.url st) st = st.
Proof. now destruct st. Qed.

Lemma start_handler_idempotent (placeId : string) (mode : NavigationState.NavigationMode)
      (st : MapContainer.State) :
  let step s :=
    MapContainer.rerender s
      (MapContainer.set_url
         (NavigationState.startNavigation placeId mode (MapContainer.url s)) s) in
  step (step st) = step st.
Proof.
  cbv beta zeta.
  set (st1 := MapContainer.rerender st
                (MapContainer.set_url
                   (NavigationState.startNavigation placeId mode (MapContainer.url st)) st)).
  assert (Hurl : MapContainer.url st1
                 = NavigationState.startNavigation placeId mode (MapContainer.url st)).
  { subst st1. destruct (rerender_invariants st
                           (MapContainer.set_url
                              (NavigationState.startNavigation placeId mode
                                 (MapContainer.url st)) st)) as ((_ & _ & Hu) & _).
    rewrite Hu. now destruct st. }
  assert (Hsame : NavigationState.startNavigation placeId mode (MapContainer.url st1)
                  = MapContainer.url st1).
  { rewrite Hurl. reflexivity. }
  rewrite Hsame, set_url_same. unfold MapContainer.rerender at 1.
  now rewrite depsChanged_same.
Qed.

(** X25: repeating a menu action right away changes nothing: the second
    click on "static route", "live navigation" or "stop" leaves the state
    the first one produced, so it sends no second route request and
    registers no second watch. *)
Theorem handle_idempotent (e : MapContainer.Event) (st : MapContainer.State) :
  MapContainer.handle e (MapContainer.handle e st) = MapContainer.handle e st.
Proof.
  destruct e as [place|place|]; simpl.
  - unfold MapContainer.handleStaticRoute.
    destruct (MapContainer.center st) as [c|] eqn:Ec; [|now rewrite Ec].
    set (st1 := MapContainer.rerender st
                  (MapContainer.set_url
                     (NavigationState.startNavigation (Place.id place)
                        NavigationState.static (MapContainer.url st)) st)).
    assert (Hc : MapContainer.center st1 = Some c).
    { subst st1. destruct (rerender_invariants st
                             (MapContainer.set_url
                                (NavigationState.startNavigation (Place.id place)
                                   NavigationState.static (MapContainer.url st)) st))
        as ((Hc & _) & _).
      rewrite Hc. now destruct st. }
    rewrite Hc.
    exact (start_handler_idempotent (Place.id place) NavigationState.static st).
  - unfold MapContainer.handleLiveNavigation.
    destruct (MapContainer.center st) as [c|] eqn:Ec; [|now rewrite Ec].
    set (st1 := MapContainer.rerender st
                  (MapContainer.set_url
                     (NavigationState.startNavigation (Place.id place)
                        NavigationState.live (MapContainer.url st)) st)).
    assert (Hc : MapContainer.center st1 = Some c).
    { subst st1. destruct (rerender_invariants st
                             (MapContainer.set_url
                                (NavigationState.startNavigation (Place.id place)
                                   NavigationState.live (MapContainer.url st)) st))
        as ((Hc & _) & _).
      rewrite Hc. now destruct st. }
    rewrite Hc.
    exact (start_handler_idempotent (Place.id place) NavigationState.live st).
  - rewrite !handleStopNavigation_eq.
    destruct st as [u c m renderer [[|n]|] watches next routes]; reflexivity.
Qed.

Lemma noOrphanWatch_idle (st : MapContainer.State) :
  MapContainerLifecycle.noOrphanWatch st ->
  MapContainer.locationWatchIdRef st = None ->
  MapContainer.activeWatches st = [].
Proof.
  unfold MapContainerLifecycle.noOrphanWatch. intros H Href.
  destruct (MapContainer.activeWatches st) as [|w l]; [reflexivity|].
  inversion H as [|? ? Hw _]; subst. congruence.
Qed.

Lemma filter_orphans (id : nat) (watches : list nat) :
  Forall (fun w => Some id = Some w) watches ->
  List.filter (fun w => negb (Nat.eqb w id)) watches = [].
Proof.
  induction 1 as [|w l Hw Hl IH]; [reflexivity|]. simpl.
  injection Hw as <-. now rewrite Nat.eqb_refl.
Qed.

Lemma handle_noOrphanWatch (e : MapContainer.Event) (st : MapContainer.State) :
  MapContainerFacts.watchesAccounted st ->
  MapContainerLifecycle.noOrphanWatch st ->
  (MapContainerFacts.isLiveNavigationEvent e = true ->
   MapContainer.locationWatchIdRef st = None) ->
  MapContainerLifecycle.noOrphanWatch (MapContainer.handle e st).
Proof.
  intros Hw Ho Hidle. destruct e as [place|place|]; simpl.
  - destruct (handleStaticRoute_keeps_watch place st) as [Hr Ha].
    unfold MapContainerLifecycle.noOrphanWatch in *. now rewrite Hr, Ha.
  - specialize (Hidle eq_refl).
    pose proof (noOrphanWatch_idle st Ho Hidle) as Hempty.
    unfold MapContainer.handleLiveNavigation.
    destruct (MapContainer.center st) as [c|] eqn:Ec; [|exact Ho].
    unfold MapContainer.rerender.
    set (new := MapContainer.set_url _ st).
    assert (Hnew : MapContainerLifecycle.noOrphanWatch new).
    { subst new. destruct st. exact Ho. }
    destruct (MapContainer.depsChanged st new); [|exact Hnew].
    unfold MapContainer.navigationEffect.
    destruct (MapContainer.center new); [|exact Hnew].
    destruct (MapContainer.currentDestination new) as [dest|]; [|exact Hnew].
    assert (Hmode : NavigationState.navigationMode (MapContainer.url new)
                    = NavigationState.live) by reflexivity.
    subst new. destruct st as [u c0 m renderer ref watches next routes].
    simpl in *. subst ref watches.
    unfold MapContainerLifecycle.noOrphanWatch.
    destruct renderer; simpl; repeat constructor.
  - rewrite handleStopNavigation_eq.
    destruct Hw as (Href & _).
    destruct st as [u c m renderer [[|n]|] watches next routes];
      unfold MapContainerLifecycle.noOrphanWatch in *; simpl in *.
    + destruct (Href 0 eq_refl) as [_ H]. lia.
    + rewrite (filter_orphans (S n) watches Ho). constructor.
    + destruct watches as [|w l]; [constructor|].
      inversion Ho as [|? ? H _]; discriminate H.
Qed.

(** X26: a location watch that the component can no longer clear only
    comes from starting live navigation while a watch id is still held.
    In every run of menu actions in which live navigation is started only
    while the ref is empty, every registered watch is the one the ref
    holds, and unmounting the map leaves no watch registered. *)
Theorem no_orphan_watch_when_live_starts_idle
  (events : list MapContainer.Event) (center : option Coordinates.t)
  (markers : list Place.t) :
  MapContainerLifecycle.liveOnlyWhenIdle events (MapContainer.mounted center markers) ->
  let st := MapContainer.run events (MapContainer.mounted center markers) in
  MapContainerLifecycle.noOrphanWatch st /\
  MapContainer.activeWatches (MapContainerLifecycle.unmount st) = [].
Proof.
  intros Hidle. cbv zeta.
  assert (H : forall st,
             MapContainerFacts.watchesAccounted st ->
             MapContainerLifecycle.noOrphanWatch st ->
             MapContainerLifecycle.liveOnlyWhenIdle events st ->
             MapContainerFacts.watchesAccounted (MapContainer.run events st) /\
             MapContainerLifecycle.noOrphanWatch (MapContainer.run events st)).
  { clear Hidle. induction events as [|e events IH]; intros st Hw Ho Hidle; [now split|].
    change (MapContainer.run (e :: events) st)
      with (MapContainer.run events (MapContainer.handle e st)).
    destruct Hidle as [He Hrest].
    apply IH; [|now apply handle_noOrphanWatch | exact Hrest].
    now apply (proj1 (proj2 (handle_invariants e st))). }
  destruct (H (MapContainer.mounted center markers)) as [Hw Ho];
    [apply mounted_invariants | constructor | exact Hidle |].
  split; [exact Ho|].
  set (st := MapContainer.run events (MapContainer.mounted center markers)) in *.
  destruct Hw as (Href & _).
  unfold MapContainerLifecycle.unmount, MapContainerLifecycle.noOrphanWatch in *.
  destruct st as [u c m renderer [[|n]|] watches next routes]; simpl in *.
  - destruct (Href 0 eq_refl) as [_ H0]. lia.
  - now apply filter_orphans.
  - destruct watches as [|w l]; [reflexivity|].
    inversion Ho as [|? ? H0 _]; discriminate H0.
Qed.

(** Live navigation, stopped before live navigation to another place is
    started. *)
Lemma no_orphan_watch_when_live_starts_idle_witness :
  let events := [MapContainer.LiveNavigation Examples.laMama;
                 MapContainer.StopNavigation;
                 MapContainer.LiveNavigation Examples.trattoria] in
  MapContainerLifecycle.liveOnlyWhenIdle
    events (MapContainer.mounted (Some Examples.bucharest) Examples.mockRestaurants) /\
  MapContainer.activeWatches
    (MapContainerLifecycle.unmount
       (MapContainer.run events
          (MapContainer.mounted (Some Examples.bucharest) Examples.mockRestaurants))) = [].
Proof.
  cbv zeta.
  assert (H : MapContainerLifecycle.liveOnlyWhenIdle
                [MapContainer.LiveNavigation Examples.laMama;
                 MapContainer.StopNavigation;
                 MapContainer.LiveNavigation Examples.trattoria]
                (MapContainer.mounted (Some Examples.bucharest) Examples.mockRestaurants)).
  { vm_compute. repeat split; intros; try reflexivity; discriminate. }
  split; [exact H|].
  exact (proj2 (no_orphan_watch_when_live_starts_idle _ _ _ H)).
Defined.

(** ** GooglePlacesService.textSearch and the distance filter *)

Section GoogleTextSearch.
Variable calculateDistance : Coordinates.t -> Coordinates.t -> float.


End GoogleTextSearch.

(** ** MapContainer: showing a static route *)

(** X28: showing a static route to a marker's place, when that is not
    already the static destination, sends exactly one route request, for
    that place, attaches a directions renderer and sets the mode to
    [static] with that destination; it registers no watch and leaves the
    registered watches and the ref as they were. *)
Theorem static_route_requests_one_route (place : Place.t) (st : MapContainer.State) :
  MapContainer.center st <> None ->
  JS.truthy_string (Place.id place) = true ->
  In place (MapContainer.markers st) ->
  (NavigationState.navigationMode (MapContainer.url st) <> NavigationState.static \/
   option_map Place.id (MapContainer.currentDestination st) <> Some (Place.id place)) ->
  let st' := MapContainer.handleStaticRoute place st in
  MapContainer.routeRequests st' = MapContainer.routeRequests st ++ [Place.id place] /\
  MapContainer.directionsRendererRef st' = true /\
  NavigationState.navigationMode (MapContainer.url st') = NavigationState.static /\
  NavigationState.destinationId (MapContainer.url st') = Some (Place.id place) /\
  MapContainer.activeWatches st' = MapContainer.activeWatches st /\
  MapContainer.locationWatchIdRef st' = MapContainer.locationWatchIdRef st /\
  MapContainer.nextWatchId st' = MapContainer.nextWatchId st.
Proof.
  intros Hc Hid Hin Hchg. cbv zeta. unfold MapContainer.handleStaticRoute.
  destruct (MapContainer.center st) as [c|] eqn:Ec; [clear Hc | contradiction].
  set (new := MapContainer.set_url _ st).
  assert (Hmode : NavigationState.navigationMode (MapContainer.url new)
                  = NavigationState.static) by reflexivity.
  assert (Hdest : NavigationState.destinationId (MapContainer.url new)
                  = Some (Place.id place)).
  { subst new. destruct st. simpl. now apply destinationId_startNavigation. }
  destruct (find_by_id_In place (MapContainer.markers st) Hin) as (found & Hfind & Hfid).
  assert (Hcur : MapContainer.currentDestination new = Some found).
  { unfold MapContainer.currentDestination. rewrite Hdest.
    subst new. destruct st. exact Hfind. }
  assert (Hdeps : MapContainer.depsChanged st new = true).
  { unfold MapContainer.depsChanged. apply Bool.negb_true_iff.
    rewrite Hmode, Hcur. simpl. rewrite Hfid.
    destruct Hchg as [Hm|Hd].
    - rewrite (bool_decide_eq_false_2 _ Hm). reflexivity.
    - rewrite (bool_decide_eq_false_2 _ Hd). now rewrite Bool.andb_false_r. }
  unfold MapContainer.rerender. rewrite Hdeps.
  unfold MapContainer.navigationEffect. rewrite Hcur.
  assert (Hcn : MapContainer.center new = Some c) by (subst new; destruct st; exact Ec).
  rewrite Hcn.
  subst new. destruct st as [u c0 m renderer ref watches next routes]. simpl in *.
  destruct renderer; simpl; rewrite Hfid; repeat split; auto.
Qed.

(** A static route to [laMama] on the freshly rendered map. *)
Lemma static_route_requests_one_route_witness :
  MapContainer.center ScenarioExamples.map0 <> None /\
  JS.truthy_string (Place.id Examples.laMama) = true /\
  In Examples.laMama (MapContainer.markers ScenarioExamples.map0) /\
  MapContainer.routeRequests
    (MapContainer.handleStaticRoute Examples.laMama ScenarioExamples.map0)
  = MapContainer.routeRequests ScenarioExamples.map0 ++ [Place.id Examples.laMama].
Proof.
  assert (H1 : MapContainer.center ScenarioExamples.map0 <> None) by discriminate.
  assert (H2 : JS.truthy_string (Place.id Examples.laMama) = true) by reflexivity.
  assert (H3 : In Examples.laMama (MapContainer.markers ScenarioExamples.map0))
    by (left; reflexivity).
  assert (H4 : NavigationState.navigationMode (MapContainer.url ScenarioExamples.map0)
               <> NavigationState.static \/
               option_map Place.id (MapContainer.currentDestination ScenarioExamples.map0)
               <> Some (Place.id Examples.laMama))
    by (left; discriminate).
  split; [exact H1|]. split; [exact H2|]. split; [exact H3|].
  exact (proj1 (static_route_requests_one_route Examples.laMama ScenarioExamples.map0
                  H1 H2 H3 H4)).
Defined.
